(** * Merge engine of [scripts/sync_proto.py]

    A shallow embedding of the line-oriented merge engine of the proto
    synchronisation script: the section extractor [parse_proto_file], the
    import rewriter [transform_import_path], the exclusion filter
    [filter_excluded_definitions], the annotation stripper
    [remove_options_from_rpc_blocks], the empty-block collapser
    [cleanup_empty_rpc_blocks] and the orchestrator [merge_proto_files].

    Conventions of the embedding.
    - A Python [str] is a [string]; a character is the code point it
      denotes, in the range 0..255 (the character classes below are the
      Python ones restricted to that range).
    - A Python [list] is a [list]; [result.append x] is [result ++ [x]].
    - Indexing and [pop] raise [IndexError] out of range; this is kept
      explicit in the [exc] monad.
    - A [while] loop is a fixpoint on a bound of iterations; running out
      of the bound is the outcome [Raise LoopBound], distinct from every
      value the loop can return. *)

From stdpp Require Import gmap strings list sorting.
From Stdlib Require Import ZArith Lia Ascii.

Open Scope string_scope.
Open Scope list_scope.

(** ** Exceptions *)

Inductive exn : Type :=
| IndexError
| LoopBound.

Inductive exc (A : Type) : Type :=
| Ok (a : A)
| Raise (e : exn).

Arguments Ok {A} a.
Arguments Raise {A} e.

Definition bind {A B} (m : exc A) (f : A → exc B) : exc B :=
  match m with
  | Ok a => f a
  | Raise e => Raise e
  end.

Notation "'let*' x := m 'in' k" := (bind m (λ x, k))
  (at level 10, x name, m at level 100, k at level 200).
Notation "'let*' ' p := m 'in' k" := (bind m (λ p, k))
  (at level 10, p pattern, m at level 100, k at level 200).

Definition is_Ok {A} (m : exc A) : Prop := ∃ a, m = Ok a.

(** [l[i]] with Python's negative indices. *)
Definition py_index {A} (l : list A) (i : Z) : exc A :=
  let k := if (i <? 0)%Z then (Z.of_nat (length l) + i)%Z else i in
  if (k <? 0)%Z then Raise IndexError
  else match l !! Z.to_nat k with
       | Some x => Ok x
       | None => Raise IndexError
       end.

(** [l.pop(0)]: the list that is left. *)
Definition py_pop0 {A} (l : list A) : exc (list A) :=
  match l with
  | [] => Raise IndexError
  | _ :: l' => Ok l'
  end.

(** [l.pop()]: the list that is left. *)
Definition py_pop {A} (l : list A) : exc (list A) :=
  match l with
  | [] => Raise IndexError
  | _ => Ok (removelast l)
  end.

(** ** Python string primitives *)

Module Py.

(** [str.isspace] on one character (also the class [\s] of [re]). *)
Definition isspace (c : ascii) : bool :=
  let n := Ascii.N_of_ascii c in
  ((9 <=? n) && (n <=? 13) || (28 <=? n) && (n <=? 32)
   || (n =? 133) || (n =? 160))%N.

(** The class [\w] of [re] on [str] patterns. *)
Definition isword (c : ascii) : bool :=
  let n := Ascii.N_of_ascii c in
  ((48 <=? n) && (n <=? 57) || (65 <=? n) && (n <=? 90) || (n =? 95)
   || (97 <=? n) && (n <=? 122) || (n =? 170) || (178 <=? n) && (n <=? 179)
   || (n =? 181) || (185 <=? n) && (n <=? 186) || (188 <=? n) && (n <=? 190)
   || (192 <=? n) && (n <=? 214) || (216 <=? n) && (n <=? 246)
   || (248 <=? n) && (n <=? 255))%N.

Fixpoint lstrip_by (p : ascii → bool) (s : string) : string :=
  match s with
  | "" => ""
  | String c s' => if p c then lstrip_by p s' else s
  end.

Fixpoint rstrip_by (p : ascii → bool) (s : string) : string :=
  match s with
  | "" => ""
  | String c s' =>
      match rstrip_by p s' with
      | "" => if p c then "" else String c ""
      | r => String c r
      end
  end.

Fixpoint str_drop (n : nat) (s : string) : string :=
  match n, s with
  | 0, _ => s
  | S n', String _ s' => str_drop n' s'
  | S _, "" => ""
  end.

Fixpoint take_while (p : ascii → bool) (s : string) : string :=
  match s with
  | "" => ""
  | String c s' => if p c then String c (take_while p s') else ""
  end.

Fixpoint str_forallb (p : ascii → bool) (s : string) : bool :=
  match s with
  | "" => true
  | String c s' => p c && str_forallb p s'
  end.

(** [s.rstrip()], [s.strip()] and [s.rstrip('{')]. *)
Definition rstrip (s : string) : string := rstrip_by isspace s.
Definition strip (s : string) : string := rstrip_by isspace (lstrip_by isspace s).
Definition rstrip_char (c : ascii) (s : string) : string := rstrip_by (Ascii.eqb c) s.

(** [s.startswith(p)]. *)
Definition startswith (p s : string) : bool := String.prefix p s.

(** [s.endswith(p)]. *)
Fixpoint endswith (p s : string) : bool :=
  String.eqb s p ||
  match s with
  | "" => false
  | String _ s' => endswith p s'
  end.

(** [p in s]. *)
Fixpoint contains (p s : string) : bool :=
  String.prefix p s ||
  match s with
  | "" => false
  | String _ s' => contains p s'
  end.

(** [s.count(c)] for a one-character [c]. *)
Fixpoint count_char (c : ascii) (s : string) : nat :=
  match s with
  | "" => 0
  | String d s' => (if Ascii.eqb d c then 1 else 0) + count_char c s'
  end.

Definition nl_char : ascii := Ascii.ascii_of_nat 10.
Definition nl : string := String nl_char "".

(** [s.split('\n')]. *)
Fixpoint split_lines (s : string) : list string :=
  match s with
  | "" => [""]
  | String c s' =>
      if Ascii.eqb c nl_char then "" :: split_lines s'
      else match split_lines s' with
           | [] => [String c ""]
           | l :: ls => String c l :: ls
           end
  end.

(** ['\n'.join(l)]. *)
Definition join_lines (l : list string) : string := String.concat nl l.

(** Truth value of a string, of [None] or a string, and of a list. *)
Definition truthy (s : string) : bool := negb (String.eqb s "").

Definition truthy_str (o : option string) : bool :=
  match o with
  | Some s => truthy s
  | None => false
  end.

Definition truthy_list {A} (l : list A) : bool :=
  match l with
  | [] => false
  | _ => true
  end.

(** [str(a) <= str(b)]: lexicographic on code points. *)
Definition str_leb (a b : string) : bool := String.leb a b.

End Py.

(** [stripped.count('{') - stripped.count('}')]. *)
Definition brace_balance (stripped : string) : Z :=
  (Z.of_nat (Py.count_char "{" stripped) - Z.of_nat (Py.count_char "}" stripped))%Z.

(** [re.match(kw + r'\s+(\w+)', s)] and its [group(1)]: the keyword, at
    least one white-space character, then the longest run of word
    characters, which must not be empty. *)
Definition match_name (kw s : string) : option string :=
  if Py.startswith kw s then
    match Py.str_drop (String.length kw) s with
    | String c rest =>
        if Py.isspace c then
          let name := Py.take_while Py.isword (Py.lstrip_by Py.isspace rest) in
          if String.eqb name "" then None else Some name
        else None
    | "" => None
    end
  else None.


(** ** Configuration *)

Module SKIP_PATTERNS.
Definition line_prefixes : list string := ["option go_package"].
Definition line_contains : list string :=
  ["option (grpc.gateway.protoc_gen_openapiv2.options.openapiv2_swagger)"].
Definition option_blocks : list string := ["option (google.api.http)"].
Definition import_contains : list string :=
  ["google/api/annotations.proto";
   "protoc-gen-openapiv2/options/annotations.proto"].
End SKIP_PATTERNS.

(** ** [parse_proto_file] *)

Module Parse.

(** The dictionary [result]. *)
Record dict : Type := Dict {
  license : list string;
  syntax : option string;
  java_package : option string;
  package : option string;
  imports : list string;
  body : list string }.

(** The dictionary and the local variables of the scan. *)
Record state : Type := State {
  result : dict;
  license_done : bool;
  syntax_done : bool;
  package_done : bool;
  in_http_option : bool;
  brace_depth : Z }.

Definition init : state :=
  State (Dict [] None None None [] []) false false false false 0.

Definition with_result (f : dict → dict) (st : state) : state :=
  State (f (result st)) (license_done st) (syntax_done st) (package_done st)
        (in_http_option st) (brace_depth st).
Definition set_license_done (st : state) : state :=
  State (result st) true (syntax_done st) (package_done st)
        (in_http_option st) (brace_depth st).
Definition set_syntax_done (st : state) : state :=
  State (result st) (license_done st) true (package_done st)
        (in_http_option st) (brace_depth st).
Definition set_package_done (st : state) : state :=
  State (result st) (license_done st) (syntax_done st) true
        (in_http_option st) (brace_depth st).
Definition set_in_http_option (b : bool) (st : state) : state :=
  State (result st) (license_done st) (syntax_done st) (package_done st)
        b (brace_depth st).
Definition set_brace_depth (d : Z) (st : state) : state :=
  State (result st) (license_done st) (syntax_done st) (package_done st)
        (in_http_option st) d.

Definition append_license (line : string) (r : dict) : dict :=
  Dict (license r ++ [line]) (syntax r) (java_package r) (package r) (imports r) (body r).
Definition set_syntax (line : string) (r : dict) : dict :=
  Dict (license r) (Some line) (java_package r) (package r) (imports r) (body r).
Definition set_java_package (line : string) (r : dict) : dict :=
  Dict (license r) (syntax r) (Some line) (package r) (imports r) (body r).
Definition set_package (line : string) (r : dict) : dict :=
  Dict (license r) (syntax r) (java_package r) (Some line) (imports r) (body r).
Definition append_import (line : string) (r : dict) : dict :=
  Dict (license r) (syntax r) (java_package r) (package r) (imports r ++ [line]) (body r).
Definition append_body (line : string) (r : dict) : dict :=
  Dict (license r) (syntax r) (java_package r) (package r) (imports r) (body r ++ [line]).

(** [is_comment]: the last disjunct reads [lines[i-1]] only when the
    first two conjuncts hold. *)
Definition is_comment (lines : list string) (i : nat) (stripped : string) : exc bool :=
  if Py.startswith "//" stripped then Ok true
  else if Py.startswith "/*" stripped then Ok true
  else if Py.startswith "*" stripped then
    if (0 <? i)%nat then
      let* prev := py_index lines (Z.of_nat i - 1) in
      Ok (Py.contains "/*" prev)
    else Ok false
  else Ok false.

(** One iteration of [for option_pattern in SKIP_PATTERNS['option_blocks']]:
    its [continue] ends this iteration only. *)
Definition option_block_iter (stripped : string) (st : state) (option_pattern : string) : state :=
  if Py.contains option_pattern stripped then
    let d := brace_balance stripped in
    let st := set_brace_depth d st in
    if (0 <? d)%Z then set_in_http_option true st else st
  else st.

(** From [# Parse package declaration] to the end of the loop body. *)
Definition declarations (line stripped : string) (st : state) : state :=
  if negb (package_done st) && Py.startswith "package " stripped then
    set_package_done (with_result (set_package line) st)
  else if Py.startswith "import " stripped then
    if negb (existsb (λ pattern, Py.contains pattern line) SKIP_PATTERNS.import_contains)
    then with_result (append_import line) st
    else st
  else if syntax_done st && package_done st && negb (in_http_option st) then
    with_result (append_body line) st
  else st.

(** From [# Track and skip option blocks] to the end of the loop body. *)
Definition option_blocks (line stripped : string) (st : state) : state :=
  if syntax_done st then
    let st := foldl (option_block_iter stripped) st SKIP_PATTERNS.option_blocks in
    if in_http_option st then
      let d := (brace_depth st + brace_balance stripped)%Z in
      let st := set_brace_depth d st in
      if (d <=? 0)%Z then set_in_http_option false st else st
    else declarations line stripped st
  else declarations line stripped st.

(** From [# Skip empty lines after license but before syntax] to the end
    of the loop body. *)
Definition after_license (line stripped : string) (st : state) : state :=
  if license_done st && negb (syntax_done st) && negb (Py.truthy stripped) then st
  else if negb (syntax_done st) && Py.startswith "syntax =" stripped then
    set_syntax_done (with_result (set_syntax line) st)
  else if Py.startswith "option java_package" stripped then
    if negb (Py.truthy_str (java_package (result st)))
    then with_result (set_java_package line) st
    else st
  else if existsb (λ prefix, Py.startswith prefix stripped) SKIP_PATTERNS.line_prefixes then st
  else if existsb (λ pattern, Py.contains pattern stripped) SKIP_PATTERNS.line_contains then st
  else option_blocks line stripped st.

(** The body of [for i, line in enumerate(lines)]. *)
Definition iter (lines : list string) (i : nat) (line : string) (st : state) : exc state :=
  let stripped := Py.strip line in
  if negb (license_done st) then
    let* c := is_comment lines i stripped in
    if c then Ok (with_result (append_license line) st)
    else if negb (Py.truthy stripped) then Ok (set_license_done st)
    else Ok (after_license line stripped (set_license_done st))
  else Ok (after_license line stripped st).

(** [for i, line in enumerate(lines)], from index [i] on. *)
Fixpoint loop (lines : list string) (i : nat) (todo : list string) (st : state) : exc state :=
  match todo with
  | [] => Ok st
  | line :: todo' =>
      let* st' := iter lines i line st in
      loop lines (S i) todo' st'
  end.

End Parse.

Definition parse_proto_file (content : string) : exc Parse.dict :=
  let lines := Py.split_lines content in
  let* st := Parse.loop lines 0 lines Parse.init in
  Ok (Parse.result st).

(** ** [transform_import_path] *)

Module Re.

Definition dquote : ascii := Ascii.ascii_of_nat 34.

(** The tail of the pattern, a non-empty greedy run of characters other
    than the double quote followed by [.proto], matched at the head of
    [t]: the run is the longest one that still leaves [.proto] behind it.
    The text after the match is returned. *)
Fixpoint file_part (t : string) : option string :=
  match t with
  | "" => None
  | String c t' =>
      if Ascii.eqb c dquote then None
      else match file_part t' with
           | Some r => Some r
           | None =>
               if Py.startswith ".proto" t' then Some (Py.str_drop 6 t') else None
           end
  end.

(** The whole pattern matched at the head of [s]: [banyandb/], group 1 (a
    non-empty run of characters other than [/], necessarily the longest
    one, since [/v1/] must follow), [/v1/], then [file_part]. Group 1 and
    the text after the match are returned. *)
Definition match_here (s : string) : option (string * string) :=
  if Py.startswith "banyandb/" s then
    let s1 := Py.str_drop 9 s in
    let module := Py.take_while (λ c, negb (Ascii.eqb c "/")) s1 in
    let s2 := Py.str_drop (String.length module) s1 in
    if String.eqb module "" then None
    else if Py.startswith "/v1/" s2 then
      match file_part (Py.str_drop 4 s2) with
      | Some r => Some (module, r)
      | None => None
      end
    else None
  else None.

(** [re.sub(pattern, replace_import, s)]: leftmost matches, not
    overlapping; the bound [n] is on the characters left to scan. *)
Fixpoint sub (n : nat) (s : string) : string :=
  match n with
  | 0 => s
  | S n' =>
      match match_here s with
      | Some (module, r) =>
          "banyandb/v1/banyandb-" +:+ module +:+ ".proto" +:+ sub n' r
      | None =>
          match s with
          | "" => ""
          | String c s' => String c (sub n' s')
          end
      end
  end.

End Re.

Definition transform_import_path (import_line : string) : string :=
  Re.sub (String.length import_line) import_line.

(** ** [filter_excluded_definitions] *)

Module Filter.

(** The local variables of the scan. *)
Record state : Type := State {
  i : nat;
  skip_until_close : bool;
  brace_depth : Z;
  result : list string }.

(** [# Check for excluded RPCs] and [# Keep this line]. *)
Definition rpc_check (exclude_rpcs : list string) (line stripped : string)
    (st : state) : state :=
  let keep := State (i st + 1) (skip_until_close st) (brace_depth st) (result st ++ [line]) in
  if Py.truthy_list exclude_rpcs && Py.startswith "rpc " stripped then
    match match_name "rpc" stripped with
    | Some rpc_name =>
        if bool_decide (rpc_name ∈ exclude_rpcs) then
          if Py.endswith ";" stripped then
            State (i st + 1) (skip_until_close st) (brace_depth st) (result st)
          else if Py.contains "{" stripped then
            State (i st + 1) true (brace_balance stripped) (result st)
          else keep
        else keep
    | None => keep
    end
  else keep.

(** [# Check for excluded messages] and what follows it. *)
Definition message_check (exclude_messages exclude_rpcs : list string)
    (line stripped : string) (st : state) : state :=
  if Py.truthy_list exclude_messages && Py.startswith "message " stripped then
    match match_name "message" stripped with
    | Some message_name =>
        if bool_decide (message_name ∈ exclude_messages) then
          State (i st + 1) true (brace_balance stripped) (result st)
        else rpc_check exclude_rpcs line stripped st
    | None => rpc_check exclude_rpcs line stripped st
    end
  else rpc_check exclude_rpcs line stripped st.

(** The body of the [while] loop once [line] is read. *)
Definition on_line (exclude_messages exclude_rpcs : list string) (line : string)
    (st : state) : state :=
  let stripped := Py.strip line in
  if skip_until_close st then
    let d := (brace_depth st + brace_balance stripped)%Z in
    if (d <=? 0)%Z then State (i st + 1) false 0 (result st)
    else State (i st + 1) true d (result st)
  else message_check exclude_messages exclude_rpcs line stripped st.

(** The body of the [while] loop. *)
Definition iter (body_lines exclude_messages exclude_rpcs : list string)
    (st : state) : exc state :=
  let* line := py_index body_lines (Z.of_nat (i st)) in
  Ok (on_line exclude_messages exclude_rpcs line st).

(** [while i < len(body_lines)]. *)
Fixpoint while (n : nat) (body_lines exclude_messages exclude_rpcs : list string)
    (st : state) : exc (list string) :=
  if (i st <? length body_lines)%nat then
    match n with
    | 0 => Raise LoopBound
    | S n' =>
        let* st' := iter body_lines exclude_messages exclude_rpcs st in
        while n' body_lines exclude_messages exclude_rpcs st'
    end
  else Ok (result st).

End Filter.

Definition filter_excluded_definitions
    (body_lines exclude_messages exclude_rpcs : list string) : exc (list string) :=
  if negb (Py.truthy_list body_lines)
     || (negb (Py.truthy_list exclude_messages) && negb (Py.truthy_list exclude_rpcs))
  then Ok body_lines
  else Filter.while (length body_lines) body_lines exclude_messages exclude_rpcs
         (Filter.State 0 false 0 []).

(** ** [remove_options_from_rpc_blocks] *)

(** [line.rstrip().rstrip('{').rstrip() + ';']. *)
Definition rpc_single_line (rpc_line : string) : string :=
  Py.rstrip (Py.rstrip_char "{" (Py.rstrip rpc_line)) +:+ ";".

(** ['rpc ' in stripped and stripped.endswith('{')]. *)
Definition is_rpc_opener (stripped : string) : bool :=
  Py.contains "rpc " stripped && Py.endswith "{" stripped.

Module Strip.

(** The test for another definition inside an open RPC block. *)
Definition starts_definition (block_stripped : string) : bool :=
  Py.startswith "rpc " block_stripped
  || Py.startswith "service " block_stripped
  || Py.startswith "message " block_stripped.

Definition is_skip_option (block_stripped : string) : bool :=
  existsb (λ pattern, Py.contains pattern block_stripped) SKIP_PATTERNS.option_blocks.

Definition has_non_empty_content (block_content : list string) : bool :=
  existsb (λ line, Py.truthy (Py.strip line)) block_content.

(** The inner [while j < len(body_lines)] with its [else]: the values of
    [i] and [result] when control reaches the [continue] of the outer
    loop. *)
Fixpoint block (n : nat) (body_lines : list string) (i : nat) (rpc_line : string)
    (result : list string) (j : nat) (block_content : list string)
    (option_count : nat) : exc (nat * list string) :=
  if (j <? length body_lines)%nat then
    match n with
    | 0 => Raise LoopBound
    | S n' =>
        let* block_line := py_index body_lines (Z.of_nat j) in
        let block_stripped := Py.strip block_line in
        if starts_definition block_stripped then
          Ok (j, result ++ [rpc_single_line rpc_line])
        else if String.eqb block_stripped "}" then
          if (0 <? option_count)%nat || has_non_empty_content block_content then
            if has_non_empty_content block_content then
              Ok (j + 1, (result ++ [rpc_line]) ++ block_content ++ [block_line])
            else
              Ok (j + 1, result ++ [rpc_single_line rpc_line])
          else
            Ok (j, result ++ [rpc_single_line rpc_line])
        else if is_skip_option block_stripped then
          block n' body_lines i rpc_line result (j + 1) block_content (option_count + 1)
        else
          block n' body_lines i rpc_line result (j + 1) (block_content ++ [block_line])
            option_count
    end
  else Ok (i + 1, result ++ [rpc_single_line rpc_line]).

(** The outer [while i < len(body_lines)]. *)
Fixpoint while (n : nat) (body_lines : list string) (i : nat)
    (result : list string) : exc (list string) :=
  if (i <? length body_lines)%nat then
    match n with
    | 0 => Raise LoopBound
    | S n' =>
        let* line := py_index body_lines (Z.of_nat i) in
        let stripped := Py.strip line in
        if is_rpc_opener stripped then
          let* '(i', result') :=
            block (length body_lines) body_lines i line result (i + 1) [] 0 in
          while n' body_lines i' result'
        else
          while n' body_lines (i + 1) (result ++ [line])
    end
  else Ok result.

End Strip.

Definition remove_options_from_rpc_blocks (body_lines : list string) : exc (list string) :=
  if negb (Py.truthy_list body_lines) then Ok body_lines
  else Strip.while (length body_lines) body_lines 0 [].

(** ** [cleanup_empty_rpc_blocks] *)

Module Cleanup.

(** [while j < len(body_lines) and not body_lines[j].strip(): j += 1]. *)
Fixpoint skip_blank (n : nat) (body_lines : list string) (j : nat) : exc nat :=
  if (j <? length body_lines)%nat then
    let* l := py_index body_lines (Z.of_nat j) in
    if negb (Py.truthy (Py.strip l)) then
      match n with
      | 0 => Raise LoopBound
      | S n' => skip_blank n' body_lines (j + 1)
      end
    else Ok j
  else Ok j.

(** [j < len(body_lines) and body_lines[j].strip() == '}']. *)
Definition closes (body_lines : list string) (j : nat) : exc bool :=
  if (j <? length body_lines)%nat then
    let* l := py_index body_lines (Z.of_nat j) in
    Ok (String.eqb (Py.strip l) "}")
  else Ok false.

(** The outer [while i < len(body_lines)]. *)
Fixpoint while (n : nat) (body_lines : list string) (i : nat)
    (result : list string) : exc (list string) :=
  if (i <? length body_lines)%nat then
    match n with
    | 0 => Raise LoopBound
    | S n' =>
        let* line := py_index body_lines (Z.of_nat i) in
        let stripped := Py.strip line in
        if is_rpc_opener stripped then
          let* j := skip_blank (length body_lines) body_lines (i + 1) in
          let* c := closes body_lines j in
          if c then while n' body_lines (j + 1) (result ++ [rpc_single_line line])
          else while n' body_lines (i + 1) (result ++ [line])
        else
          while n' body_lines (i + 1) (result ++ [line])
    end
  else Ok result.

End Cleanup.

Definition cleanup_empty_rpc_blocks (body_lines : list string) : exc (list string) :=
  if negb (Py.truthy_list body_lines) then Ok body_lines
  else Cleanup.while (length body_lines) body_lines 0 [].

(** ** [merge_proto_files] *)

Module Merge.

(** The key of [sorted]: [(0 if 'google/' in x else (1 if 'validate/' in x
    else 2), x)]. *)
Definition tier (x : string) : nat :=
  if Py.contains "google/" x then 0
  else if Py.contains "validate/" x then 1
  else 2.

(** Order of the keys, tuples compared component by component. *)
Definition key_leb (x y : string) : bool :=
  (tier x <? tier y)%nat || ((tier x =? tier y)%nat && Py.str_leb x y).

Definition key_le (x y : string) : Prop := key_leb x y = true.

Global Instance key_le_dec x y : Decision (key_le x y).
Proof. unfold key_le. apply _. Defined.

(** [current_module and f'banyandb/v1/banyandb-{current_module}.proto' in
    transformed_imp]. *)
Definition is_self_import (current_module : option string) (transformed_imp : string) : bool :=
  match current_module with
  | Some m =>
      Py.truthy m && Py.contains ("banyandb/v1/banyandb-" +:+ m +:+ ".proto") transformed_imp
  | None => false
  end.

(** The body of [for imp in parsed['imports']]. *)
Definition add_import (current_module : option string) (all_imports : gset string)
    (imp : string) : gset string :=
  let transformed_imp := transform_import_path (Py.strip imp) in
  if is_self_import current_module transformed_imp then all_imports
  else all_imports ∪ {[transformed_imp]}.

(** [# 5. Merge, transform, and deduplicate imports]: the set
    [all_imports] after the two nested loops. *)
Definition collect_imports (current_module : option string)
    (parsed_files : list Parse.dict) : gset string :=
  foldl (λ all_imports parsed,
           foldl (add_import current_module) all_imports (Parse.imports parsed))
        ∅ parsed_files.

(** [sorted(all_imports, key=...)]: the keys of distinct lines are distinct,
    so the order in which the set is iterated does not show. *)
Definition sorted_imports (all_imports : gset string) : list string :=
  merge_sort key_le (elements all_imports).

(** [while body_lines and not body_lines[0].strip(): body_lines.pop(0)]. *)
Fixpoint trim_leading (n : nat) (body_lines : list string) : exc (list string) :=
  if Py.truthy_list body_lines then
    let* first := py_index body_lines 0 in
    if negb (Py.truthy (Py.strip first)) then
      match n with
      | 0 => Raise LoopBound
      | S n' =>
          let* body_lines' := py_pop0 body_lines in
          trim_leading n' body_lines'
      end
    else Ok body_lines
  else Ok body_lines.

(** [while body_lines and not body_lines[-1].strip(): body_lines.pop()]. *)
Fixpoint trim_trailing (n : nat) (body_lines : list string) : exc (list string) :=
  if Py.truthy_list body_lines then
    let* last := py_index body_lines (-1) in
    if negb (Py.truthy (Py.strip last)) then
      match n with
      | 0 => Raise LoopBound
      | S n' =>
          let* body_lines' := py_pop body_lines in
          trim_trailing n' body_lines'
      end
    else Ok body_lines
  else Ok body_lines.

(** The secondary filter on [SKIP_PATTERNS]. *)
Definition not_skipped (line : string) : bool :=
  negb (existsb (λ prefix, Py.startswith prefix (Py.strip line)) SKIP_PATTERNS.line_prefixes)
  && negb (existsb (λ pattern, Py.contains pattern (Py.strip line)) SKIP_PATTERNS.line_contains).

(** Truth value of an optional list, and [l or []]. *)
Definition truthy_opt (l : option (list string)) : bool :=
  match l with
  | Some l => Py.truthy_list l
  | None => false
  end.

Definition or_empty (l : option (list string)) : list string :=
  match l with
  | Some l => l
  | None => []
  end.

(** The body of [for i, parsed in enumerate(parsed_files)]. The two
    trimming loops pop from the list that [parsed['body']] holds; the
    dictionary is not read again afterwards. *)
Definition add_body (exclude_messages exclude_rpcs : option (list string))
    (i : nat) (parsed : Parse.dict) (merged : list string) : exc (list string) :=
  if Py.truthy_list (Parse.body parsed) then
    let body_lines := Parse.body parsed in
    let* body_lines := trim_leading (length body_lines) body_lines in
    let* body_lines := trim_trailing (length body_lines) body_lines in
    let body_lines := List.filter not_skipped body_lines in
    let* body_lines :=
      (if truthy_opt exclude_messages || truthy_opt exclude_rpcs then
         filter_excluded_definitions body_lines
           (or_empty exclude_messages) (or_empty exclude_rpcs)
       else Ok body_lines) in
    let* body_lines := remove_options_from_rpc_blocks body_lines in
    let* body_lines := cleanup_empty_rpc_blocks body_lines in
    if Py.truthy_list body_lines then
      Ok ((if (0 <? i)%nat then merged ++ [""] else merged) ++ body_lines)
    else Ok merged
  else Ok merged.

(** [# 6. Concatenate bodies], from index [i] on. *)
Fixpoint bodies (exclude_messages exclude_rpcs : option (list string))
    (i : nat) (todo : list Parse.dict) (merged : list string) : exc (list string) :=
  match todo with
  | [] => Ok merged
  | parsed :: todo' =>
      let* merged' := add_body exclude_messages exclude_rpcs i parsed merged in
      bodies exclude_messages exclude_rpcs (S i) todo' merged'
  end.

(** [parsed_files = [parse_proto_file(content) for content in proto_contents]]. *)
Fixpoint parse_all (proto_contents : list string) : exc (list Parse.dict) :=
  match proto_contents with
  | [] => Ok []
  | content :: rest =>
      let* parsed := parse_proto_file content in
      let* parsed_rest := parse_all rest in
      Ok (parsed :: parsed_rest)
  end.

(** Steps 1 to 4: the header fields of the first file. *)
Definition header (first : Parse.dict) : list string :=
  let merged := [] in
  let merged :=
    if Py.truthy_list (Parse.license first)
    then (merged ++ Parse.license first) ++ [""] else merged in
  let merged :=
    match Parse.syntax first with
    | Some line => if Py.truthy line then (merged ++ [line]) ++ [""] else merged
    | None => merged
    end in
  let merged :=
    match Parse.java_package first with
    | Some line => if Py.truthy line then (merged ++ [line]) ++ [""] else merged
    | None => merged
    end in
  match Parse.package first with
  | Some line => if Py.truthy line then (merged ++ [line]) ++ [""] else merged
  | None => merged
  end.

(** Step 5: the import block. *)
Definition import_block (current_module : option string)
    (parsed_files : list Parse.dict) : list string :=
  let all_imports := collect_imports current_module parsed_files in
  if bool_decide (all_imports = ∅) then []
  else sorted_imports all_imports ++ [""].

End Merge.

Definition merge_proto_files (proto_contents : list string)
    (current_module : option string)
    (exclude_messages exclude_rpcs : option (list string)) : exc string :=
  if negb (Py.truthy_list proto_contents) then Ok ""
  else
    let* parsed_files := Merge.parse_all proto_contents in
    let* first := py_index parsed_files 0 in
    let merged := Merge.header first in
    let merged := merged ++ Merge.import_block current_module parsed_files in
    let* merged := Merge.bodies exclude_messages exclude_rpcs 0 parsed_files merged in
    let* merged := Merge.trim_trailing (length merged) merged in
    Ok (Py.join_lines merged +:+ Py.nl).

(** * Functional readings of the loops

    Each [while] loop above walks an index over [body_lines]. The
    functions of this part read the same loops as recursions on the
    lines that are left; the facts below prove that the loops compute
    them, and the properties of the engine are then proved on them. *)

Module FilterRun.
Import Filter.

(** What [Filter.while] appends to [result] from the lines [l] on, when
    entered with the given [skip_until_close] and [brace_depth]. *)
Fixpoint run (exclude_messages exclude_rpcs : list string) (skip : bool) (depth : Z)
    (l : list string) : list string :=
  match l with
  | [] => []
  | line :: l' =>
      let st := on_line exclude_messages exclude_rpcs line (State 0 skip depth []) in
      result st ++ run exclude_messages exclude_rpcs (skip_until_close st) (brace_depth st) l'
  end.

(** [line] starts a definition that the filter drops. *)
Definition starts_excluded (exclude_messages exclude_rpcs : list string)
    (line : string) : bool :=
  let stripped := Py.strip line in
  (Py.truthy_list exclude_messages && Py.startswith "message " stripped
   && match match_name "message" stripped with
      | Some message_name => bool_decide (message_name ∈ exclude_messages)
      | None => false
      end)
  || (Py.truthy_list exclude_rpcs && Py.startswith "rpc " stripped
      && match match_name "rpc" stripped with
         | Some rpc_name => bool_decide (rpc_name ∈ exclude_rpcs)
         | None => false
         end
      && (Py.endswith ";" stripped || Py.contains "{" stripped)).

(** [line] declares the message [name]: the filter's test and its name
    extraction agree on it. *)
Definition declares_message (name line : string) : Prop :=
  Py.startswith "message " (Py.strip line) = true
  ∧ match_name "message" (Py.strip line) = Some name.

(** The lines [blk] read with a running balance that starts at [depth]:
    the balance is positive after each line but the last, and zero or
    negative after the last. *)
Fixpoint closes_at (depth : Z) (blk : list string) : Prop :=
  match blk with
  | [] => False
  | line :: blk' =>
      let d := (depth + brace_balance (Py.strip line))%Z in
      match blk' with
      | [] => (d ≤ 0)%Z
      | _ => (0 < d)%Z ∧ closes_at d blk'
      end
  end.

(** The balance stays positive after each line of [blk]. *)
Fixpoint stays_open (depth : Z) (blk : list string) : Prop :=
  match blk with
  | [] => True
  | line :: blk' =>
      let d := (depth + brace_balance (Py.strip line))%Z in
      (0 < d)%Z ∧ stays_open d blk'
  end.

(** Braces opened minus braces closed over all the lines. *)
Definition total_balance (l : list string) : Z :=
  foldr (λ line acc, (brace_balance (Py.strip line) + acc)%Z) 0%Z l.

End FilterRun.

Module StripRun.
Import Strip.

(** The inner loop of [Strip.while] on the lines [l] that follow the
    lines already seen: what is appended to [result], and how many of the
    lines after the opener are passed over when the outer loop goes on. *)
Fixpoint block (rpc_line : string) (l : list string) (seen : nat)
    (block_content : list string) (option_count : nat) : list string * nat :=
  match l with
  | [] => ([rpc_single_line rpc_line], 0)
  | block_line :: l' =>
      let block_stripped := Py.strip block_line in
      if starts_definition block_stripped then ([rpc_single_line rpc_line], seen)
      else if String.eqb block_stripped "}" then
        if (0 <? option_count)%nat || has_non_empty_content block_content then
          if has_non_empty_content block_content then
            ((rpc_line :: block_content) ++ [block_line], S seen)
          else ([rpc_single_line rpc_line], S seen)
        else ([rpc_single_line rpc_line], seen)
      else if is_skip_option block_stripped then
        block rpc_line l' (S seen) block_content (option_count + 1)
      else
        block rpc_line l' (S seen) (block_content ++ [block_line]) option_count
  end.

(** The outer loop on the lines left, bounded by [n]. *)
Fixpoint run (n : nat) (l : list string) : list string :=
  match n with
  | 0 => []
  | S n' =>
      match l with
      | [] => []
      | line :: l' =>
          if is_rpc_opener (Py.strip line) then
            let '(out, k) := block line l' 0 [] 0 in
            out ++ run n' (drop k l')
          else line :: run n' l'
      end
  end.

Definition lines (l : list string) : list string := run (length l) l.

(** An inner line that the stripper counts as an option to remove. *)
Definition is_annotation (line : string) : bool :=
  is_skip_option (Py.strip line) && negb (starts_definition (Py.strip line)).

(** An inner line that neither closes the block nor starts a definition. *)
Definition is_inner (line : string) : bool :=
  negb (starts_definition (Py.strip line)) && negb (String.eqb (Py.strip line) "}").

End StripRun.

Module ParseRun.
Import Parse.

(** The body of the loop of [parse_proto_file] once [is_comment] is
    known to be [c]. *)
Definition step (c : bool) (line : string) (st : state) : state :=
  let stripped := Py.strip line in
  if negb (license_done st) then
    if c then with_result (append_license line) st
    else if negb (Py.truthy stripped) then set_license_done st
    else after_license line stripped (set_license_done st)
  else after_license line stripped st.

(** The textual part of [is_comment]. *)
Definition comment_like (stripped : string) : bool :=
  Py.startswith "//" stripped || Py.startswith "/*" stripped || Py.startswith "*" stripped.

(** The first line that begins with the package keyword. *)
Definition first_package (lines : list string) : option string :=
  List.find (λ line, Py.startswith "package " (Py.strip line)) lines.

(** No skip rule on the text of the line applies to [line]: it holds no
    pattern of [line_contains] and no marker of [option_blocks]. *)
Definition marker_free (line : string) : bool :=
  negb (existsb (λ pattern, Py.contains pattern (Py.strip line)) SKIP_PATTERNS.line_contains)
  && negb (existsb (λ pattern, Py.contains pattern (Py.strip line)) SKIP_PATTERNS.option_blocks).

(** [P] holds of each line that the dictionary holds. *)
Definition all_lines (P : string → Prop) (r : dict) : Prop :=
  Forall P (license r)
  ∧ (∀ l, syntax r = Some l → P l)
  ∧ (∀ l, java_package r = Some l → P l)
  ∧ (∀ l, package r = Some l → P l)
  ∧ Forall P (imports r)
  ∧ Forall P (body r).

(** The body waits for the syntax line. *)
Definition waits_for_syntax (st : state) : Prop :=
  (syntax_done st = false → body (result st) = [])
  ∧ (syntax (result st) = None → syntax_done st = false).

(** The package line is a line read so far that begins with the keyword. *)
Definition package_from (seen : list string) (st : state) : Prop :=
  ∀ l, package (result st) = Some l →
       l ∈ seen ∧ Py.startswith "package " (Py.strip l) = true.

(** In a scan that met no marker, the package line is the first line
    that begins with the keyword, and no option block is open. *)
Definition first_wins (seen : list string) (st : state) : Prop :=
  Forall (λ l, marker_free l = true) seen →
  in_http_option st = false
  ∧ package (result st) = first_package seen
  ∧ package_done st = bool_decide (is_Some (package (result st))).

(** Unfolds the body of the loop down to its tests. *)
Ltac unfold_step :=
  unfold step, after_license, option_blocks, declarations, option_block_iter,
    with_result, set_license_done, set_syntax_done, set_package_done,
    set_in_http_option, set_brace_depth, append_license, set_syntax,
    set_java_package, set_package, append_import, append_body,
    SKIP_PATTERNS.option_blocks.

End ParseRun.

Module ImportRun.
Import Merge.

(** The lines that reach the set: rewritten and not self-references. *)
Definition reaches (current_module : option string) (imps : list string) (x : string) : Prop :=
  ∃ imp, imp ∈ imps ∧ x = transform_import_path (Py.strip imp)
         ∧ is_self_import current_module x = false.

(** The sorted lines of the import block. *)
Definition block (current_module : option string) (parsed_files : list Parse.dict) :
    list string :=
  sorted_imports (collect_imports current_module parsed_files).

End ImportRun.

(** A line without a line terminator in it. *)
Definition nl_free (s : string) : Prop := Py.count_char Py.nl_char s = 0.

(** A line with nothing but white space. *)
Definition blank (s : string) : Prop := Py.strip s = "".

(** A property of lines that the collapse of an opener keeps. *)
Definition collapse_closed (P : string → Prop) : Prop :=
  ∀ line, P line → P (rpc_single_line line).

(** The list is empty or ends with a line that is not blank. *)
Definition ends_well (l : list string) : Prop :=
  l = [] ∨ ∃ init x, l = init ++ [x] ∧ ¬ blank x.

(** ** Documents used as examples *)

Module Examples.

(** [import "path";] *)
Definition import_line (path : string) : string :=
  "import " +:+ String Re.dquote path +:+ String Re.dquote ";".

(** A one-line option after the header. *)
Definition single_line_option : string :=
  Py.join_lines
    ["syntax = proto3;"; "package a;"; "option (google.api.http) = { get: 1 };"].

(** A service whose method carries a multi-line option. *)
Definition multi_line_option : string :=
  Py.join_lines
    ["syntax = proto3;"; "package a;"; "service S {";
     "  rpc Get(Req) returns (Res) {";
     "    option (google.api.http) = {"; "      get: 1"; "    };";
     "  }"; "}"].

(** Two documents that import the same file. *)
Definition first_doc : string :=
  Py.join_lines
    ["syntax = proto3;"; "package a;"; import_line "validate/v.proto";
     import_line "google/api/a.proto"; "message A {"; "}"].

Definition second_doc : string :=
  Py.join_lines
    ["syntax = proto3;"; "package a;"; import_line "google/api/a.proto";
     "message B {"; "}"; ""].

End Examples.

(** ** Readings of the remaining loops, and invariants of the scans *)

Module CleanupRun.

(** The number of blank lines at the head of [l]: the lines that the
    look-ahead of [Cleanup.while] passes over. *)
Fixpoint blanks (l : list string) : nat :=
  match l with
  | [] => 0
  | x :: l' => if negb (Py.truthy (Py.strip x)) then S (blanks l') else 0
  end.

(** The first line of [l] that is not blank is a bare closing brace. *)
Definition closed_next (l : list string) : bool :=
  match drop (blanks l) l with
  | c :: _ => String.eqb (Py.strip c) "}"
  | [] => false
  end.

(** The outer loop of [Cleanup.while] on the lines left, bounded by [n]. *)
Fixpoint run (n : nat) (l : list string) : list string :=
  match n with
  | 0 => []
  | S n' =>
      match l with
      | [] => []
      | line :: l' =>
          if is_rpc_opener (Py.strip line) && closed_next l' then
            rpc_single_line line :: run n' (drop (S (blanks l')) l')
          else line :: run n' l'
      end
  end.

Definition lines (l : list string) : list string := run (length l) l.

End CleanupRun.

Module StripKeep.
Import Strip.

(** The inner lines that the stripper keeps in [block_content]. *)
Definition kept (inner : list string) : list string :=
  List.filter (λ line, negb (is_skip_option (Py.strip line))) inner.

(** The inner lines that the stripper counts in [option_count]. *)
Definition options (inner : list string) : nat :=
  length (List.filter (λ line, is_skip_option (Py.strip line)) inner).

End StripKeep.

Module ParseInv.
Import Parse ParseRun.

(** Each list of the dictionary is made of lines read so far, in the
    order in which they were read. *)
Definition parts_in_order (seen : list string) (st : state) : Prop :=
  license (result st) `sublist_of` seen
  ∧ imports (result st) `sublist_of` seen
  ∧ body (result st) `sublist_of` seen.

(** The license is every line read so far while it is open, and the
    lines read up to its end afterwards; it is made of comment lines. *)
Definition license_head (seen : list string) (st : state) : Prop :=
  (license_done st = false → license (result st) = seen)
  ∧ license (result st) `prefix_of` seen
  ∧ Forall (λ l, comment_like (Py.strip l) = true) (license (result st)).

(** An import line that [parse_proto_file] keeps. *)
Definition kept_import (line : string) : Prop :=
  Py.startswith "import " (Py.strip line) = true
  ∧ existsb (λ pattern, Py.contains pattern line) SKIP_PATTERNS.import_contains = false.

(** Each header field and each import begins with its keyword. *)
Definition keyworded (r : dict) : Prop :=
  (∀ l, syntax r = Some l → Py.startswith "syntax =" (Py.strip l) = true)
  ∧ (∀ l, java_package r = Some l → Py.startswith "option java_package" (Py.strip l) = true)
  ∧ Forall kept_import (imports r).

(** A line that the body can hold: not an import, not a
    [java_package] option, and not a line that the skip patterns on
    lines name. *)
Definition body_line (line : string) : Prop :=
  Py.startswith "import " (Py.strip line) = false
  ∧ Py.startswith "option java_package" (Py.strip line) = false
  ∧ Merge.not_skipped line = true.

(** The body opens once the syntax and package lines are captured. *)
Definition body_after_header (st : state) : Prop :=
  (body (result st) ≠ [] → syntax_done st = true ∧ package_done st = true)
  ∧ (syntax_done st = true → is_Some (syntax (result st)))
  ∧ (package_done st = true → is_Some (package (result st))).

(** [line] begins with the package keyword. *)
Definition package_keyword (line : string) : bool :=
  Py.startswith "package " (Py.strip line).

(** [line] holds a pattern of [line_contains]: the loop skips it before
    it reaches the package rule. *)
Definition skipped_by_text (line : string) : bool :=
  existsb (λ pattern, Py.contains pattern (Py.strip line)) SKIP_PATTERNS.line_contains.

(** [line] holds an option-block marker and opens more braces than it
    closes: read after the syntax line, it sets [in_http_option]. *)
Definition opens_block (line : string) : bool :=
  existsb (λ pattern, Py.contains pattern (Py.strip line)) SKIP_PATTERNS.option_blocks
  && (0 <? brace_balance (Py.strip line))%Z.

(** No line before the first line with the package keyword opens an
    option block, and that line neither opens one nor is skipped for its
    text. Only the lines up to that one are looked at. *)
Fixpoint header_clean (lines : list string) : bool :=
  match lines with
  | [] => true
  | l :: ls =>
      if package_keyword l then negb (skipped_by_text l) && negb (opens_block l)
      else negb (opens_block l) && header_clean ls
  end.

(** While the header is clean, the package line is the first line with
    the keyword, and no option block is open before it is found. *)
Definition package_first (seen : list string) (st : state) : Prop :=
  header_clean seen = true →
  package (result st) = first_package seen
  ∧ package_done st = bool_decide (is_Some (package (result st)))
  ∧ (package (result st) = None → in_http_option st = false).

(** Splits the tests that the case analysis of the loop body leaves in
    the context, and uses the failed ones in the goal. *)
Ltac split_tests :=
  repeat match goal with
         | H : _ && _ = true |- _ => apply andb_true_iff in H as [? ?]
         | H : negb _ = true |- _ => apply negb_true_iff in H
         | H : negb _ = false |- _ => apply negb_false_iff in H
         | H : _ || _ = false |- _ => apply orb_false_iff in H as [? ?]
         end.

Ltac use_tests :=
  repeat match goal with
         | H : Py.startswith _ _ = false |- _ => rewrite H; clear H
         | H : Py.contains _ _ = false |- _ => rewrite H; clear H
         end.

End ParseInv.

Module ImportPath.

(** No character of [s] is [c]. *)
Definition free_of (c : ascii) (s : string) : bool :=
  Py.str_forallb (λ x, negb (Ascii.eqb x c)) s.

(** [import "banyandb/<module>/v1/<file>.proto"<tail>]. *)
Definition upstream (module file tail : string) : string :=
  "import " +:+ String Re.dquote
    ("banyandb/" +:+ module +:+ "/v1/" +:+ file +:+ ".proto" +:+ String Re.dquote tail).

(** [import "banyandb/v1/banyandb-<module>.proto"<tail>]. *)
Definition merged (module tail : string) : string :=
  "import " +:+ String Re.dquote
    ("banyandb/v1/banyandb-" +:+ module +:+ ".proto" +:+ String Re.dquote tail).

(** [output_path] of [sync_module]:
    [f"proto/banyandb/v1/banyandb-{module}.proto"]. *)
Definition output_path (module : string) : string :=
  "proto/banyandb/v1/banyandb-" +:+ module +:+ ".proto".

End ImportPath.

Module MergeRun.
Import Merge.

(** What the bodies of the documents after the first contribute to the
    merged text: their imports and their body lines. *)
Definition contribution (parsed : Parse.dict) : list string * list string :=
  (Parse.imports parsed, Parse.body parsed).

End MergeRun.
(** * Properties *)

(** ** The exception monad and indexing *)

Lemma py_index_lookup {A} (l : list A) (i : nat) (x : A) :
  l !! i = Some x → py_index l (Z.of_nat i) = Ok x.
Proof.
  intros H. unfold py_index.
  destruct (Z.of_nat i <? 0)%Z eqn:E; [apply Z.ltb_lt in E; lia|].
  rewrite E, Nat2Z.id, H. reflexivity.
Qed.

Lemma py_index_in_range {A} (l : list A) (i : nat) :
  (i < length l)%nat → ∃ x, l !! i = Some x ∧ py_index l (Z.of_nat i) = Ok x.
Proof.
  intros H. destruct (lookup_lt_is_Some_2 l i H) as [x Hx].
  exists x. split; [done | by apply py_index_lookup].
Qed.

Lemma py_index_last {A} (l : list A) (x : A) :
  py_index (l ++ [x]) (-1) = Ok x.
Proof.
  unfold py_index. simpl. rewrite length_app. simpl.
  destruct (Z.of_nat (length l + 1) + -1 <? 0)%Z eqn:E; [apply Z.ltb_lt in E; lia|].
  replace (Z.to_nat (Z.of_nat (length l + 1) + -1)) with (length l + 0)%nat by lia.
  rewrite lookup_app_r by lia.
  replace (length l + 0 - length l)%nat with 0%nat by lia. reflexivity.
Qed.

Lemma is_Ok_Ok {A} (a : A) : is_Ok (Ok a).
Proof. by exists a. Qed.

(** ** The exclusion filter computes [FilterRun.run] *)

Module FilterFacts.
Import Filter FilterRun.

Lemma on_line_frame (ms rs : list string) (line : string) (k : nat)
    (skip : bool) (depth : Z) (res : list string) :
  on_line ms rs line (State k skip depth res) =
  let st := on_line ms rs line (State 0 skip depth []) in
  State (k + 1) (skip_until_close st) (brace_depth st) (res ++ result st).
Proof.
  unfold on_line, message_check, rpc_check; simpl.
  repeat (case_match; simpl); rewrite ?app_nil_r; reflexivity.
Qed.

Lemma filter_while_run (ms rs body : list string) (n : nat) (st : state) :
  (length body - i st ≤ n)%nat →
  while n body ms rs st =
  Ok (result st ++ run ms rs (skip_until_close st) (brace_depth st) (drop (i st) body)).
Proof.
  revert st. induction n as [|n IH]; intros [k skip depth res] Hn; simpl in *.
  - destruct (k <? length body)%nat eqn:E.
    + apply Nat.ltb_lt in E. lia.
    + apply Nat.ltb_ge in E. rewrite drop_ge by lia. simpl. by rewrite app_nil_r.
  - destruct (k <? length body)%nat eqn:E.
    + apply Nat.ltb_lt in E.
      destruct (py_index_in_range body k E) as (line & Hl & Hi).
      unfold iter; simpl. rewrite Hi; simpl.
      rewrite on_line_frame; simpl. rewrite IH by (simpl; lia). simpl.
      rewrite (drop_S _ _ _ Hl); simpl.
      replace (k + 1)%nat with (S k) by lia. by rewrite app_assoc.
    + apply Nat.ltb_ge in E. rewrite drop_ge by lia. simpl. by rewrite app_nil_r.
Qed.

Lemma filter_excluded_definitions_run (body ms rs : list string) :
  filter_excluded_definitions body ms rs =
  Ok (if negb (Py.truthy_list body)
         || (negb (Py.truthy_list ms) && negb (Py.truthy_list rs))
      then body else run ms rs false 0 body).
Proof.
  unfold filter_excluded_definitions. case_match; [done|].
  rewrite filter_while_run by (simpl; lia). done.
Qed.

Lemma filter_run_of_member (body ms rs : list string) (name : string) :
  name ∈ ms →
  filter_excluded_definitions body ms rs = Ok (run ms rs false 0 body).
Proof.
  intros Hin. rewrite filter_excluded_definitions_run.
  destruct ms as [|m ms]; [by apply elem_of_nil in Hin|].
  destruct body; reflexivity.
Qed.

(** The depth is dead while the filter is not skipping. *)
Lemma run_depth_irrelevant (ms rs l : list string) (d d' : Z) :
  run ms rs false d l = run ms rs false d' l.
Proof.
  revert d d'. induction l as [|line l IH]; intros d d'; [done|].
  simpl. unfold on_line, message_check, rpc_check; simpl.
  repeat (case_match; simpl); try done; f_equal; apply IH.
Qed.

Lemma run_kept (ms rs l : list string) (line : string) (d : Z) :
  starts_excluded ms rs line = false →
  run ms rs false d (line :: l) = line :: run ms rs false d l.
Proof.
  unfold starts_excluded. intros H.
  apply orb_false_iff in H as [H1 H2].
  simpl. unfold on_line, message_check, rpc_check; simpl.
  destruct (Py.truthy_list ms && Py.startswith "message " (Py.strip line)) eqn:E1;
    simpl in H1.
  - destruct (match_name "message" (Py.strip line)) as [n|] eqn:E2.
    + rewrite H1.
      destruct (Py.truthy_list rs && Py.startswith "rpc " (Py.strip line)) eqn:E3;
        simpl in H2; [|done].
      destruct (match_name "rpc" (Py.strip line)) as [r|] eqn:E4; [|done].
      destruct (bool_decide (r ∈ rs)); [|done].
      simpl in H2. apply orb_false_iff in H2 as [-> ->]. done.
    + destruct (Py.truthy_list rs && Py.startswith "rpc " (Py.strip line)) eqn:E3;
        simpl in H2; [|done].
      destruct (match_name "rpc" (Py.strip line)) as [r|] eqn:E4; [|done].
      destruct (bool_decide (r ∈ rs)); [|done].
      simpl in H2. apply orb_false_iff in H2 as [-> ->]. done.
  - destruct (Py.truthy_list rs && Py.startswith "rpc " (Py.strip line)) eqn:E3;
      simpl in H2; [|done].
    destruct (match_name "rpc" (Py.strip line)) as [r|] eqn:E4; [|done].
    destruct (bool_decide (r ∈ rs)); [|done].
    simpl in H2. apply orb_false_iff in H2 as [-> ->]. done.
Qed.

Lemma run_kept_all (ms rs pre l : list string) (d : Z) :
  Forall (λ line, starts_excluded ms rs line = false) pre →
  run ms rs false d (pre ++ l) = pre ++ run ms rs false d l.
Proof.
  induction 1 as [|line pre Hline _ IH]; [done|].
  rewrite <- app_comm_cons, run_kept by done. by rewrite IH.
Qed.

Lemma run_message_start (ms rs l : list string) (name decl : string) (d : Z) :
  name ∈ ms → declares_message name decl →
  run ms rs false d (decl :: l) = run ms rs true (brace_balance (Py.strip decl)) l.
Proof.
  intros Hin [Hs Hm]. simpl. unfold on_line, message_check; simpl.
  destruct ms as [|m ms]; [by apply elem_of_nil in Hin|].
  simpl. rewrite Hs, Hm. rewrite bool_decide_eq_true_2 by done. done.
Qed.

Lemma run_skip_closes (ms rs blk rest : list string) (d : Z) :
  closes_at d blk →
  run ms rs true d (blk ++ rest) = run ms rs false 0 rest.
Proof.
  revert d. induction blk as [|line blk IH]; intros d H; [done|].
  simpl in *. unfold on_line; simpl.
  destruct blk as [|line' blk].
  - destruct (d + brace_balance (Py.strip line) <=? 0)%Z eqn:E; [done|].
    apply Z.leb_gt in E. lia.
  - destruct H as [Hpos H].
    destruct (d + brace_balance (Py.strip line) <=? 0)%Z eqn:E.
    + apply Z.leb_le in E. lia.
    + simpl. by apply IH.
Qed.

Lemma run_skip_open (ms rs blk : list string) (d : Z) :
  stays_open d blk → run ms rs true d blk = [].
Proof.
  revert d. induction blk as [|line blk IH]; intros d H; [done|].
  simpl in *. unfold on_line; simpl. destruct H as [Hpos H].
  destruct (d + brace_balance (Py.strip line) <=? 0)%Z eqn:E.
  - apply Z.leb_le in E. lia.
  - simpl. by apply IH.
Qed.

(** Skipping either ends after some of the lines or goes on to the end. *)
Lemma closes_or_stays_open (d : Z) (l : list string) :
  (∃ blk rest, l = blk ++ rest ∧ closes_at d blk) ∨ stays_open d l.
Proof.
  revert d. induction l as [|line l IH]; intros d; [by right|].
  destruct (decide (d + brace_balance (Py.strip line) ≤ 0)%Z) as [Hle|Hgt].
  - left. exists [line], l. split; [done|]. simpl. lia.
  - destruct (IH (d + brace_balance (Py.strip line))%Z) as [(blk & rest & -> & Hc)|Ho].
    + left. exists (line :: blk), rest. split; [done|].
      destruct blk as [|b blk]; [done|].
      change (closes_at d (line :: b :: blk))
        with ((0 < d + brace_balance (Py.strip line))%Z
              ∧ closes_at (d + brace_balance (Py.strip line)) (b :: blk)).
      split; [lia | done].
    + right. simpl. split; [lia | done].
Qed.

Lemma total_balance_app (l1 l2 : list string) :
  total_balance (l1 ++ l2) = (total_balance l1 + total_balance l2)%Z.
Proof.
  unfold total_balance. induction l1 as [|x l1 IH]; simpl; [lia|].
  rewrite IH. lia.
Qed.

End FilterFacts.

(** ** The annotation stripper computes [StripRun.lines] *)

Module StripFacts.
Import Strip StripRun.

Lemma block_run (n : nat) (body : list string) (i : nat) (rpc_line : string)
    (res : list string) (j : nat) (content : list string) (cnt : nat) :
  (i + 1 ≤ j)%nat → (length body - j ≤ n)%nat →
  Strip.block n body i rpc_line res j content cnt =
  Ok (i + 1 + (StripRun.block rpc_line (drop j body) (j - (i + 1)) content cnt).2,
      res ++ (StripRun.block rpc_line (drop j body) (j - (i + 1)) content cnt).1).
Proof.
  revert j content cnt.
  induction n as [|n IH]; intros j content cnt Hij Hn; simpl.
  - destruct (j <? length body)%nat eqn:E.
    + apply Nat.ltb_lt in E. lia.
    + apply Nat.ltb_ge in E. rewrite drop_ge by lia. simpl.
      by rewrite Nat.add_0_r.
  - destruct (j <? length body)%nat eqn:E.
    + apply Nat.ltb_lt in E.
      destruct (py_index_in_range body j E) as (bl & Hl & Hi).
      rewrite Hi; simpl. rewrite (drop_S _ _ _ Hl); simpl.
      replace (j + 1)%nat with (S j) by lia.
      destruct (starts_definition (Py.strip bl)).
      { simpl. do 2 f_equal. lia. }
      destruct (String.eqb (Py.strip bl) "}").
      { destruct ((0 <? cnt)%nat || has_non_empty_content content).
        - destruct (has_non_empty_content content); simpl.
          + f_equal. f_equal; [lia|]. by rewrite <- !app_assoc.
          + do 2 f_equal. lia.
        - simpl. do 2 f_equal. lia. }
      destruct (is_skip_option (Py.strip bl)).
      * rewrite IH by lia. replace (S j - (i + 1))%nat with (S (j - (i + 1))) by lia.
        done.
      * rewrite IH by lia. replace (S j - (i + 1))%nat with (S (j - (i + 1))) by lia.
        done.
    + apply Nat.ltb_ge in E. rewrite drop_ge by lia. simpl.
      by rewrite Nat.add_0_r.
Qed.

(** The inner loop passes over no more lines than there are. *)
Lemma block_bound (rpc_line : string) (l : list string) (seen : nat)
    (content : list string) (cnt : nat) :
  ((StripRun.block rpc_line l seen content cnt).2 ≤ seen + length l)%nat.
Proof.
  revert seen content cnt.
  induction l as [|bl l IH]; intros seen content cnt; simpl; [lia|].
  repeat case_match; simpl; try lia.
  - specialize (IH (S seen) content (cnt + 1)%nat). lia.
  - specialize (IH (S seen) (content ++ [bl]) cnt). lia.
Qed.

Lemma run_fuel (n m : nat) (l : list string) :
  (length l ≤ n)%nat → (length l ≤ m)%nat → run n l = run m l.
Proof.
  revert m l. induction n as [|n IH]; intros m l Hn Hm.
  - destruct l; [|simpl in Hn; lia]. by destruct m.
  - destruct m as [|m].
    + destruct l; [done | simpl in Hm; lia].
    + destruct l as [|line l]; [done|]. simpl in *.
      destruct (is_rpc_opener (Py.strip line)).
      * destruct (StripRun.block line l 0 [] 0) as [out k].
        f_equal. apply IH; rewrite length_drop; lia.
      * f_equal. apply IH; lia.
Qed.

Lemma lines_nil : lines [] = [].
Proof. done. Qed.

Lemma lines_cons (line : string) (l : list string) :
  lines (line :: l) =
  if is_rpc_opener (Py.strip line) then
    (StripRun.block line l 0 [] 0).1 ++ lines (drop (StripRun.block line l 0 [] 0).2 l)
  else line :: lines l.
Proof.
  unfold lines. simpl.
  destruct (is_rpc_opener (Py.strip line)); [|done].
  destruct (StripRun.block line l 0 [] 0) as [out k]; simpl.
  f_equal. apply run_fuel; rewrite length_drop; lia.
Qed.

Lemma strip_while_run (n : nat) (body : list string) (i : nat) (res : list string) :
  (length body - i ≤ n)%nat →
  Strip.while n body i res = Ok (res ++ lines (drop i body)).
Proof.
  revert i res. induction n as [|n IH]; intros i res Hn; simpl.
  - destruct (i <? length body)%nat eqn:E.
    + apply Nat.ltb_lt in E. lia.
    + apply Nat.ltb_ge in E. rewrite drop_ge by lia. by rewrite lines_nil, app_nil_r.
  - destruct (i <? length body)%nat eqn:E.
    + apply Nat.ltb_lt in E.
      destruct (py_index_in_range body i E) as (line & Hl & Hi).
      rewrite Hi; simpl. rewrite (drop_S _ _ _ Hl), lines_cons.
      replace (i + 1)%nat with (S i) by lia.
      destruct (is_rpc_opener (Py.strip line)).
      * rewrite block_run by lia. simpl.
        replace (S i - (i + 1))%nat with 0%nat by lia.
        destruct (StripRun.block line (drop (S i) body) 0 [] 0) as [out k]; simpl.
        rewrite IH by lia. rewrite drop_drop, <- app_assoc.
        replace (i + 1 + k)%nat with (S i + k)%nat by lia. done.
      * rewrite IH by lia. by rewrite <- app_assoc.
    + apply Nat.ltb_ge in E. rewrite drop_ge by lia. by rewrite lines_nil, app_nil_r.
Qed.

Lemma remove_options_lines (body : list string) :
  remove_options_from_rpc_blocks body = Ok (lines body).
Proof.
  unfold remove_options_from_rpc_blocks. destruct body as [|line body]; [done|].
  cbn [Py.truthy_list negb]. rewrite strip_while_run by lia. done.
Qed.

(** *** The inner loop on the three shapes of block *)

Lemma annotation_not_closer (line : string) :
  is_annotation line = true → String.eqb (Py.strip line) "}" = false.
Proof.
  unfold is_annotation. intros H. apply andb_true_iff in H as [H _].
  destruct (String.eqb (Py.strip line) "}") eqn:E; [|done].
  apply String.eqb_eq in E. rewrite E in H. discriminate H.
Qed.

(** Annotations only, then the closing line. *)
Lemma block_annotations (rpc_line closer : string) (annots rest : list string)
    (seen cnt : nat) :
  Forall (λ l, is_annotation l = true) annots →
  Py.strip closer = "}" →
  StripRun.block rpc_line (annots ++ closer :: rest) seen [] cnt =
  if (0 <? cnt + length annots)%nat
  then ([rpc_single_line rpc_line], S (seen + length annots))
  else ([rpc_single_line rpc_line], (seen + length annots)%nat).
Proof.
  intros Ha Hc. revert seen cnt.
  induction Ha as [|a annots Ha _ IH]; intros seen cnt; simpl.
  - rewrite Hc; simpl. rewrite !Nat.add_0_r.
    replace (starts_definition "}") with false by done.
    rewrite orb_false_r. done.
  - pose proof (annotation_not_closer a Ha) as Hnc.
    unfold is_annotation in Ha. apply andb_true_iff in Ha as [Ha1 Ha2].
    apply negb_true_iff in Ha2. rewrite Ha2, Hnc, Ha1.
    rewrite IH. replace (cnt + 1 + length annots)%nat with (cnt + S (length annots))%nat by lia.
    replace (S seen + length annots)%nat with (seen + S (length annots))%nat by lia.
    done.
Qed.

(** Inner lines, then a line that starts a definition. *)
Lemma block_malformed (rpc_line off : string) (mid rest : list string)
    (seen cnt : nat) (content : list string) :
  Forall (λ l, is_inner l = true) mid →
  starts_definition (Py.strip off) = true →
  StripRun.block rpc_line (mid ++ off :: rest) seen content cnt =
  ([rpc_single_line rpc_line], (seen + length mid)%nat).
Proof.
  intros Hm Ho. revert seen cnt content.
  induction Hm as [|m mid Hm _ IH]; intros seen cnt content; simpl.
  - rewrite Ho. by rewrite Nat.add_0_r.
  - unfold is_inner in Hm. apply andb_true_iff in Hm as [H1 H2].
    apply negb_true_iff in H1, H2. rewrite H1, H2.
    destruct (is_skip_option (Py.strip m)); rewrite IH; f_equal; lia.
Qed.

Lemma drop_app_length' {A} (l1 l2 : list A) (k : nat) :
  k = length l1 → drop k (l1 ++ l2) = l2.
Proof. intros ->. apply drop_app_length. Qed.

(** Annotations only: the block collapses and its closing line is used up. *)
Lemma lines_annotations_only (opener closer : string) (annots rest : list string) :
  is_rpc_opener (Py.strip opener) = true →
  annots ≠ [] →
  Forall (λ l, is_annotation l = true) annots →
  Py.strip closer = "}" →
  lines (opener :: annots ++ closer :: rest) = rpc_single_line opener :: lines rest.
Proof.
  intros Ho Hne Ha Hc. rewrite lines_cons, Ho, block_annotations by done.
  destruct annots as [|a annots]; [done|]. simpl.
  f_equal. rewrite cons_middle, app_assoc.
  rewrite drop_app_length'; [done|]. rewrite length_app. simpl. lia.
Qed.

(** No inner line: the block collapses and its closing line is read again
    by the outer loop, which keeps it. *)
Lemma lines_no_inner (opener closer : string) (rest : list string) :
  is_rpc_opener (Py.strip opener) = true →
  Py.strip closer = "}" →
  lines (opener :: closer :: rest) = rpc_single_line opener :: closer :: lines rest.
Proof.
  intros Ho Hc. rewrite lines_cons, Ho. simpl. rewrite Hc. simpl.
  rewrite lines_cons, Hc. done.
Qed.

(** A definition starts before the block is closed: the block collapses
    and the outer loop goes on from that line. *)
Lemma lines_malformed (opener off : string) (mid rest : list string) :
  is_rpc_opener (Py.strip opener) = true →
  Forall (λ l, is_inner l = true) mid →
  starts_definition (Py.strip off) = true →
  lines (opener :: mid ++ off :: rest) = rpc_single_line opener :: lines (off :: rest).
Proof.
  intros Ho Hm Hoff. rewrite lines_cons, Ho, block_malformed by done.
  simpl. by rewrite drop_app_length.
Qed.

End StripFacts.

(** ** The section extractor *)

Module ParseFacts.
Import Parse ParseRun.

Lemma iter_step (lines : list string) (i : nat) (line : string) (st : state) :
  (i ≤ length lines)%nat →
  ∃ c, iter lines i line st = Ok (step c line st)
       ∧ (c = true → comment_like (Py.strip line) = true).
Proof.
  intros Hi. unfold iter, step, comment_like.
  destruct (negb (license_done st)); [|by exists false].
  unfold is_comment.
  destruct (Py.startswith "//" (Py.strip line)); [by exists true|].
  destruct (Py.startswith "/*" (Py.strip line)); [by exists true|].
  destruct (Py.startswith "*" (Py.strip line));
    [|exists false; simpl; split; [by repeat case_match | done]].
  destruct (0 <? i)%nat eqn:E;
    [|exists false; simpl; split; [by repeat case_match | done]].
  apply Nat.ltb_lt in E.
  destruct (py_index_in_range lines (i - 1)) as (prev & _ & Hp); [lia|].
  replace (Z.of_nat i - 1)%Z with (Z.of_nat (i - 1)) by lia.
  rewrite Hp. simpl. exists (Py.contains "/*" prev).
  split; [by repeat case_match | done].
Qed.

(** An invariant of the scan, stated on the lines read so far. *)
Lemma loop_inv (I : list string → state → Prop) (lines : list string) :
  (∀ seen line st c,
     (c = true → comment_like (Py.strip line) = true) →
     I seen st → I (seen ++ [line]) (step c line st)) →
  ∀ todo seen st,
    lines = seen ++ todo → I seen st →
    ∃ st', loop lines (length seen) todo st = Ok st' ∧ I lines st'.
Proof.
  intros Hstep. induction todo as [|line todo IH]; intros seen st Hl HI.
  - rewrite app_nil_r in Hl. subst. by exists st.
  - simpl. destruct (iter_step lines (length seen) line st) as (c & Hc & Hcl).
    { subst. rewrite length_app. lia. }
    rewrite Hc. simpl.
    replace (S (length seen)) with (length (seen ++ [line]))
      by (rewrite length_app; simpl; lia).
    apply IH; [by rewrite <- app_assoc | by apply Hstep].
Qed.

Lemma parse_inv (I : list string → state → Prop) (content : string) :
  I [] init →
  (∀ seen line st c,
     (c = true → comment_like (Py.strip line) = true) →
     I seen st → I (seen ++ [line]) (step c line st)) →
  ∃ st, parse_proto_file content = Ok (result st) ∧ I (Py.split_lines content) st.
Proof.
  intros H0 Hstep. unfold parse_proto_file.
  destruct (loop_inv I (Py.split_lines content) Hstep (Py.split_lines content) [] init)
    as (st & Hst & HI); [done | done |].
  simpl in Hst. rewrite Hst. simpl. by exists st.
Qed.

Lemma parse_ok (content : string) : is_Ok (parse_proto_file content).
Proof.
  destruct (parse_inv (λ _ _, True) content) as (st & H & _); [done | done |].
  rewrite H. apply is_Ok_Ok.
Qed.

(** *** Every captured line is a line of the document *)

Lemma declarations_lines (P : string → Prop) (line stripped : string) (st : state) :
  P line → all_lines P (result st) → all_lines P (result (declarations line stripped st)).
Proof.
  intros Hl (L1 & L2 & L3 & L4 & L5 & L6). unfold declarations.
  repeat case_match; simpl; unfold all_lines; simpl;
    repeat split; try done; try (intros ? [= <-]; done);
    apply Forall_app; split; try done; by apply Forall_singleton.
Qed.

Lemma option_block_iter_result (stripped : string) (st : state) (pat : string) :
  result (option_block_iter stripped st pat) = result st.
Proof. unfold option_block_iter. repeat case_match; done. Qed.

Lemma option_block_fold_result (stripped : string) (pats : list string) (st : state) :
  result (foldl (option_block_iter stripped) st pats) = result st.
Proof.
  revert st. induction pats as [|p pats IH]; intros st; [done|].
  simpl. by rewrite IH, option_block_iter_result.
Qed.

Lemma option_blocks_lines (P : string → Prop) (line stripped : string) (st : state) :
  P line → all_lines P (result st) → all_lines P (result (option_blocks line stripped st)).
Proof.
  intros Hl H. unfold option_blocks.
  destruct (syntax_done st); [|by apply declarations_lines].
  pose proof (option_block_fold_result stripped SKIP_PATTERNS.option_blocks st) as Hr.
  set (st' := foldl (option_block_iter stripped) st SKIP_PATTERNS.option_blocks) in *.
  destruct (in_http_option st').
  - case_match; unfold set_in_http_option, set_brace_depth; cbn [result]; by rewrite Hr.
  - apply declarations_lines; [done | by rewrite Hr].
Qed.

Lemma after_license_lines (P : string → Prop) (line stripped : string) (st : state) :
  P line → all_lines P (result st) → all_lines P (result (after_license line stripped st)).
Proof.
  intros Hl H. unfold after_license.
  repeat case_match; try done; try (by apply option_blocks_lines);
    destruct H as (L1 & L2 & L3 & L4 & L5 & L6); simpl; unfold all_lines; simpl;
    repeat split; try done; intros ? [= <-]; done.
Qed.

Lemma step_lines (P : string → Prop) (c : bool) (line : string) (st : state) :
  P line → all_lines P (result st) → all_lines P (result (step c line st)).
Proof.
  intros Hl H. unfold step.
  repeat case_match; try done; try (by apply after_license_lines).
  destruct H as (L1 & L2 & L3 & L4 & L5 & L6); simpl; unfold all_lines; simpl.
  repeat split; try done. apply Forall_app; split; [done | by apply Forall_singleton].
Qed.

Lemma parse_all_lines (P : string → Prop) (content : string) :
  Forall P (Py.split_lines content) →
  ∃ r, parse_proto_file content = Ok r ∧ all_lines P r.
Proof.
  intros HP.
  destruct (parse_inv (λ seen st, Forall P seen → all_lines P (result st)) content)
    as (st & H & HI).
  - intros _. unfold all_lines; simpl.
    repeat split; try (by constructor); by intros ? [=].
  - intros seen line st c _ IH Hs. apply Forall_app in Hs as [Hs Hl].
    rewrite Forall_singleton in Hl. apply step_lines; [done | by apply IH].
  - exists (result st). split; [done | by apply HI].
Qed.

(** *** The body waits for the syntax line *)

Lemma step_waits (c : bool) (line : string) (st : state) :
  waits_for_syntax st → waits_for_syntax (step c line st).
Proof.
  destruct st as [[lic syn jp pk imps bd] ld sd pd ih dep].
  unfold waits_for_syntax. intros [W1 W2]. simpl in *.
  unfold_step; cbn.
  repeat (case_match; cbn); split; intros; simplify_eq; auto.
Qed.

Lemma parse_waits_for_syntax (content : string) :
  ∃ r, parse_proto_file content = Ok r ∧ (syntax r = None → body r = []).
Proof.
  destruct (parse_inv (λ _ st, waits_for_syntax st) content) as (st & H & [W1 W2]).
  - by split.
  - intros seen line st c _. apply step_waits.
  - exists (result st). split; [done|]. intros Hs. by apply W1, W2.
Qed.

(** *** A marker line read after the syntax line

    The [continue] of the marker test ends the iteration over the markers
    only, so control reaches the test on [in_http_option]: a marker line
    that opens a block has its balance added a second time, and a marker
    line that opens none goes on to the rules for declarations and body. *)
Lemma marker_line_after_syntax (line stripped : string) (st : state) :
  syntax_done st = true → in_http_option st = false →
  Py.contains "option (google.api.http)" stripped = true →
  option_blocks line stripped st =
  if (0 <? brace_balance stripped)%Z
  then set_brace_depth (brace_balance stripped + brace_balance stripped)
         (set_in_http_option true (set_brace_depth (brace_balance stripped) st))
  else declarations line stripped (set_brace_depth (brace_balance stripped) st).
Proof.
  intros Hs Hh Hc. unfold option_blocks, SKIP_PATTERNS.option_blocks.
  rewrite Hs. cbn [foldl]. unfold option_block_iter. rewrite Hc.
  destruct (0 <? brace_balance stripped)%Z eqn:E.
  - cbn. apply Z.ltb_lt in E.
    destruct (brace_balance stripped + brace_balance stripped <=? 0)%Z eqn:E2; [|done].
    apply Z.leb_le in E2. lia.
  - destruct st as [r ld sd pd ih dep]. simpl in *. by rewrite Hh.
Qed.

(** *** The package line *)

Lemma step_package_from (c : bool) (seen : list string) (line : string) (st : state) :
  package_from seen st → package_from (seen ++ [line]) (step c line st).
Proof.
  destruct st as [[lic syn jp pk imps bd] ld sd pd ih dep].
  unfold package_from. simpl. intros K l.
  unfold_step; cbn.
  repeat (case_match; cbn); intros Hl;
    first
      [ pose proof (K _ Hl) as HK; destruct HK as [? ?];
        split; [apply elem_of_app; by left | done]
      | injection Hl as <-;
        split; [apply elem_of_app; right; by apply list_elem_of_singleton|];
        match goal with
        | H : _ && _ = true |- _ => by apply andb_true_iff in H as [_ H]
        end ].
Qed.

Lemma parse_package_from (content : string) :
  ∃ r, parse_proto_file content = Ok r
       ∧ ∀ l, package r = Some l →
              l ∈ Py.split_lines content ∧ Py.startswith "package " (Py.strip l) = true.
Proof.
  destruct (parse_inv package_from content) as (st & H & K).
  - intros l [=].
  - intros seen line st c _. apply step_package_from.
  - by exists (result st).
Qed.

Lemma first_package_snoc (seen : list string) (line : string) :
  first_package (seen ++ [line]) =
  match first_package seen with
  | Some l => Some l
  | None => if Py.startswith "package " (Py.strip line) then Some line else None
  end.
Proof.
  unfold first_package. induction seen as [|x seen IH]; simpl; [done|].
  by destruct (Py.startswith "package " (Py.strip x)).
Qed.

Lemma startswith_app (p s : string) :
  Py.startswith p s = true → ∃ s', s = p +:+ s'.
Proof.
  unfold Py.startswith. revert s. induction p as [|a p IH]; intros s H.
  - by exists s.
  - destruct s as [|b s]; [discriminate H|].
    cbn [String.prefix] in H.
    destruct (Ascii.ascii_dec a b) as [->|]; [|discriminate H].
    destruct (IH _ H) as [s' ->]. by exists s'.
Qed.

Lemma step_first_wins (c : bool) (seen : list string) (line : string) (st : state) :
  (c = true → comment_like (Py.strip line) = true) →
  first_wins seen st → first_wins (seen ++ [line]) (step c line st).
Proof.
  intros Hc M Hall. apply Forall_app in Hall as [Hseen Hline].
  rewrite Forall_singleton in Hline.
  destruct (M Hseen) as (M1 & M2 & M3). clear M.
  rewrite first_package_snoc, <- M2.
  unfold marker_free, SKIP_PATTERNS.line_contains, SKIP_PATTERNS.option_blocks in Hline.
  cbn in Hline. rewrite !orb_false_r in Hline.
  apply andb_true_iff in Hline as [F1 F2]. apply negb_true_iff in F1, F2.
  destruct st as [[lic syn jp pk imps bd] ld sd pd ih dep]. simpl in *. subst ih.
  destruct (Py.startswith "package " (Py.strip line)) eqn:Ep.
  - destruct (startswith_app _ _ Ep) as [s' Hs'].
    assert (c = false) as ->.
    { destruct c; [|done]. specialize (Hc eq_refl). rewrite Hs' in Hc. discriminate Hc. }
    unfold_step; unfold SKIP_PATTERNS.line_prefixes, SKIP_PATTERNS.line_contains; cbn.
    rewrite F1, F2, Ep. rewrite Hs'; cbn.
    destruct pk, ld, sd; cbn; repeat (case_match; cbn); simplify_eq; done.
  - unfold_step; unfold SKIP_PATTERNS.line_prefixes, SKIP_PATTERNS.line_contains; cbn.
    rewrite F1, F2, Ep. rewrite !andb_false_r.
    destruct pk, ld, sd; cbn; repeat (case_match; cbn); simplify_eq; done.
Qed.

Lemma parse_first_wins (content : string) :
  Forall (λ l, marker_free l = true) (Py.split_lines content) →
  ∃ r, parse_proto_file content = Ok r
       ∧ package r = first_package (Py.split_lines content).
Proof.
  intros Hall. destruct (parse_inv first_wins content) as (st & H & M).
  - intros _. done.
  - intros seen line st c. apply step_first_wins.
  - exists (result st). split; [done|]. by destruct (M Hall) as (_ & ? & _).
Qed.

End ParseFacts.

(** ** The import block *)

Module ImportFacts.
Import Merge ImportRun.

Lemma str_leb_trans (a b c : string) :
  Py.str_leb a b = true → Py.str_leb b c = true → Py.str_leb a c = true.
Proof.
  unfold Py.str_leb, String.leb. revert b c.
  induction a as [|x a IH]; intros [|y b] [|z c]; simpl; try done.
  unfold Ascii.compare.
  destruct (N.compare_spec (Ascii.N_of_ascii x) (Ascii.N_of_ascii y)) as [E1|E1|E1];
    destruct (N.compare_spec (Ascii.N_of_ascii y) (Ascii.N_of_ascii z)) as [E2|E2|E2];
    destruct (N.compare_spec (Ascii.N_of_ascii x) (Ascii.N_of_ascii z)) as [E3|E3|E3];
    try done; try lia.
  apply IH.
Qed.

Lemma key_le_iff (x y : string) :
  key_le x y ↔ (tier x < tier y)%nat ∨ (tier x = tier y ∧ Py.str_leb x y = true).
Proof.
  unfold key_le, key_leb. rewrite orb_true_iff, andb_true_iff.
  rewrite Nat.ltb_lt, Nat.eqb_eq. done.
Qed.

Global Instance key_le_trans : Transitive key_le.
Proof.
  intros x y z. rewrite !key_le_iff.
  intros [H1|[H1 L1]] [H2|[H2 L2]]; try (left; lia).
  right. split; [lia|]. by eapply str_leb_trans.
Qed.

Global Instance key_le_total : Total key_le.
Proof.
  intros x y. rewrite !key_le_iff.
  destruct (lt_eq_lt_dec (tier x) (tier y)) as [[H|H]|H]; [by left; left| |by right; left].
  destruct (String.leb_total x y) as [L|L]; [left|right]; right; done.
Qed.

Global Instance key_le_antisym : AntiSymm eq key_le.
Proof.
  intros x y. rewrite !key_le_iff.
  intros [H1|[H1 L1]] [H2|[H2 L2]]; try lia.
  by apply String.leb_antisym.
Qed.

Lemma sorted_imports_elem (all_imports : gset string) (x : string) :
  x ∈ sorted_imports all_imports ↔ x ∈ all_imports.
Proof.
  unfold sorted_imports. rewrite merge_sort_Permutation. apply elem_of_elements.
Qed.

Lemma sorted_imports_NoDup (all_imports : gset string) :
  NoDup (sorted_imports all_imports).
Proof.
  unfold sorted_imports. rewrite merge_sort_Permutation. apply NoDup_elements.
Qed.

Lemma sorted_imports_sorted (all_imports : gset string) :
  StronglySorted key_le (sorted_imports all_imports).
Proof. apply StronglySorted_merge_sort; apply _. Qed.

(** The order in which the set is iterated does not show: any list of
    the same lines sorts to the same block. *)
Lemma sorted_imports_unique (all_imports : gset string) (l : list string) :
  l ≡ₚ elements all_imports →
  merge_sort key_le l = sorted_imports all_imports.
Proof.
  intros Hp. apply (Sorted_unique key_le).
  - apply Sorted_merge_sort. apply _.
  - apply Sorted_merge_sort. apply _.
  - unfold sorted_imports. by rewrite !merge_sort_Permutation.
Qed.

Lemma add_imports_elem (cm : option string) (imps : list string)
    (acc : gset string) (x : string) :
  x ∈ foldl (add_import cm) acc imps ↔ x ∈ acc ∨ reaches cm imps x.
Proof.
  revert acc. induction imps as [|imp imps IH]; intros acc; simpl.
  - split; [by left|]. intros [?|(imp & Hin & _)]; [done|]. by apply elem_of_nil in Hin.
  - rewrite IH. unfold add_import, reaches.
    destruct (is_self_import cm (transform_import_path (Py.strip imp))) eqn:E.
    + split.
      * intros [?|(i & Hi & ? & ?)]; [by left|]. right. exists i.
        split; [by apply elem_of_cons; right | done].
      * intros [?|(i & Hi & Hx & Hs)]; [by left|]. right.
        apply elem_of_cons in Hi as [->|Hi]; [congruence|]. by exists i.
    + rewrite elem_of_union, elem_of_singleton. split.
      * intros [[?| ->]|(i & Hi & ? & ?)]; [by left| |].
        -- right. exists imp. split; [by apply elem_of_cons; left | done].
        -- right. exists i. split; [by apply elem_of_cons; right | done].
      * intros [?|(i & Hi & Hx & Hs)]; [by left; left|].
        apply elem_of_cons in Hi as [->|Hi]; [by left; right|]. right. by exists i.
Qed.

Lemma collect_imports_elem (cm : option string) (parsed_files : list Parse.dict)
    (x : string) :
  x ∈ collect_imports cm parsed_files ↔
  ∃ parsed, parsed ∈ parsed_files ∧ reaches cm (Parse.imports parsed) x.
Proof.
  unfold collect_imports.
  assert (∀ acc : gset string,
    x ∈ foldl (λ all_imports parsed,
                 foldl (add_import cm) all_imports (Parse.imports parsed))
              acc parsed_files ↔
    x ∈ acc ∨ ∃ parsed, parsed ∈ parsed_files ∧ reaches cm (Parse.imports parsed) x)
    as H.
  { induction parsed_files as [|p ps IH]; intros acc; simpl.
    - split; [by left|]. intros [?|(p & Hin & _)]; [done|]. by apply elem_of_nil in Hin.
    - rewrite IH, add_imports_elem. split.
      + intros [[?|?]|(q & Hq & ?)]; [by left| |].
        * right. exists p. split; [by apply elem_of_cons; left | done].
        * right. exists q. split; [by apply elem_of_cons; right | done].
      + intros [?|(q & Hq & ?)]; [by left; left|].
        apply elem_of_cons in Hq as [->|Hq]; [by left; right|]. right. by exists q. }
  rewrite H. split; [|by right]. intros [Hx|?]; [|done]. by apply elem_of_empty in Hx.
Qed.

(** Two lines of a strongly sorted block, in their order. *)
Lemma sorted_lookup (l : list string) (i j : nat) (x y : string) :
  StronglySorted key_le l → (i < j)%nat →
  l !! i = Some x → l !! j = Some y → key_le x y.
Proof.
  intros Hs. revert i j. induction Hs as [|a l Hs IH Ha]; intros i j Hij Hi Hj.
  - by rewrite lookup_nil in Hi.
  - destruct j as [|j]; [lia|]. simpl in Hj. destruct i as [|i].
    + simpl in Hi. injection Hi as <-.
      rewrite Forall_forall in Ha. apply Ha. by eapply list_elem_of_lookup_2.
    + simpl in Hi. apply (IH i j); [lia | done | done].
Qed.

End ImportFacts.

(** ** Characters of the lines that the engine builds *)

Module StringFacts.

Lemma count_char_app (c : ascii) (a b : string) :
  Py.count_char c (a +:+ b) = (Py.count_char c a + Py.count_char c b)%nat.
Proof. induction a as [|x a IH]; simpl; [done|]. rewrite IH. lia. Qed.

Lemma count_lstrip_by (c : ascii) (p : ascii → bool) (s : string) :
  (Py.count_char c (Py.lstrip_by p s) ≤ Py.count_char c s)%nat.
Proof.
  induction s as [|x s IH]; simpl; [done|].
  destruct (p x); simpl; lia.
Qed.

Lemma count_rstrip_by (c : ascii) (p : ascii → bool) (s : string) :
  (Py.count_char c (Py.rstrip_by p s) ≤ Py.count_char c s)%nat.
Proof.
  induction s as [|x s IH]; simpl; [done|].
  destruct (Py.rstrip_by p s) as [|y r]; simpl in *.
  - destruct (p x); simpl; lia.
  - lia.
Qed.

Lemma count_str_drop (c : ascii) (n : nat) (s : string) :
  (Py.count_char c (Py.str_drop n s) ≤ Py.count_char c s)%nat.
Proof.
  revert s. induction n as [|n IH]; intros [|x s]; simpl; try lia.
  specialize (IH s). lia.
Qed.

Lemma count_take_while (c : ascii) (p : ascii → bool) (s : string) :
  (Py.count_char c (Py.take_while p s) ≤ Py.count_char c s)%nat.
Proof.
  induction s as [|x s IH]; simpl; [done|].
  destruct (p x); simpl; lia.
Qed.

Lemma length_str_drop (n : nat) (s : string) :
  String.length (Py.str_drop n s) = (String.length s - n)%nat.
Proof. revert s. induction n as [|n IH]; intros [|x s]; simpl; auto with lia. Qed.

Lemma nl_free_strip (s : string) : nl_free s → nl_free (Py.strip s).
Proof.
  unfold nl_free, Py.strip. intros H.
  pose proof (count_rstrip_by Py.nl_char Py.isspace (Py.lstrip_by Py.isspace s)).
  pose proof (count_lstrip_by Py.nl_char Py.isspace s). lia.
Qed.

Lemma nl_free_single_line (line : string) : nl_free line → nl_free (rpc_single_line line).
Proof.
  unfold nl_free, rpc_single_line, Py.rstrip, Py.rstrip_char. intros H.
  rewrite count_char_app. simpl.
  pose proof (count_rstrip_by Py.nl_char Py.isspace
                (Py.rstrip_by (Ascii.eqb "{") (Py.rstrip_by Py.isspace line))).
  pose proof (count_rstrip_by Py.nl_char (Ascii.eqb "{") (Py.rstrip_by Py.isspace line)).
  pose proof (count_rstrip_by Py.nl_char Py.isspace line).
  replace (Ascii.eqb ";" Py.nl_char) with false by done. lia.
Qed.

Lemma split_lines_nl_free (s : string) : Forall nl_free (Py.split_lines s).
Proof.
  induction s as [|c s IH]; simpl.
  - by repeat constructor.
  - destruct (Ascii.eqb c Py.nl_char) eqn:E.
    + by constructor.
    + destruct (Py.split_lines s) as [|l ls].
      * constructor; [|done]. unfold nl_free. simpl. by rewrite E.
      * apply Forall_cons in IH as [H1 H2]. constructor; [|done].
        unfold nl_free in *. simpl. rewrite E. lia.
Qed.

(** *** The rewritten import path *)

Lemma file_part_cons (x : ascii) (t : string) :
  Re.file_part (String x t) =
  if Ascii.eqb x Re.dquote then None
  else match Re.file_part t with
       | Some r => Some r
       | None => if Py.startswith ".proto" t then Some (Py.str_drop 6 t) else None
       end.
Proof. reflexivity. Qed.

Lemma file_part_count (c : ascii) (t r : string) :
  Re.file_part t = Some r →
  (Py.count_char c r ≤ Py.count_char c t)%nat ∧ (String.length r < String.length t)%nat.
Proof.
  revert r. induction t as [|x t IH]; intros r; [done|].
  rewrite file_part_cons. cbn [Py.count_char String.length].
  destruct (Ascii.eqb x Re.dquote); [done|].
  destruct (Re.file_part t) as [r'|].
  - intros [= <-]. destruct (IH r' eq_refl). lia.
  - destruct (Py.startswith ".proto" t); [|done]. intros Heq.
    assert (r = Py.str_drop 6 t) as -> by congruence.
    pose proof (count_str_drop c 6 t). pose proof (length_str_drop 6 t). lia.
Qed.

Lemma match_here_count (c : ascii) (s m r : string) :
  Re.match_here s = Some (m, r) →
  (Py.count_char c m ≤ Py.count_char c s)%nat
  ∧ (Py.count_char c r ≤ Py.count_char c s)%nat
  ∧ (String.length r < String.length s)%nat.
Proof.
  unfold Re.match_here.
  destruct (Py.startswith "banyandb/" s); [|done].
  set (s1 := Py.str_drop 9 s).
  set (md := Py.take_while (λ c0 : ascii, negb (Ascii.eqb c0 "/")) s1).
  set (s2 := Py.str_drop (String.length md) s1).
  destruct (String.eqb md ""); [done|].
  destruct (Py.startswith "/v1/" s2); [|done].
  destruct (Re.file_part (Py.str_drop 4 s2)) as [r'|] eqn:E; [|done].
  intros [= <- <-]. destruct (file_part_count c _ _ E) as [H1 H2].
  pose proof (count_str_drop c 4 s2). pose proof (count_str_drop c 9 s).
  pose proof (count_str_drop c (String.length md) s1).
  pose proof (count_take_while c (λ c0 : ascii, negb (Ascii.eqb c0 "/")) s1).
  rewrite length_str_drop in H2. unfold s2 in H2. rewrite length_str_drop in H2.
  unfold s1 in H2. rewrite length_str_drop in H2.
  fold s1 in H, H0, H1, H3, H4. fold md in H4. fold s2 in H, H1, H3.
  repeat split; lia.
Qed.

(** The bound of [Re.sub] is never reached: any bound that covers the
    characters of the line gives the same text. *)
Lemma sub_fuel (n m : nat) (s : string) :
  (String.length s ≤ n)%nat → (String.length s ≤ m)%nat → Re.sub n s = Re.sub m s.
Proof.
  revert m s. induction n as [|n IH]; intros m s Hn Hm.
  - destruct s; [|simpl in Hn; lia]. by destruct m.
  - destruct m as [|m].
    + destruct s; [done | simpl in Hm; lia].
    + cbn [Re.sub]. destruct (Re.match_here s) as [[md r]|] eqn:E.
      * destruct (match_here_count "a" _ _ _ E) as (_ & _ & Hlen).
        do 3 f_equal. apply IH; lia.
      * destruct s as [|x s]; [done|]. simpl in Hn, Hm. f_equal. apply IH; lia.
Qed.

Lemma sub_nl_free (n : nat) (s : string) : nl_free s → nl_free (Re.sub n s).
Proof.
  unfold nl_free. revert s. induction n as [|n IH]; intros s Hs; simpl; [done|].
  destruct (Re.match_here s) as [[m r]|] eqn:E.
  - destruct (match_here_count Py.nl_char _ _ _ E) as (H1 & H2 & _).
    change ("banyandb/v1/banyandb-" +:+ m +:+ ".proto" +:+ Re.sub n r)
      with ("banyandb/v1/banyandb-" +:+ (m +:+ (".proto" +:+ Re.sub n r))).
    rewrite !count_char_app. rewrite IH by lia.
    replace (Py.count_char Py.nl_char "banyandb/v1/banyandb-") with 0%nat by done.
    replace (Py.count_char Py.nl_char ".proto") with 0%nat by done. lia.
  - destruct s as [|x s]; [done|]. simpl in *.
    destruct (Ascii.eqb x Py.nl_char); [lia|]. simpl. apply IH. lia.
Qed.

Lemma transform_nl_free (imp : string) :
  nl_free imp → nl_free (transform_import_path (Py.strip imp)).
Proof. intros H. apply sub_nl_free. by apply nl_free_strip. Qed.

(** *** Blank strings *)

(** A suffix of a blank string is blank, and so is a blank string cut
    at its end. *)
Lemma lstrip_by_all (p : ascii → bool) (s : string) :
  Py.lstrip_by p s = "" ↔ Py.str_forallb p s = true.
Proof.
  induction s as [|x s IH]; simpl; [done|].
  destruct (p x); simpl; [done|]. split; discriminate.
Qed.

Lemma rstrip_by_all (p : ascii → bool) (s : string) :
  Py.rstrip_by p s = "" ↔ Py.str_forallb p s = true.
Proof.
  induction s as [|x s IH]; simpl; [done|].
  destruct (Py.rstrip_by p s) as [|y r].
  - destruct (p x); simpl.
    + split; [intros _; by apply IH | done].
    + split; discriminate.
  - split; [discriminate|]. intros H. apply andb_true_iff in H as [_ H].
    apply IH in H. discriminate H.
Qed.

Lemma lstrip_by_forallb (p : ascii → bool) (s : string) :
  Py.str_forallb p (Py.lstrip_by p s) = Py.str_forallb p s.
Proof.
  induction s as [|x s IH]; simpl; [done|].
  destruct (p x) eqn:E; simpl; [done|]. by rewrite E.
Qed.

Lemma blank_iff (s : string) : blank s ↔ Py.str_forallb Py.isspace s = true.
Proof.
  unfold blank, Py.strip. rewrite rstrip_by_all. by rewrite lstrip_by_forallb.
Qed.

Lemma str_app_cons (x : ascii) (a b : string) : String x a +:+ b = String x (a +:+ b).
Proof. reflexivity. Qed.

Lemma str_app_nil_l (b : string) : "" +:+ b = b.
Proof. reflexivity. Qed.

Lemma forallb_app (p : ascii → bool) (a b : string) :
  Py.str_forallb p (a +:+ b) = Py.str_forallb p a && Py.str_forallb p b.
Proof.
  induction a as [|x a IH]; [done|].
  rewrite str_app_cons. cbn [Py.str_forallb]. by rewrite IH, andb_assoc.
Qed.

Lemma str_app_assoc (a b c : string) : (a +:+ b) +:+ c = a +:+ (b +:+ c).
Proof. induction a as [|x a IH]; [done|]. rewrite !str_app_cons. by f_equal. Qed.

Lemma str_app_nil_r (a : string) : a +:+ "" = a.
Proof. induction a as [|x a IH]; [done|]. rewrite str_app_cons. by f_equal. Qed.

Lemma str_length_app (a b : string) :
  String.length (a +:+ b) = (String.length a + String.length b)%nat.
Proof.
  induction a as [|x a IH]; [done|].
  rewrite str_app_cons. cbn [String.length]. by rewrite IH.
Qed.

(** Two ways of cutting one string in two. *)
Lemma str_app_eq_app (a b c d : string) :
  a +:+ b = c +:+ d →
  (∃ e, c = a +:+ e ∧ b = e +:+ d) ∨ (∃ e, a = c +:+ e ∧ d = e +:+ b).
Proof.
  revert c. induction a as [|x a IH]; intros c H.
  - left. by exists c.
  - destruct c as [|y c].
    + right. by exists (String x a).
    + rewrite !str_app_cons in H. injection H as -> H.
      destruct (IH _ H) as [(e & -> & ->)|(e & -> & ->)].
      * left. by exists e.
      * right. by exists e.
Qed.

Lemma str_app_inv_tail (a b c : string) : a +:+ c = b +:+ c → a = b.
Proof.
  intros H. destruct (str_app_eq_app _ _ _ _ H) as [(e & -> & He)|(e & -> & He)].
  - apply (f_equal String.length) in He. rewrite str_length_app in He.
    destruct e; [by rewrite str_app_nil_r | simpl in He; lia].
  - apply (f_equal String.length) in He. rewrite str_length_app in He.
    destruct e; [by rewrite str_app_nil_r | simpl in He; lia].
Qed.

End StringFacts.

(** ** Every step of the pipeline returns, and what its lines are made of *)

Module PipelineFacts.
Import Merge.

Lemma filter_run_Forall (P : string → Prop) (ms rs l : list string) (skip : bool) (d : Z) :
  Forall P l → Forall P (FilterRun.run ms rs skip d l).
Proof.
  intros H. revert skip d. induction H as [|line l Hl _ IH]; intros skip d; [done|].
  simpl. apply Forall_app. split; [|apply IH].
  unfold Filter.on_line, Filter.message_check, Filter.rpc_check; simpl.
  repeat (case_match; simpl); try done; by apply Forall_singleton.
Qed.

Lemma filter_Forall (P : string → Prop) (body ms rs : list string) :
  Forall P body →
  ∃ out, filter_excluded_definitions body ms rs = Ok out ∧ Forall P out.
Proof.
  intros H. rewrite FilterFacts.filter_excluded_definitions_run.
  eexists. split; [done|]. case_match; [done|]. by apply filter_run_Forall.
Qed.

Lemma strip_block_Forall (P : string → Prop) (rpc_line : string) (l content : list string)
    (seen cnt : nat) :
  collapse_closed P → P rpc_line → Forall P l → Forall P content →
  Forall P (StripRun.block rpc_line l seen content cnt).1.
Proof.
  intros Hc Hr Hl. revert seen content cnt.
  induction Hl as [|bl l Hbl _ IH]; intros seen content cnt Hcont; simpl.
  - apply Forall_singleton. by apply Hc.
  - repeat case_match; simpl;
      try (apply Forall_singleton; by apply Hc).
    + constructor; [done|]. apply Forall_app. split; [done | by apply Forall_singleton].
    + by apply IH.
    + apply IH. apply Forall_app. split; [done | by apply Forall_singleton].
Qed.

Lemma strip_run_Forall (P : string → Prop) (n : nat) (l : list string) :
  collapse_closed P → Forall P l → Forall P (StripRun.run n l).
Proof.
  intros Hc. revert l. induction n as [|n IH]; intros l Hl; simpl; [done|].
  destruct Hl as [|line l Hline Hl]; [done|].
  destruct (is_rpc_opener (Py.strip line)).
  - pose proof (strip_block_Forall P line l [] 0 0 Hc Hline Hl (Forall_nil_2 P)) as Hb.
    destruct (StripRun.block line l 0 [] 0) as [out k]. simpl in Hb.
    apply Forall_app. split; [done|]. apply IH. by apply Forall_drop.
  - constructor; [done | by apply IH].
Qed.

Lemma strip_Forall (P : string → Prop) (body : list string) :
  collapse_closed P → Forall P body →
  ∃ out, remove_options_from_rpc_blocks body = Ok out ∧ Forall P out.
Proof.
  intros Hc H. rewrite StripFacts.remove_options_lines.
  eexists. split; [done|]. by apply strip_run_Forall.
Qed.

(** *** The empty-block collapser *)

Lemma skip_blank_ok (n : nat) (body : list string) (j : nat) :
  (length body - j ≤ n)%nat →
  ∃ j', Cleanup.skip_blank n body j = Ok j' ∧ (j ≤ j')%nat.
Proof.
  revert j. induction n as [|n IH]; intros j Hn; simpl.
  - destruct (j <? length body)%nat eqn:E; [apply Nat.ltb_lt in E; lia|].
    by exists j.
  - destruct (j <? length body)%nat eqn:E; [|by exists j].
    apply Nat.ltb_lt in E.
    destruct (py_index_in_range body j E) as (l & _ & Hi). rewrite Hi. simpl.
    destruct (negb (Py.truthy (Py.strip l))); [|by exists j].
    destruct (IH (j + 1)%nat) as (j' & Hj' & Hle); [lia|].
    exists j'. split; [done | lia].
Qed.

Lemma closes_ok (body : list string) (j : nat) : is_Ok (Cleanup.closes body j).
Proof.
  unfold Cleanup.closes.
  destruct (j <? length body)%nat eqn:E; [|apply is_Ok_Ok].
  apply Nat.ltb_lt in E.
  destruct (py_index_in_range body j E) as (l & _ & Hi). rewrite Hi. apply is_Ok_Ok.
Qed.

Lemma cleanup_while_Forall (P : string → Prop) (n : nat) (body : list string) (i : nat)
    (res : list string) :
  collapse_closed P → Forall P body → Forall P res →
  (length body - i ≤ n)%nat →
  ∃ out, Cleanup.while n body i res = Ok out ∧ Forall P out.
Proof.
  intros Hc Hb. revert i res. induction n as [|n IH]; intros i res Hres Hn; simpl.
  - destruct (i <? length body)%nat eqn:E; [apply Nat.ltb_lt in E; lia|].
    by exists res.
  - destruct (i <? length body)%nat eqn:E; [|by exists res].
    apply Nat.ltb_lt in E.
    destruct (py_index_in_range body i E) as (line & Hl & Hi). rewrite Hi. simpl.
    assert (P line) as Hline.
    { rewrite Forall_forall in Hb. apply Hb. by eapply list_elem_of_lookup_2. }
    assert (Forall P (res ++ [line])) as Hkeep.
    { apply Forall_app. split; [done | by apply Forall_singleton]. }
    destruct (is_rpc_opener (Py.strip line)).
    + destruct (skip_blank_ok (length body) body (i + 1)%nat) as (j & Hj & Hle); [lia|].
      rewrite Hj. simpl. destruct (closes_ok body j) as [c Hcl]. rewrite Hcl. simpl.
      destruct c.
      * apply IH; [|lia]. apply Forall_app. split; [done|].
        apply Forall_singleton. by apply Hc.
      * apply IH; [done | lia].
    + apply IH; [done | lia].
Qed.

Lemma cleanup_Forall (P : string → Prop) (body : list string) :
  collapse_closed P → Forall P body →
  ∃ out, cleanup_empty_rpc_blocks body = Ok out ∧ Forall P out.
Proof.
  intros Hc H. unfold cleanup_empty_rpc_blocks.
  destruct body as [|line body]; [by exists []|].
  cbn [Py.truthy_list negb]. apply cleanup_while_Forall; [done | done | done | lia].
Qed.

(** *** Trimming blank lines *)

Lemma trim_leading_Forall (P : string → Prop) (n : nat) (l : list string) :
  (length l ≤ n)%nat → Forall P l →
  ∃ l', trim_leading n l = Ok l' ∧ Forall P l'.
Proof.
  revert l. induction n as [|n IH]; intros l Hn Hl.
  - destruct l; [|simpl in Hn; lia]. by exists [].
  - destruct l as [|x l]; [by exists []|]. simpl.
    destruct (negb (Py.truthy (Py.strip x))); [|by exists (x :: l)].
    apply Forall_cons in Hl as [_ Hl]. apply IH; [simpl in Hn; lia | done].
Qed.

Lemma trim_trailing_snoc (n : nat) (init : list string) (x : string) :
  trim_trailing (S n) (init ++ [x]) =
  if negb (Py.truthy (Py.strip x)) then trim_trailing n init else Ok (init ++ [x]).
Proof.
  cbn [trim_trailing].
  replace (Py.truthy_list (init ++ [x])) with true by (by destruct init).
  rewrite py_index_last. simpl.
  destruct (negb (Py.truthy (Py.strip x))); [|done].
  unfold py_pop. rewrite removelast_last.
  by destruct init.
Qed.

Lemma trim_trailing_Forall (P : string → Prop) (n : nat) (l : list string) :
  (length l ≤ n)%nat → Forall P l →
  ∃ l', trim_trailing n l = Ok l' ∧ Forall P l' ∧ ends_well l'.
Proof.
  revert l. induction n as [|n IH]; intros l Hn Hl.
  - destruct l; [|simpl in Hn; lia]. exists []. repeat split; [done|]. by left.
  - destruct l as [|y l'] using rev_ind.
    + exists []. repeat split; [done|]. by left.
    + rewrite trim_trailing_snoc. rewrite length_app in Hn. simpl in Hn.
      apply Forall_app in Hl as [Hl Hy].
      destruct (Py.truthy (Py.strip y)) eqn:E; simpl.
      * exists (l' ++ [y]). repeat split.
        -- apply Forall_app. by split.
        -- right. exists l', y. split; [done|]. unfold blank. intros Hb.
           rewrite Hb in E. discriminate E.
      * apply IH; [lia | done].
Qed.

(** *** The bodies *)

Lemma not_skipped_Forall (P : string → Prop) (l : list string) :
  Forall P l → Forall P (List.filter not_skipped l).
Proof.
  induction 1 as [|x l Hx _ IH]; simpl; [done|].
  destruct (not_skipped x); [by constructor | done].
Qed.

Lemma add_body_Forall (P : string → Prop) (em er : option (list string)) (i : nat)
    (parsed : Parse.dict) (merged : list string) :
  collapse_closed P → P "" →
  Forall P (Parse.body parsed) → Forall P merged →
  ∃ merged', add_body em er i parsed merged = Ok merged' ∧ Forall P merged'.
Proof.
  intros Hc He Hb Hm. unfold add_body.
  destruct (Py.truthy_list (Parse.body parsed)); [|by exists merged].
  destruct (trim_leading_Forall P (length (Parse.body parsed)) (Parse.body parsed))
    as (b1 & -> & H1); [lia | done |]. simpl.
  destruct (trim_trailing_Forall P (length b1) b1) as (b2 & -> & H2 & _); [lia | done |].
  simpl.
  pose proof (not_skipped_Forall P b2 H2) as H3.
  assert (∃ b4,
    (if truthy_opt em || truthy_opt er
     then filter_excluded_definitions (List.filter not_skipped b2) (or_empty em) (or_empty er)
     else Ok (List.filter not_skipped b2)) = Ok b4 ∧ Forall P b4) as (b4 & -> & H4).
  { destruct (truthy_opt em || truthy_opt er); [by apply filter_Forall | by eexists]. }
  simpl.
  destruct (strip_Forall P b4 Hc H4) as (b5 & -> & H5). simpl.
  destruct (cleanup_Forall P b5 Hc H5) as (b6 & -> & H6). simpl.
  destruct (Py.truthy_list b6); [|by exists merged].
  eexists. split; [done|]. apply Forall_app. split; [|done].
  destruct (0 <? i)%nat; [|done]. apply Forall_app. split; [done | by apply Forall_singleton].
Qed.

Lemma bodies_Forall (P : string → Prop) (em er : option (list string))
    (todo : list Parse.dict) (i : nat) (merged : list string) :
  collapse_closed P → P "" →
  Forall (λ parsed, Forall P (Parse.body parsed)) todo → Forall P merged →
  ∃ merged', bodies em er i todo merged = Ok merged' ∧ Forall P merged'.
Proof.
  intros Hc He Ht. revert i merged.
  induction Ht as [|parsed todo Hp _ IH]; intros i merged Hm; simpl; [by exists merged|].
  destruct (add_body_Forall P em er i parsed merged Hc He Hp Hm) as (m' & -> & Hm').
  simpl. by apply IH.
Qed.

(** *** Parsing every document *)

Lemma parse_all_files_lines (P : string → Prop) (proto_contents : list string) :
  Forall (λ content, Forall P (Py.split_lines content)) proto_contents →
  ∃ parsed_files,
    parse_all proto_contents = Ok parsed_files
    ∧ length parsed_files = length proto_contents
    ∧ Forall (ParseRun.all_lines P) parsed_files.
Proof.
  induction 1 as [|content rest Hc _ (ps & Hps & Hlen & Hall)]; simpl.
  - by exists [].
  - destruct (ParseFacts.parse_all_lines P content Hc) as (r & -> & Hr). simpl.
    rewrite Hps. simpl. exists (r :: ps). repeat split; [simpl; lia | by constructor].
Qed.

Lemma header_Forall (P : string → Prop) (first : Parse.dict) :
  P "" → ParseRun.all_lines P first → Forall P (header first).
Proof.
  intros He (L1 & L2 & L3 & L4 & _). unfold header.
  assert (∀ (o : option string) (m : list string),
    (∀ l, o = Some l → P l) → Forall P m →
    Forall P match o with
             | Some line => if Py.truthy line then (m ++ [line]) ++ [""] else m
             | None => m
             end) as Hopt.
  { intros [l|] m Ho Hm; [|done]. destruct (Py.truthy l); [|done].
    apply Forall_app. split; [|by apply Forall_singleton].
    apply Forall_app. split; [done|]. apply Forall_singleton. by apply Ho. }
  apply Hopt; [done|]. apply Hopt; [done|]. apply Hopt; [done|].
  destruct (Py.truthy_list (Parse.license first)); [|done].
  apply Forall_app. split; [|by apply Forall_singleton].
  by apply Forall_app.
Qed.

Lemma import_block_Forall (P : string → Prop) (cm : option string)
    (parsed_files : list Parse.dict) :
  P "" →
  (∀ imp, P imp → P (transform_import_path (Py.strip imp))) →
  Forall (ParseRun.all_lines P) parsed_files →
  Forall P (import_block cm parsed_files).
Proof.
  intros He Ht Hall. unfold import_block. case_bool_decide; [done|].
  apply Forall_app. split; [|by apply Forall_singleton].
  apply Forall_forall. intros x Hx.
  apply ImportFacts.sorted_imports_elem, ImportFacts.collect_imports_elem in Hx
    as (parsed & Hp & imp & Hi & -> & _).
  apply Ht. rewrite Forall_forall in Hall. destruct (Hall _ Hp) as (_ & _ & _ & _ & L5 & _).
  rewrite Forall_forall in L5. by apply L5.
Qed.

(** *** The merged text *)

Lemma merge_lines (proto_contents : list string) (cm : option string)
    (em er : option (list string)) :
  proto_contents ≠ [] →
  ∃ merged,
    merge_proto_files proto_contents cm em er = Ok (Py.join_lines merged +:+ Py.nl)
    ∧ Forall nl_free merged ∧ ends_well merged.
Proof.
  intros Hne. unfold merge_proto_files.
  destruct proto_contents as [|c0 cs]; [done|]. cbn [Py.truthy_list negb].
  destruct (parse_all_files_lines nl_free (c0 :: cs)) as (ps & -> & Hlen & Hall).
  { apply Forall_forall. intros content _. apply StringFacts.split_lines_nl_free. }
  cbn [bind]. destruct ps as [|first ps]; [simpl in Hlen; lia|].
  change (py_index (first :: ps) 0) with (Ok first). cbn [bind].
  assert (collapse_closed nl_free) as Hc by exact StringFacts.nl_free_single_line.
  assert (nl_free "") as He by done.
  assert (Forall nl_free (header first ++ import_block cm (first :: ps))) as Hm.
  { apply Forall_app. split.
    - apply header_Forall; [done|]. by apply Forall_cons in Hall as [? _].
    - apply import_block_Forall; [done | apply StringFacts.transform_nl_free | done]. }
  assert (Forall (λ parsed, Forall nl_free (Parse.body parsed)) (first :: ps)) as Hbs.
  { apply Forall_forall. intros p Hp. rewrite Forall_forall in Hall.
    by destruct (Hall _ Hp) as (_ & _ & _ & _ & _ & ?). }
  destruct (bodies_Forall nl_free em er (first :: ps) 0
              (header first ++ import_block cm (first :: ps)) Hc He Hbs Hm)
    as (m1 & Hm1 & H1).
  rewrite Hm1. cbn [bind].
  destruct (trim_trailing_Forall nl_free (length m1) m1) as (m2 & -> & H2 & Hw);
    [lia | done |].
  cbn [bind]. by exists m2.
Qed.

End PipelineFacts.

(** ** The end of the merged text *)

Module TextFacts.
Import StringFacts.

Lemma join_lines_snoc (init : list string) (x : string) :
  ∃ j, Py.join_lines (init ++ [x]) = j +:+ x.
Proof.
  unfold Py.join_lines. induction init as [|a init [j IH]].
  - by exists "".
  - destruct init as [|b init].
    + exists (a +:+ Py.nl). simpl. by rewrite str_app_assoc.
    + exists (a +:+ Py.nl +:+ j).
      change (String.concat Py.nl ((a :: b :: init) ++ [x]))
        with (a +:+ Py.nl +:+ String.concat Py.nl ((b :: init) ++ [x])).
      rewrite IH. by rewrite !str_app_assoc.
Qed.

Lemma blank_app_r (a b : string) : blank (a +:+ b) → blank b.
Proof.
  rewrite !blank_iff, forallb_app. intros H. by apply andb_true_iff in H as [_ H].
Qed.

(** A string cut before a line terminator and cut again before [e]: if
    [e] is not empty it holds the terminator. *)
Lemma nl_in_tail (pre j e : string) :
  pre +:+ Py.nl = j +:+ e → e ≠ "" → (1 ≤ Py.count_char Py.nl_char e)%nat.
Proof.
  intros H He. destruct (str_app_eq_app _ _ _ _ H) as [(f & -> & Hf)|(f & -> & Hf)].
  - destruct f as [|c f].
    + rewrite str_app_nil_l in Hf. by subst e.
    + rewrite str_app_cons in Hf. unfold Py.nl in Hf. injection Hf as _ Hf.
      destruct f; [|discriminate Hf]. rewrite str_app_nil_l in Hf. by subst e.
  - subst e. rewrite count_char_app. simpl.
    replace (Ascii.eqb Py.nl_char Py.nl_char) with true by done. lia.
Qed.

(** After the last line terminator but one there is a line that is not
    blank: the text does not end with a blank line. *)
Lemma no_trailing_blank (merged : list string) (pre ws : string) :
  Forall nl_free merged → ends_well merged →
  Py.join_lines merged +:+ Py.nl = pre +:+ Py.nl +:+ ws +:+ Py.nl →
  ¬ blank ws.
Proof.
  intros Hnl Hw H Hb.
  rewrite <- (str_app_assoc pre), <- (str_app_assoc (pre +:+ Py.nl)) in H.
  apply str_app_inv_tail in H.
  destruct Hw as [->|(init & x & -> & Hx)].
  - apply (f_equal String.length) in H. rewrite !str_length_app in H. simpl in H. lia.
  - destruct (join_lines_snoc init x) as [j Hj]. rewrite Hj in H.
    apply Forall_app in Hnl as [_ Hnlx]. rewrite Forall_singleton in Hnlx.
    destruct (str_app_eq_app _ _ _ _ H) as [(e & He & Hxe)|(e & -> & ->)].
    + destruct (decide (e = "")) as [->|Hne].
      * rewrite str_app_nil_l in Hxe. by subst x.
      * pose proof (nl_in_tail _ _ _ He Hne) as Hc.
        unfold nl_free in Hnlx. rewrite Hxe, count_char_app in Hnlx. lia.
    + by apply Hx, (blank_app_r e).
Qed.

End TextFacts.

(** ** The empty-block collapser computes [CleanupRun.lines] *)

Module CleanupFacts.
Import Cleanup CleanupRun.

Lemma skip_blank_run (n : nat) (body : list string) (j : nat) :
  (length body - j ≤ n)%nat →
  skip_blank n body j = Ok (j + blanks (drop j body))%nat.
Proof.
  revert j. induction n as [|n IH]; intros j Hn; simpl.
  - destruct (j <? length body)%nat eqn:E; [apply Nat.ltb_lt in E; lia|].
    apply Nat.ltb_ge in E. rewrite drop_ge by lia. simpl. by rewrite Nat.add_0_r.
  - destruct (j <? length body)%nat eqn:E.
    + apply Nat.ltb_lt in E.
      destruct (py_index_in_range body j E) as (l & Hl & Hi). rewrite Hi. simpl.
      rewrite (drop_S _ _ _ Hl). simpl.
      destruct (negb (Py.truthy (Py.strip l))).
      * rewrite IH by lia. replace (j + 1)%nat with (S j) by lia. f_equal. lia.
      * by rewrite Nat.add_0_r.
    + apply Nat.ltb_ge in E. rewrite drop_ge by lia. simpl. by rewrite Nat.add_0_r.
Qed.

Lemma closes_run (body : list string) (j : nat) :
  closes body j =
  Ok match drop j body with
     | c :: _ => String.eqb (Py.strip c) "}"
     | [] => false
     end.
Proof.
  unfold closes. destruct (j <? length body)%nat eqn:E.
  - apply Nat.ltb_lt in E.
    destruct (py_index_in_range body j E) as (l & Hl & Hi). rewrite Hi. simpl.
    by rewrite (drop_S _ _ _ Hl).
  - apply Nat.ltb_ge in E. by rewrite drop_ge by lia.
Qed.

Lemma blanks_bound (l : list string) : (blanks l ≤ length l)%nat.
Proof. induction l as [|x l IH]; simpl; [lia|]. case_match; simpl; lia. Qed.

Lemma cleanup_run_fuel (n m : nat) (l : list string) :
  (length l ≤ n)%nat → (length l ≤ m)%nat → run n l = run m l.
Proof.
  revert m l. induction n as [|n IH]; intros m l Hn Hm.
  - destruct l; [|simpl in Hn; lia]. by destruct m.
  - destruct m as [|m].
    + destruct l; [done | simpl in Hm; lia].
    + destruct l as [|line l]; [done|]. simpl in *.
      destruct (is_rpc_opener (Py.strip line) && closed_next l).
      * f_equal. apply IH; rewrite length_drop; lia.
      * f_equal. apply IH; lia.
Qed.

Lemma cleanup_lines_cons (line : string) (l : list string) :
  lines (line :: l) =
  if is_rpc_opener (Py.strip line) && closed_next l
  then rpc_single_line line :: lines (drop (S (blanks l)) l)
  else line :: lines l.
Proof.
  unfold lines. simpl.
  destruct (is_rpc_opener (Py.strip line) && closed_next l); [|done].
  f_equal. apply cleanup_run_fuel; rewrite length_drop; lia.
Qed.

Lemma cleanup_while_run (n : nat) (body : list string) (i : nat) (res : list string) :
  (length body - i ≤ n)%nat →
  Cleanup.while n body i res = Ok (res ++ lines (drop i body)).
Proof.
  revert i res. induction n as [|n IH]; intros i res Hn; simpl.
  - destruct (i <? length body)%nat eqn:E.
    + apply Nat.ltb_lt in E. lia.
    + apply Nat.ltb_ge in E. rewrite drop_ge by lia. by rewrite app_nil_r.
  - destruct (i <? length body)%nat eqn:E.
    + apply Nat.ltb_lt in E.
      destruct (py_index_in_range body i E) as (line & Hl & Hi).
      rewrite Hi; simpl. rewrite (drop_S _ _ _ Hl), cleanup_lines_cons.
      replace (i + 1)%nat with (S i) by lia.
      destruct (is_rpc_opener (Py.strip line)); simpl.
      * rewrite skip_blank_run by lia. cbn [bind]. rewrite closes_run. cbn [bind].
        unfold closed_next. rewrite drop_drop.
        set (b := blanks (drop (S i) body)).
        replace (drop (S b) (drop (S i) body)) with (drop (S i + b + 1) body)
          by (rewrite drop_drop; f_equal; lia).
        destruct (drop (S i + b) body) as [|c rest] eqn:Ed.
        -- rewrite IH by lia. by rewrite <- app_assoc.
        -- destruct (String.eqb (Py.strip c) "}").
           ++ rewrite IH by lia. by rewrite <- app_assoc.
           ++ rewrite IH by lia. by rewrite <- app_assoc.
      * rewrite IH by lia. by rewrite <- app_assoc.
    + apply Nat.ltb_ge in E. rewrite drop_ge by lia. by rewrite app_nil_r.
Qed.

Lemma cleanup_lines (body : list string) :
  cleanup_empty_rpc_blocks body = Ok (lines body).
Proof.
  unfold cleanup_empty_rpc_blocks. destruct body as [|line body]; [done|].
  cbn [Py.truthy_list negb]. rewrite cleanup_while_run by lia. done.
Qed.

(** *** Blank lines and the look-ahead *)

Lemma blank_truthy (x : string) : blank x ↔ negb (Py.truthy (Py.strip x)) = true.
Proof.
  unfold blank, Py.truthy. rewrite negb_involutive. symmetry. apply String.eqb_eq.
Qed.

Lemma blanks_app (bl : list string) (c : string) (rest : list string) :
  Forall blank bl → ¬ blank c → blanks (bl ++ c :: rest) = length bl.
Proof.
  intros Hb Hc. induction Hb as [|x bl Hx _ IH]; simpl.
  - destruct (negb (Py.truthy (Py.strip c))) eqn:E; [|done].
    by apply blank_truthy in E.
  - apply blank_truthy in Hx. rewrite Hx. by rewrite IH.
Qed.

Lemma closed_next_cons (x : string) (l : list string) :
  closed_next (x :: l) =
  if negb (Py.truthy (Py.strip x)) then closed_next l else String.eqb (Py.strip x) "}".
Proof. unfold closed_next. simpl. by destruct (negb (Py.truthy (Py.strip x))). Qed.

Lemma cleanup_lines_keep (line : string) (l : list string) :
  is_rpc_opener (Py.strip line) = false → lines (line :: l) = line :: lines l.
Proof. intros H. by rewrite cleanup_lines_cons, H. Qed.

Lemma cleanup_lines_no_opener (l : list string) :
  Forall (λ line, is_rpc_opener (Py.strip line) = false) l → lines l = l.
Proof.
  induction 1 as [|line l H _ IH]; [done|]. by rewrite cleanup_lines_keep, IH.
Qed.

Lemma cleanup_lines_collapse (opener closer : string) (bl rest : list string) :
  is_rpc_opener (Py.strip opener) = true →
  Forall blank bl → Py.strip closer = "}" →
  lines (opener :: bl ++ closer :: rest) = rpc_single_line opener :: lines rest.
Proof.
  intros Ho Hb Hc.
  assert (¬ blank closer) as Hnb by (unfold blank; by rewrite Hc).
  rewrite cleanup_lines_cons, Ho. unfold closed_next.
  rewrite blanks_app by done. rewrite drop_app_length. rewrite Hc. simpl.
  f_equal. f_equal. rewrite cons_middle, app_assoc.
  apply StripFacts.drop_app_length'. rewrite length_app. simpl. lia.
Qed.

Lemma cleanup_lines_open_block (opener c : string) (bl rest : list string) :
  Forall blank bl → ¬ blank c → Py.strip c ≠ "}" →
  lines (opener :: bl ++ c :: rest) = opener :: lines (bl ++ c :: rest).
Proof.
  intros Hb Hnb Hc. rewrite cleanup_lines_cons. unfold closed_next.
  rewrite blanks_app by done. rewrite drop_app_length.
  apply String.eqb_neq in Hc. rewrite Hc. by rewrite andb_false_r.
Qed.

(** *** The collapsed line *)

Lemma rstrip_by_snoc (p : ascii → bool) (s : string) (d : ascii) :
  p d = false → Py.rstrip_by p (s +:+ String d "") = s +:+ String d "".
Proof.
  intros Hd. induction s as [|x s IH].
  - simpl. by rewrite Hd.
  - rewrite StringFacts.str_app_cons. cbn [Py.rstrip_by]. rewrite IH.
    destruct s; reflexivity.
Qed.

Lemma lstrip_by_snoc (p : ascii → bool) (s : string) (d : ascii) :
  p d = false → Py.lstrip_by p (s +:+ String d "") = Py.lstrip_by p s +:+ String d "".
Proof.
  intros Hd. induction s as [|x s IH].
  - simpl. by rewrite Hd.
  - rewrite StringFacts.str_app_cons. cbn [Py.lstrip_by].
    destruct (p x); [done|]. by rewrite StringFacts.str_app_cons.
Qed.

Lemma endswith_snoc (c d : ascii) (a : string) :
  Py.endswith (String c "") (a +:+ String d "") = Ascii.eqb d c.
Proof.
  induction a as [|x a IH].
  - simpl. destruct (Ascii.eqb d c); reflexivity.
  - rewrite StringFacts.str_app_cons. cbn [Py.endswith]. rewrite IH.
    replace (String.eqb (String x (a +:+ String d "")) (String c "")) with false; [done|].
    symmetry. destruct a as [|y a];
      rewrite ?StringFacts.str_app_nil_l, ?StringFacts.str_app_cons;
      cbn [String.eqb]; apply andb_false_r.
Qed.

Lemma strip_single_line (line : string) :
  ∃ a, Py.strip (rpc_single_line line) = a +:+ ";".
Proof.
  unfold rpc_single_line, Py.strip. eexists.
  rewrite lstrip_by_snoc by done. rewrite rstrip_by_snoc by done. done.
Qed.

Lemma single_line_not_opener (line : string) :
  is_rpc_opener (Py.strip (rpc_single_line line)) = false.
Proof.
  destruct (strip_single_line line) as [a ->]. unfold is_rpc_opener.
  rewrite endswith_snoc. by rewrite andb_false_r.
Qed.

Lemma single_line_not_blank (line : string) :
  negb (Py.truthy (Py.strip (rpc_single_line line))) = false.
Proof.
  destruct (strip_single_line line) as [a ->]. unfold Py.truthy.
  by destruct a.
Qed.

Lemma single_line_not_closer (line : string) :
  String.eqb (Py.strip (rpc_single_line line)) "}" = false.
Proof.
  destruct (strip_single_line line) as [a ->].
  destruct a as [|x [|y a]];
    rewrite ?StringFacts.str_app_cons, ?StringFacts.str_app_nil_l;
    cbn [String.eqb]; try done; apply andb_false_r.
Qed.

Lemma opener_not_closer (line : string) :
  is_rpc_opener (Py.strip line) = true → String.eqb (Py.strip line) "}" = false.
Proof.
  intros H. destruct (String.eqb (Py.strip line) "}") eqn:E; [|done].
  apply String.eqb_eq in E. rewrite E in H. discriminate H.
Qed.

Lemma opener_not_blank (line : string) :
  is_rpc_opener (Py.strip line) = true → negb (Py.truthy (Py.strip line)) = false.
Proof.
  intros H. destruct (negb (Py.truthy (Py.strip line))) eqn:E; [|done].
  apply blank_truthy in E. unfold blank in E. rewrite E in H. discriminate H.
Qed.

(** The look-ahead reads the same on the output as on the input. *)
Lemma closed_next_lines (l : list string) : closed_next (lines l) = closed_next l.
Proof.
  induction l as [|x l IH]; [done|].
  rewrite cleanup_lines_cons.
  destruct (is_rpc_opener (Py.strip x)) eqn:Eo; simpl.
  - rewrite (closed_next_cons x l), (opener_not_blank x Eo), (opener_not_closer x Eo).
    destruct (closed_next l).
    + by rewrite closed_next_cons, single_line_not_blank, single_line_not_closer.
    + by rewrite closed_next_cons, (opener_not_blank x Eo), (opener_not_closer x Eo).
  - rewrite !closed_next_cons, IH. done.
Qed.

Lemma cleanup_lines_idem_aux (n : nat) (l : list string) :
  (length l ≤ n)%nat → lines (lines l) = lines l.
Proof.
  revert l. induction n as [|n IH]; intros l Hn.
  - destruct l; [done | simpl in Hn; lia].
  - destruct l as [|x l]; [done|]. simpl in Hn.
    rewrite cleanup_lines_cons.
    destruct (is_rpc_opener (Py.strip x) && closed_next l) eqn:E.
    + rewrite cleanup_lines_keep by apply single_line_not_opener.
      rewrite IH; [done|]. rewrite length_drop. lia.
    + rewrite cleanup_lines_cons, closed_next_lines, E.
      rewrite IH; [done | lia].
Qed.

Lemma cleanup_lines_idem (l : list string) : lines (lines l) = lines l.
Proof. by apply (cleanup_lines_idem_aux (length l)). Qed.

End CleanupFacts.

(** ** More on the annotation stripper *)

Module StripMore.
Import Strip StripRun StripKeep.

(** Inner lines are passed over: the kept ones are collected and the
    options counted. *)
Lemma block_inner (rpc_line : string) (inner l : list string) (seen : nat)
    (content : list string) (cnt : nat) :
  Forall (λ x, is_inner x = true) inner →
  StripRun.block rpc_line (inner ++ l) seen content cnt =
  StripRun.block rpc_line l (seen + length inner) (content ++ kept inner)
    (cnt + options inner).
Proof.
  intros Hi. revert seen content cnt.
  induction Hi as [|x inner Hx _ IH]; intros seen content cnt.
  - simpl. by rewrite !Nat.add_0_r, app_nil_r.
  - unfold is_inner in Hx. apply andb_true_iff in Hx as [H1 H2].
    apply negb_true_iff in H1, H2.
    rewrite <- app_comm_cons. cbn [StripRun.block]. rewrite H1, H2.
    unfold kept, options. cbn [List.filter].
    destruct (is_skip_option (Py.strip x)); cbn [negb length].
    + rewrite IH. unfold kept, options. f_equal; lia.
    + rewrite IH. unfold kept, options. rewrite <- app_assoc. simpl. f_equal; lia.
Qed.

Lemma strip_lines_no_opener (l : list string) :
  Forall (λ line, is_rpc_opener (Py.strip line) = false) l → lines l = l.
Proof.
  induction 1 as [|line l H _ IH]; [done|].
  by rewrite StripFacts.lines_cons, H, IH.
Qed.

Lemma strip_lines_with_content (opener closer : string) (inner rest : list string) :
  is_rpc_opener (Py.strip opener) = true →
  Forall (λ x, is_inner x = true) inner →
  Py.strip closer = "}" →
  has_non_empty_content (kept inner) = true →
  lines (opener :: inner ++ closer :: rest) =
  opener :: kept inner ++ closer :: lines rest.
Proof.
  intros Ho Hi Hc Hk. rewrite StripFacts.lines_cons, Ho, block_inner by done.
  cbn [StripRun.block]. rewrite Hc. cbn [app].
  replace (starts_definition "}") with false by done.
  replace (String.eqb "}" "}") with true by done.
  rewrite Hk, orb_true_r. cbn [fst snd].
  replace (drop (S (0 + length inner)) (inner ++ closer :: rest)) with rest.
  - rewrite <- app_comm_cons, <- app_assoc. done.
  - symmetry. rewrite cons_middle, app_assoc.
    apply StripFacts.drop_app_length'. rewrite length_app. simpl. lia.
Qed.

Lemma strip_lines_unclosed (opener : string) (inner : list string) :
  is_rpc_opener (Py.strip opener) = true →
  Forall (λ x, is_inner x = true) inner →
  lines (opener :: inner) = rpc_single_line opener :: lines inner.
Proof.
  intros Ho Hi. rewrite StripFacts.lines_cons, Ho.
  pose proof (block_inner opener inner [] 0 [] 0 Hi) as Hb.
  rewrite app_nil_r in Hb. rewrite Hb. done.
Qed.

End StripMore.

(** ** More on the exclusion filter *)

Module FilterMore.
Import Filter FilterRun.

Lemma rpc_not_message (s : string) :
  Py.startswith "rpc " s = true → Py.startswith "message " s = false.
Proof.
  intros H. destruct (ParseFacts.startswith_app _ _ H) as [s' ->]. reflexivity.
Qed.

Lemma filter_run_of_rpc (body ms rs : list string) (name : string) :
  name ∈ rs →
  filter_excluded_definitions body ms rs = Ok (run ms rs false 0 body).
Proof.
  intros Hin. rewrite FilterFacts.filter_excluded_definitions_run.
  destruct rs as [|r rs]; [by apply elem_of_nil in Hin|].
  destruct body; [by rewrite orb_true_l | by rewrite andb_false_r].
Qed.

(** A single-line declaration of an excluded RPC is dropped alone. *)
Lemma run_rpc_single (ms rs l : list string) (name line : string) (d : Z) :
  name ∈ rs →
  Py.startswith "rpc " (Py.strip line) = true →
  match_name "rpc" (Py.strip line) = Some name →
  Py.endswith ";" (Py.strip line) = true →
  run ms rs false d (line :: l) = run ms rs false d l.
Proof.
  intros Hin Hs Hm He. simpl. unfold on_line, message_check, rpc_check; simpl.
  rewrite (rpc_not_message _ Hs), andb_false_r.
  destruct rs as [|r rs]; [by apply elem_of_nil in Hin|].
  simpl. rewrite Hs, Hm, He. rewrite bool_decide_eq_true_2 by done. done.
Qed.

(** A declaration of an excluded RPC that opens a block starts a skip. *)
Lemma run_rpc_start (ms rs l : list string) (name line : string) (d : Z) :
  name ∈ rs →
  Py.startswith "rpc " (Py.strip line) = true →
  match_name "rpc" (Py.strip line) = Some name →
  Py.endswith ";" (Py.strip line) = false →
  Py.contains "{" (Py.strip line) = true →
  run ms rs false d (line :: l) = run ms rs true (brace_balance (Py.strip line)) l.
Proof.
  intros Hin Hs Hm He Hc. simpl. unfold on_line, message_check, rpc_check; simpl.
  rewrite (rpc_not_message _ Hs), andb_false_r.
  destruct rs as [|r rs]; [by apply elem_of_nil in Hin|].
  simpl. rewrite Hs, Hm, He, Hc. rewrite bool_decide_eq_true_2 by done. done.
Qed.

Lemma filter_no_excluded (body ms rs : list string) :
  Forall (λ l, starts_excluded ms rs l = false) body →
  filter_excluded_definitions body ms rs = Ok body.
Proof.
  intros H. rewrite FilterFacts.filter_excluded_definitions_run.
  case_match; [done|].
  rewrite <- (app_nil_r body) at 1.
  rewrite FilterFacts.run_kept_all by done. simpl. by rewrite app_nil_r.
Qed.

Lemma run_sublist (ms rs l : list string) (skip : bool) (d : Z) :
  run ms rs skip d l `sublist_of` l.
Proof.
  revert skip d. induction l as [|line l IH]; intros skip d; [done|].
  simpl. unfold on_line, message_check, rpc_check; simpl.
  repeat (case_match; simpl);
    first [ by apply sublist_cons | by apply sublist_skip ].
Qed.

End FilterMore.

(** ** More invariants of the section extractor *)

Module ParseMore.
Import Parse ParseRun ParseInv ParseFacts.

Lemma step_parts_in_order (c : bool) (seen : list string) (line : string) (st : state) :
  parts_in_order seen st → parts_in_order (seen ++ [line]) (step c line st).
Proof.
  destruct st as [[lic syn jp pk imps bd] ld sd pd ih dep].
  unfold parts_in_order. simpl. intros (S1 & S2 & S3).
  unfold_step; cbn.
  repeat (case_match; cbn); split_and!;
    first [ by apply sublist_inserts_r | by apply sublist_app ].
Qed.

Lemma parse_parts_in_order (content : string) :
  ∃ r, parse_proto_file content = Ok r
       ∧ license r `sublist_of` Py.split_lines content
       ∧ imports r `sublist_of` Py.split_lines content
       ∧ body r `sublist_of` Py.split_lines content.
Proof.
  destruct (parse_inv parts_in_order content) as (st & H & K).
  - by split_and!.
  - intros seen line st c _. apply step_parts_in_order.
  - by exists (result st).
Qed.

Lemma step_license_head (c : bool) (seen : list string) (line : string) (st : state) :
  (c = true → comment_like (Py.strip line) = true) →
  license_head seen st → license_head (seen ++ [line]) (step c line st).
Proof.
  destruct st as [[lic syn jp pk imps bd] ld sd pd ih dep].
  unfold license_head. simpl. intros Hc (L1 & L2 & L3).
  destruct ld; simpl.
  - assert (∀ st', license (result st') = lic → license_done st' = true →
                   (license_done st' = false → license (result st') = seen ++ [line])
                   ∧ license (result st') `prefix_of` seen ++ [line]
                   ∧ Forall (λ l, comment_like (Py.strip l) = true) (license (result st')))
      as Hkeep.
    { intros st' -> Hd. split_and!; [by rewrite Hd | by apply prefix_app_r | done]. }
    apply Hkeep; unfold_step; cbn; repeat (case_match; cbn); done.
  - specialize (L1 eq_refl). subst lic. destruct c.
    + unfold step; cbn. split_and!; [done | done |].
      apply Forall_app. split; [done|]. apply Forall_singleton. by apply Hc.
    + assert (∀ st', license (result st') = seen → license_done st' = true →
                     (license_done st' = false → license (result st') = seen ++ [line])
                     ∧ license (result st') `prefix_of` seen ++ [line]
                     ∧ Forall (λ l, comment_like (Py.strip l) = true) (license (result st')))
        as Hkeep.
      { intros st' -> Hd. split_and!; [by rewrite Hd | by apply prefix_app_r | done]. }
      apply Hkeep; unfold_step; cbn; repeat (case_match; cbn); done.
Qed.

Lemma parse_license_head (content : string) :
  ∃ r, parse_proto_file content = Ok r
       ∧ license r `prefix_of` Py.split_lines content
       ∧ Forall (λ l, comment_like (Py.strip l) = true) (license r).
Proof.
  destruct (parse_inv license_head content) as (st & H & _ & K1 & K2).
  - by split_and!.
  - intros seen line st c. apply step_license_head.
  - by exists (result st).
Qed.

Lemma step_keyworded (c : bool) (line : string) (st : state) :
  keyworded (result st) → keyworded (result (step c line st)).
Proof.
  destruct st as [[lic syn jp pk imps bd] ld sd pd ih dep].
  unfold keyworded. simpl. intros (K1 & K2 & K3).
  unfold_step; cbn.
  repeat (case_match; cbn); split_and!; try done;
    try (intros ? [= <-]; split_tests; done).
  all: apply Forall_app; split; [done|]; apply Forall_singleton;
    unfold kept_import, SKIP_PATTERNS.import_contains; cbn; split_tests;
    split; [done|]; use_tests; done.
Qed.

Lemma parse_keyworded (content : string) :
  ∃ r, parse_proto_file content = Ok r ∧ keyworded r.
Proof.
  destruct (parse_inv (λ _ st, keyworded (result st)) content) as (st & H & K).
  - split_and!; [by intros ? [=] | by intros ? [=] | done].
  - intros seen line st c _. apply step_keyworded.
  - by exists (result st).
Qed.

Lemma step_body_line (c : bool) (line : string) (st : state) :
  Forall body_line (body (result st)) → Forall body_line (body (result (step c line st))).
Proof.
  destruct st as [[lic syn jp pk imps bd] ld sd pd ih dep]. simpl. intros K.
  unfold_step; unfold SKIP_PATTERNS.line_prefixes, SKIP_PATTERNS.line_contains; cbn.
  repeat (case_match; cbn); try done.
  all: apply Forall_app; split; [done|]; apply Forall_singleton;
    unfold body_line, Merge.not_skipped, SKIP_PATTERNS.line_prefixes,
      SKIP_PATTERNS.line_contains; cbn; split_tests;
    split_and!; try done; use_tests; done.
Qed.

Lemma parse_body_line (content : string) :
  ∃ r, parse_proto_file content = Ok r ∧ Forall body_line (body r).
Proof.
  destruct (parse_inv (λ _ st, Forall body_line (body (result st))) content)
    as (st & H & K).
  - done.
  - intros seen line st c _. apply step_body_line.
  - by exists (result st).
Qed.

Lemma filter_all {A} (p : A → bool) (l : list A) :
  Forall (λ x, p x = true) l → List.filter p l = l.
Proof.
  induction 1 as [|x l Hx _ IH]; [done|]. simpl. by rewrite Hx, IH.
Qed.

Lemma step_body_after_header (c : bool) (line : string) (st : state) :
  body_after_header st → body_after_header (step c line st).
Proof.
  destruct st as [[lic syn jp pk imps bd] ld sd pd ih dep].
  unfold body_after_header. simpl. intros (B1 & B2 & B3).
  unfold_step; cbn.
  repeat (case_match; cbn); split_and!; intros; split_tests; simplify_eq;
    first [ by eauto
          | match goal with
            | B : ?b ≠ [] → _, H : ?b ≠ [] |- _ => by destruct (B H)
            end ].
Qed.

Lemma parse_body_after_header (content : string) :
  ∃ r, parse_proto_file content = Ok r
       ∧ (body r ≠ [] → is_Some (syntax r) ∧ is_Some (package r)).
Proof.
  destruct (parse_inv (λ _ st, body_after_header st) content) as (st & H & B1 & B2 & B3).
  - by split_and!.
  - intros seen line st c _. apply step_body_after_header.
  - exists (result st). split; [done|]. intros Hb. destruct (B1 Hb). split; auto.
Qed.

(** *** The first line with the package keyword *)

Lemma header_clean_snoc (seen : list string) (line : string) :
  header_clean (seen ++ [line]) =
  match first_package seen with
  | Some _ => header_clean seen
  | None =>
      header_clean seen
      && (if package_keyword line
          then negb (skipped_by_text line) && negb (opens_block line)
          else negb (opens_block line))
  end.
Proof.
  unfold first_package. induction seen as [|x seen IH].
  - cbn [app header_clean find].
    destruct (package_keyword line); [done | by rewrite andb_true_r].
  - cbn [app header_clean find].
    change (Py.startswith "package " (Py.strip x)) with (package_keyword x).
    destruct (package_keyword x); [done|].
    rewrite IH. destruct (find _ seen); [done|]. by rewrite andb_assoc.
Qed.

Lemma header_clean_marker_free (lines : list string) :
  Forall (λ l, marker_free l = true) lines → header_clean lines = true.
Proof.
  induction 1 as [|l ls Hl _ IH]; [done|]. simpl.
  unfold marker_free in Hl. apply andb_true_iff in Hl as [H1 H2].
  unfold skipped_by_text, opens_block. rewrite H1.
  apply negb_true_iff in H2. rewrite H2. simpl. rewrite IH.
  by destruct (package_keyword l).
Qed.

Lemma step_package_first (c : bool) (seen : list string) (line : string) (st : state) :
  (c = true → comment_like (Py.strip line) = true) →
  package_first seen st → package_first (seen ++ [line]) (step c line st).
Proof.
  intros Hc M Hclean. rewrite header_clean_snoc in Hclean.
  rewrite first_package_snoc.
  destruct st as [[lic syn jp pk imps bd] ld sd pd ih dep].
  unfold package_first in M. cbn [result package package_done in_http_option] in M.
  revert M. destruct (first_package seen) as [l|] eqn:Ef; intros M.
  - destruct (M Hclean) as (M1 & M2 & _). subst pk pd. clear M.
    unfold_step; cbn. repeat (case_match; cbn); simplify_eq; done.
  - apply andb_true_iff in Hclean as [Hseen Hline].
    destruct (M Hseen) as (M1 & M2 & M3). subst pk pd.
    specialize (M3 eq_refl). subst ih. clear M.
    unfold package_keyword in *.
    unfold skipped_by_text, opens_block, SKIP_PATTERNS.line_contains,
      SKIP_PATTERNS.option_blocks in Hline.
    cbn [existsb] in Hline. rewrite !orb_false_r in Hline.
    destruct (Py.startswith "package " (Py.strip line)) eqn:Ep.
    + apply andb_true_iff in Hline as [F1 F2]. apply negb_true_iff in F1, F2.
      destruct (startswith_app _ _ Ep) as [s' Hs'].
      assert (c = false) as ->.
      { destruct c; [|done]. specialize (Hc eq_refl). rewrite Hs' in Hc. discriminate Hc. }
      unfold_step; unfold SKIP_PATTERNS.line_prefixes, SKIP_PATTERNS.line_contains; cbn.
      rewrite F1, Ep.
      destruct (Py.contains "option (google.api.http)" (Py.strip line)) eqn:Em;
        destruct (0 <? brace_balance (Py.strip line))%Z eqn:Eb;
        try discriminate F2;
        rewrite Hs'; cbn;
        destruct ld, sd; cbn; repeat (case_match; cbn); simplify_eq; done.
    + apply negb_true_iff in Hline.
      unfold_step; unfold SKIP_PATTERNS.line_prefixes, SKIP_PATTERNS.line_contains; cbn.
      rewrite Ep, !andb_false_r.
      destruct (Py.contains "option (google.api.http)" (Py.strip line)) eqn:Em;
        destruct (0 <? brace_balance (Py.strip line))%Z eqn:Eb;
        try discriminate Hline;
        destruct ld, sd; cbn; repeat (case_match; cbn); simplify_eq; done.
Qed.

Lemma parse_package_first (content : string) :
  header_clean (Py.split_lines content) = true →
  ∃ r, parse_proto_file content = Ok r
       ∧ package r = first_package (Py.split_lines content).
Proof.
  intros Hclean. destruct (parse_inv package_first content) as (st & H & M).
  - intros _. done.
  - intros seen line st c. apply step_package_first.
  - exists (result st). split; [done|]. by destruct (M Hclean) as (? & _).
Qed.

End ParseMore.

(** ** More on the import rewriter *)

Module RewriteFacts.
Import StringFacts ImportPath.

Lemma startswith_prefix (p s : string) : Py.startswith p (p +:+ s) = true.
Proof.
  unfold Py.startswith. induction p as [|a p IH]; [by destruct s|].
  rewrite str_app_cons. cbn [String.prefix].
  destruct (Ascii.ascii_dec a a); [done | congruence].
Qed.

Lemma str_drop_prefix (p s : string) : Py.str_drop (String.length p) (p +:+ s) = s.
Proof. induction p as [|a p IH]; [done|]. by rewrite str_app_cons. Qed.

Lemma contains_cons (p : string) (c : ascii) (s : string) :
  Py.contains p (String c s) = Py.startswith p (String c s) || Py.contains p s.
Proof. reflexivity. Qed.

Lemma contains_app_r (p a b : string) :
  Py.contains p b = true → Py.contains p (a +:+ b) = true.
Proof.
  intros H. induction a as [|x a IH]; [done|].
  rewrite str_app_cons, contains_cons, IH. apply orb_true_r.
Qed.

Lemma contains_prefix (p s : string) : Py.contains p (p +:+ s) = true.
Proof.
  destruct (p +:+ s) as [|c t] eqn:E.
  - destruct p; [done | by rewrite str_app_cons in E].
  - rewrite contains_cons, <- E, startswith_prefix. done.
Qed.

Lemma match_here_no_prefix (s : string) :
  Py.startswith "banyandb/" s = false → Re.match_here s = None.
Proof. intros H. unfold Re.match_here. by rewrite H. Qed.

(** A text without the fixed head of the pattern is left as it is,
    whatever the bound. *)
Lemma sub_no_match (n : nat) (s : string) :
  Py.contains "banyandb/" s = false → Re.sub n s = s.
Proof.
  revert s. induction n as [|n IH]; intros s H; [done|].
  destruct s as [|c s]; [done|].
  rewrite contains_cons in H. apply orb_false_iff in H as [H1 H2].
  cbn [Re.sub]. rewrite match_here_no_prefix by done. by rewrite IH.
Qed.

Lemma sub_skip (n : nat) (c : ascii) (s : string) :
  Py.startswith "banyandb/" (String c s) = false →
  Re.sub (S n) (String c s) = String c (Re.sub n s).
Proof. intros H. cbn [Re.sub]. by rewrite match_here_no_prefix by done. Qed.

Lemma take_while_free (c : ascii) (m rest : string) :
  free_of c m = true →
  Py.take_while (λ x, negb (Ascii.eqb x c)) (m +:+ String c rest) = m.
Proof.
  unfold free_of. induction m as [|x m IH]; intros H.
  - rewrite str_app_nil_l. cbn [Py.take_while]. by rewrite Ascii.eqb_refl.
  - cbn [Py.str_forallb] in H. apply andb_true_iff in H as [H1 H2].
    rewrite str_app_cons. cbn [Py.take_while]. rewrite H1. by rewrite IH.
Qed.

Lemma file_part_suffix (tail : string) :
  Re.file_part (".proto" +:+ String Re.dquote tail) = None.
Proof. reflexivity. Qed.

(** The greedy run stops at the last suffix before the closing quote. *)
Lemma file_part_file (file tail : string) :
  file ≠ "" → free_of Re.dquote file = true →
  Re.file_part (file +:+ ".proto" +:+ String Re.dquote tail) = Some (String Re.dquote tail).
Proof.
  unfold free_of. induction file as [|x file IH]; intros Hne H; [done|].
  cbn [Py.str_forallb] in H. apply andb_true_iff in H as [H1 H2].
  apply negb_true_iff in H1.
  rewrite str_app_cons, file_part_cons, H1.
  destruct file as [|y file].
  - rewrite str_app_nil_l, file_part_suffix, startswith_prefix.
    change 6 with (String.length ".proto"). by rewrite str_drop_prefix.
  - by rewrite IH.
Qed.

Lemma match_here_path (module file tail : string) :
  module ≠ "" → free_of "/" module = true →
  file ≠ "" → free_of Re.dquote file = true →
  Re.match_here
    ("banyandb/" +:+ module +:+ "/v1/" +:+ file +:+ ".proto" +:+ String Re.dquote tail) =
  Some (module, String Re.dquote tail).
Proof.
  intros Hm Hfm Hf Hff. unfold Re.match_here.
  rewrite startswith_prefix.
  change 9 with (String.length "banyandb/"). rewrite str_drop_prefix.
  change ("/v1/" +:+ file +:+ ".proto" +:+ String Re.dquote tail)
    with (String "/" ("v1/" +:+ file +:+ ".proto" +:+ String Re.dquote tail)).
  rewrite take_while_free by done. rewrite str_drop_prefix.
  change (String "/" ("v1/" +:+ file +:+ ".proto" +:+ String Re.dquote tail))
    with ("/v1/" +:+ file +:+ ".proto" +:+ String Re.dquote tail).
  rewrite startswith_prefix.
  change 4 with (String.length "/v1/"). rewrite str_drop_prefix.
  rewrite file_part_file by done.
  destruct (String.eqb module "") eqn:E; [|done].
  by apply String.eqb_eq in E.
Qed.

(** The rewrite of an import line of the upstream layout. *)
Lemma transform_upstream (module file tail : string) :
  module ≠ "" → free_of "/" module = true →
  file ≠ "" → free_of Re.dquote file = true →
  Py.contains "banyandb/" tail = false →
  transform_import_path (upstream module file tail) = merged module tail.
Proof.
  intros Hm Hfm Hf Hff Ht. unfold transform_import_path, upstream, merged.
  pose proof (match_here_path module file tail Hm Hfm Hf Hff) as Hmatch.
  remember ("banyandb/" +:+ module +:+ "/v1/" +:+ file +:+ ".proto" +:+ String Re.dquote tail)
    as path eqn:Hpath.
  assert (String.length path ≠ 0)%nat as Hlen.
  { rewrite Hpath, str_length_app. simpl. lia. }
  change ("import " +:+ String Re.dquote path)
    with (String "i" (String "m" (String "p" (String "o" (String "r" (String "t"
            (String " " (String Re.dquote path)))))))).
  cbn [String.length]. do 8 (rewrite sub_skip by reflexivity).
  change ("import " +:+
          String Re.dquote ("banyandb/v1/banyandb-" +:+ module +:+ ".proto"
                            +:+ String Re.dquote tail))
    with (String "i" (String "m" (String "p" (String "o" (String "r" (String "t"
            (String " " (String Re.dquote
               ("banyandb/v1/banyandb-" +:+ module +:+ ".proto"
                +:+ String Re.dquote tail))))))))).
  do 8 f_equal.
  destruct (String.length path) as [|n]; [done|].
  cbn [Re.sub]. rewrite Hmatch.
  rewrite sub_no_match; [done|].
  rewrite contains_cons, Ht. reflexivity.
Qed.

Lemma transform_no_path (import_line : string) :
  Py.contains "banyandb/" import_line = false →
  transform_import_path import_line = import_line.
Proof. apply sub_no_match. Qed.

(** The rewritten line names the merged file of its module. *)
Lemma merged_contains_path (module tail : string) :
  Py.contains ("banyandb/v1/banyandb-" +:+ module +:+ ".proto") (merged module tail) = true.
Proof.
  unfold merged.
  change (String Re.dquote
            ("banyandb/v1/banyandb-" +:+ module +:+ ".proto" +:+ String Re.dquote tail))
    with (String Re.dquote "" +:+
          ("banyandb/v1/banyandb-" +:+ module +:+ ".proto" +:+ String Re.dquote tail)).
  apply contains_app_r, contains_app_r.
  replace ("banyandb/v1/banyandb-" +:+ module +:+ ".proto" +:+ String Re.dquote tail)
    with (("banyandb/v1/banyandb-" +:+ module +:+ ".proto") +:+ String Re.dquote tail).
  - apply contains_prefix.
  - by rewrite !str_app_assoc.
Qed.

Lemma merged_names_output (module tail : string) :
  merged module tail =
  "import " +:+ String Re.dquote (Py.str_drop 6 (output_path module) +:+ String Re.dquote tail).
Proof.
  unfold merged, output_path. do 2 f_equal.
  change (Py.str_drop 6 ("proto/banyandb/v1/banyandb-" +:+ module +:+ ".proto"))
    with ("banyandb/v1/banyandb-" +:+ module +:+ ".proto").
  by rewrite !str_app_assoc.
Qed.

End RewriteFacts.

(** ** More on the orchestrator *)

Module MergeMore.
Import Merge ImportRun MergeRun.

(** No line of the import block names the merged file of the module. *)
Lemma block_no_self (m : string) (parsed_files : list Parse.dict) (x : string) :
  m ≠ "" → x ∈ block (Some m) parsed_files →
  Py.contains ("banyandb/v1/banyandb-" +:+ m +:+ ".proto") x = false.
Proof.
  intros Hm Hx. unfold block in Hx.
  apply ImportFacts.sorted_imports_elem, ImportFacts.collect_imports_elem in Hx
    as (parsed & _ & imp & _ & -> & Hs).
  unfold is_self_import in Hs. apply andb_false_iff in Hs as [Hs|Hs]; [|done].
  unfold Py.truthy in Hs. apply negb_false_iff, String.eqb_eq in Hs. done.
Qed.

Lemma add_import_self (m file tail imp : string) (all_imports : gset string) :
  m ≠ "" → ImportPath.free_of "/" m = true →
  file ≠ "" → ImportPath.free_of Re.dquote file = true →
  Py.contains "banyandb/" tail = false →
  Py.strip imp = ImportPath.upstream m file tail →
  add_import (Some m) all_imports imp = all_imports.
Proof.
  intros Hm Hfm Hf Hff Ht Hs. unfold add_import, is_self_import.
  rewrite Hs, RewriteFacts.transform_upstream by done.
  rewrite RewriteFacts.merged_contains_path.
  unfold Py.truthy. destruct (String.eqb m "") eqn:E; [|done].
  by apply String.eqb_eq in E.
Qed.

(** *** What the documents after the first contribute *)

Lemma collect_imports_ext (cm : option string) (ps ps' : list Parse.dict)
    (acc : gset string) :
  map Parse.imports ps = map Parse.imports ps' →
  foldl (λ all_imports parsed,
           foldl (add_import cm) all_imports (Parse.imports parsed)) acc ps =
  foldl (λ all_imports parsed,
           foldl (add_import cm) all_imports (Parse.imports parsed)) acc ps'.
Proof.
  revert ps' acc. induction ps as [|p ps IH]; intros [|p' ps'] acc H; try done.
  simpl in *. injection H as -> H. by apply IH.
Qed.

Lemma add_body_ext (em er : option (list string)) (i : nat) (p p' : Parse.dict)
    (merged : list string) :
  Parse.body p = Parse.body p' → add_body em er i p merged = add_body em er i p' merged.
Proof. intros H. unfold add_body. by rewrite H. Qed.

Lemma bodies_ext (em er : option (list string)) (ps ps' : list Parse.dict) (i : nat)
    (merged : list string) :
  map Parse.body ps = map Parse.body ps' →
  bodies em er i ps merged = bodies em er i ps' merged.
Proof.
  revert ps' i merged. induction ps as [|p ps IH]; intros [|p' ps'] i merged H; try done.
  simpl in *. injection H as Hb H. rewrite (add_body_ext em er i p p' merged Hb).
  destruct (add_body em er i p' merged); [|done]. simpl. by apply IH.
Qed.

Lemma contribution_imports (ps ps' : list Parse.dict) :
  map contribution ps = map contribution ps' →
  map Parse.imports ps = map Parse.imports ps'.
Proof.
  intros H. apply (f_equal (map fst)) in H. by rewrite !map_map in H.
Qed.

Lemma contribution_body (ps ps' : list Parse.dict) :
  map contribution ps = map contribution ps' →
  map Parse.body ps = map Parse.body ps'.
Proof.
  intros H. apply (f_equal (map snd)) in H. by rewrite !map_map in H.
Qed.

Lemma merge_tail_ext (c : string) (cs cs' : list string) (ps ps' : list Parse.dict)
    (cm : option string) (em er : option (list string)) :
  parse_all cs = Ok ps → parse_all cs' = Ok ps' →
  map contribution ps = map contribution ps' →
  merge_proto_files (c :: cs) cm em er = merge_proto_files (c :: cs') cm em er.
Proof.
  intros Hp Hp' Hc. unfold merge_proto_files. cbn [Py.truthy_list negb parse_all].
  rewrite Hp, Hp'. destruct (parse_proto_file c) as [p|e]; [|done]. cbn [bind].
  change (py_index (p :: ps) 0) with (Ok p).
  change (py_index (p :: ps') 0) with (Ok p). cbn [bind].
  assert (import_block cm (p :: ps) = import_block cm (p :: ps')) as ->.
  { unfold import_block, collect_imports. cbn [foldl].
    by rewrite (collect_imports_ext cm ps ps' _ (contribution_imports _ _ Hc)). }
  cbn [bodies]. destruct (add_body em er 0 p _) as [m1|]; [|done]. cbn [bind].
  by rewrite (bodies_ext em er ps ps' 1 m1 (contribution_body _ _ Hc)).
Qed.

(** *** Exclusion lists that name nothing in the documents *)

Lemma add_body_no_excluded (ms rs : list string) (i : nat) (p : Parse.dict)
    (merged : list string) :
  Forall (λ l, FilterRun.starts_excluded ms rs l = false) (Parse.body p) →
  add_body (Some ms) (Some rs) i p merged = add_body None None i p merged.
Proof.
  intros Hb. unfold add_body.
  destruct (Py.truthy_list (Parse.body p)); [|done].
  destruct (PipelineFacts.trim_leading_Forall
              (λ l, FilterRun.starts_excluded ms rs l = false)
              (length (Parse.body p)) (Parse.body p)) as (b1 & -> & H1); [lia | done |].
  cbn [bind].
  destruct (PipelineFacts.trim_trailing_Forall
              (λ l, FilterRun.starts_excluded ms rs l = false)
              (length b1) b1) as (b2 & -> & H2 & _); [lia | done |].
  cbn [bind].
  pose proof (PipelineFacts.not_skipped_Forall _ b2 H2) as H3.
  cbn [or_empty]. rewrite (FilterMore.filter_no_excluded _ ms rs H3).
  by destruct (truthy_opt (Some ms) || truthy_opt (Some rs)).
Qed.

Lemma bodies_no_excluded (ms rs : list string) (ps : list Parse.dict) (i : nat)
    (merged : list string) :
  Forall (λ p, Forall (λ l, FilterRun.starts_excluded ms rs l = false) (Parse.body p)) ps →
  bodies (Some ms) (Some rs) i ps merged = bodies None None i ps merged.
Proof.
  intros H. revert i merged. induction H as [|p ps Hp _ IH]; intros i merged; [done|].
  simpl. rewrite (add_body_no_excluded ms rs i p merged Hp).
  destruct (add_body None None i p merged); [|done]. simpl. apply IH.
Qed.

Lemma merge_no_excluded (proto_contents : list string) (cm : option string)
    (ms rs : list string) :
  Forall (λ content,
            Forall (λ l, FilterRun.starts_excluded ms rs l = false)
              (Py.split_lines content)) proto_contents →
  merge_proto_files proto_contents cm (Some ms) (Some rs) =
  merge_proto_files proto_contents cm None None.
Proof.
  intros H. unfold merge_proto_files.
  destruct (negb (Py.truthy_list proto_contents)); [done|].
  destruct (PipelineFacts.parse_all_files_lines _ proto_contents H)
    as (ps & -> & _ & Hall).
  cbn [bind]. destruct (py_index ps 0) as [first|]; [|done]. cbn [bind].
  rewrite bodies_no_excluded; [done|].
  eapply Forall_impl; [exact Hall|]. by intros p (_ & _ & _ & _ & _ & ?).
Qed.

Lemma merge_text_not_empty (proto_contents : list string) (cm : option string)
    (em er : option (list string)) (text : string) :
  proto_contents ≠ [] →
  merge_proto_files proto_contents cm em er = Ok text → text ≠ "".
Proof.
  intros Hne H.
  destruct (PipelineFacts.merge_lines proto_contents cm em er Hne) as (merged & Hm & _).
  rewrite Hm in H. injection H as <-. intros E.
  apply (f_equal String.length) in E. rewrite StringFacts.str_length_app in E.
  simpl in E. lia.
Qed.

End MergeMore.

(** * The claims *)

(** ** Section extractor *)

(** C1. The claim says that a line holding an option-block marker is
    always dropped and that its own brace balance seeds the running
    balance. On the code neither holds, because the [continue] after the
    marker test ends only the iteration over the markers. A marker line
    whose balance is zero is kept in the body (first document), and the
    balance of a marker line that opens a block is counted twice, so the
    block swallows the closing line of the method as well (second
    document: the line of the method's closing brace is missing from the
    body). *)
Theorem option_block_marker_defect :
  parse_proto_file Examples.single_line_option =
    Ok (Parse.Dict [] (Some "syntax = proto3;") None (Some "package a;") []
          ["option (google.api.http) = { get: 1 };"])
  ∧ parse_proto_file Examples.multi_line_option =
    Ok (Parse.Dict [] (Some "syntax = proto3;") None (Some "package a;") []
          ["service S {"; "  rpc Get(Req) returns (Res) {"; "}"]).
Proof. split; reflexivity. Qed.

(** C2, as stated, fails: a document with no syntax line has its package
    line captured all the same. *)
Lemma package_captured_without_syntax :
  parse_proto_file "package a;" =
    Ok (Parse.Dict [] None None (Some "package a;") [] [])
  ∧ ¬ (∀ content r, parse_proto_file content = Ok r →
         Parse.syntax r = None → Parse.package r = None).
Proof.
  split; [reflexivity|]. intros H.
  specialize (H "package a;" _ eq_refl eq_refl). discriminate H.
Qed.

(** C2, amended. Only the guard on the syntax line has to go: the
    package line is captured whether or not a syntax line has been
    captured. It is a line of the document that begins with the package
    keyword, and it is the first such line whenever no line before that
    one opens an option block and that line itself neither opens one nor
    holds a pattern of [line_contains]; what comes after the first such
    line does not matter. In a document in which no syntax line has been
    captured, no line is captured into the body. *)
Theorem package_line_capture (content : string) :
  ∃ r, parse_proto_file content = Ok r
    ∧ (∀ l, Parse.package r = Some l →
            l ∈ Py.split_lines content ∧ Py.startswith "package " (Py.strip l) = true)
    ∧ (ParseInv.header_clean (Py.split_lines content) = true →
       Parse.package r = ParseRun.first_package (Py.split_lines content))
    ∧ (Parse.syntax r = None → Parse.body r = []).
Proof.
  destruct (ParseFacts.parse_package_from content) as (r & Hr & H1).
  destruct (ParseFacts.parse_waits_for_syntax content) as (r' & Hr' & H3).
  assert (r' = r) as -> by congruence.
  exists r. repeat split; try done; try (by apply H1).
  intros Hclean.
  destruct (ParseMore.parse_package_first content Hclean) as (r' & Hr'' & H2).
  congruence.
Qed.

(** The condition looks at the lines up to the package line only: it
    holds of [Examples.multi_line_option], whose markers come after the
    package line. *)
Example package_line_before_markers :
  ParseInv.header_clean (Py.split_lines Examples.multi_line_option) = true
  ∧ forallb ParseRun.marker_free (Py.split_lines Examples.multi_line_option) = false.
Proof. split; vm_compute; reflexivity. Qed.

(** The condition cannot be dropped: a line with the package keyword
    that is read inside an open option block is consumed by the block,
    and a later line with the keyword is captured instead. *)
Example package_line_in_option_block :
  parse_proto_file
    (Py.join_lines ["syntax = proto3;"; "option (google.api.http) = {"; "package a;";
                    "}"; "}"; "package b;"]) =
  Ok (Parse.Dict [] (Some "syntax = proto3;") None (Some "package b;") [] []).
Proof. vm_compute. reflexivity. Qed.

(** ** Annotation stripper *)

(** C3, as stated, fails in the case without inner lines: the closing
    line is emitted after the collapsed opener. *)
Lemma empty_block_keeps_closer :
  remove_options_from_rpc_blocks ["rpc A(B) returns (C) {"; "}"] =
    Ok ["rpc A(B) returns (C);"; "}"].
Proof. reflexivity. Qed.

(** C3, amended. For an RPC opener followed by annotation lines only and
    then the closing line, the opener is emitted with its trailing brace
    removed and a semicolon appended. With at least one annotation the
    closing line is used up; with no inner line at all the closing line is
    not used up and is emitted after the collapsed opener. *)
Theorem block_without_content_collapses (opener closer : string)
    (annots rest : list string) :
  is_rpc_opener (Py.strip opener) = true →
  Forall (λ l, StripRun.is_annotation l = true) annots →
  Py.strip closer = "}" →
  ∃ out,
    remove_options_from_rpc_blocks rest = Ok out
    ∧ remove_options_from_rpc_blocks (opener :: annots ++ closer :: rest) =
      Ok (match annots with
          | [] => rpc_single_line opener :: closer :: out
          | _ => rpc_single_line opener :: out
          end).
Proof.
  intros Ho Ha Hc. exists (StripRun.lines rest).
  rewrite !StripFacts.remove_options_lines. split; [done|]. f_equal.
  destruct annots as [|a annots].
  - by apply StripFacts.lines_no_inner.
  - by apply StripFacts.lines_annotations_only.
Qed.

Lemma block_without_content_collapses_witness :
  ∃ out,
    remove_options_from_rpc_blocks ["message M {}"] = Ok out
    ∧ remove_options_from_rpc_blocks
        ("  rpc Get(Req) returns (Res) {"
         :: ["    option (google.api.http) = { get: 1 };"] ++ "  }" :: ["message M {}"]) =
      Ok (rpc_single_line "  rpc Get(Req) returns (Res) {" :: out).
Proof.
  apply (block_without_content_collapses
           "  rpc Get(Req) returns (Res) {" "  }"
           ["    option (google.api.http) = { get: 1 };"] ["message M {}"]).
  - reflexivity.
  - repeat constructor.
  - reflexivity.
Defined.

(** C5. An RPC block whose only inner lines are annotation lines becomes
    the single line of its opener, brace removed and semicolon appended;
    the closing line is used up. *)
Theorem annotation_only_collapse (opener closer : string) (annots : list string) :
  is_rpc_opener (Py.strip opener) = true →
  annots ≠ [] →
  Forall (λ l, StripRun.is_annotation l = true) annots →
  Py.strip closer = "}" →
  remove_options_from_rpc_blocks (opener :: annots ++ [closer]) =
    Ok [rpc_single_line opener].
Proof.
  intros Ho Hne Ha Hc. rewrite StripFacts.remove_options_lines. f_equal.
  by rewrite StripFacts.lines_annotations_only.
Qed.

Lemma annotation_only_collapse_witness :
  remove_options_from_rpc_blocks
    ("rpc Baz(Req) returns (Res) {" :: [" option (google.api.http) = {...};"] ++ ["}"]) =
    Ok ["rpc Baz(Req) returns (Res);"].
Proof.
  apply (annotation_only_collapse
           "rpc Baz(Req) returns (Res) {" "}" [" option (google.api.http) = {...};"]).
  - reflexivity.
  - discriminate.
  - repeat constructor.
  - reflexivity.
Defined.

(** The first half of C6 holds: when a line that starts an rpc, a service
    or a message follows the opener before any closing line, the opener
    is collapsed and the scan goes on from that line. *)
Lemma malformed_block_collapses (opener off : string) (mid rest : list string) :
  is_rpc_opener (Py.strip opener) = true →
  Forall (λ l, StripRun.is_inner l = true) mid →
  Strip.starts_definition (Py.strip off) = true →
  ∃ out,
    remove_options_from_rpc_blocks (off :: rest) = Ok out
    ∧ remove_options_from_rpc_blocks (opener :: mid ++ off :: rest) =
      Ok (rpc_single_line opener :: out).
Proof.
  intros Ho Hm Hoff. exists (StripRun.lines (off :: rest)).
  rewrite !StripFacts.remove_options_lines. split; [done|]. f_equal.
  by apply StripFacts.lines_malformed.
Qed.

(** C6. The second half of the claim says that a message line that
    follows an unclosed RPC block is kept as it is. The test for an RPC
    opener looks for the keyword anywhere in the line, so a message whose
    name ends in [rpc] is itself read as an RPC opener: here the message
    line comes out as a one-line declaration. *)
Theorem message_line_read_as_opener :
  remove_options_from_rpc_blocks ["rpc A(B) returns (C) {"; "message Myrpc {"; "}"] =
    Ok ["rpc A(B) returns (C);"; "message Myrpc;"; "}"].
Proof. reflexivity. Qed.

(** ** Exclusion filter *)

(** C4, as stated, fails: the filter removes the definition of the
    excluded message and nothing else, so the lines of other definitions
    that mention its name, such as a field of its type or an RPC that
    takes it, stay in the output. *)
Lemma exclusion_keeps_references :
  filter_excluded_definitions
    ["message Foo {"; "  message Nested {"; "    int32 a = 1;"; "  }"; "}";
     "message Bar {"; "  Foo f = 1;"; "}";
     "service S {"; "  rpc Get(Foo) returns (Bar);"; "}"] ["Foo"] [] =
  Ok ["message Bar {"; "  Foo f = 1;"; "}";
      "service S {"; "  rpc Get(Foo) returns (Bar);"; "}"]
  ∧ Py.contains "Foo" "  Foo f = 1;" = true
  ∧ Py.contains "Foo" "  rpc Get(Foo) returns (Bar);" = true.
Proof. split_and!; reflexivity. Qed.

(** C4, amended. A body made of a multi-line definition of an excluded
    message, brace-balanced and nested as it may be, and of other lines
    that start no excluded definition: the filter removes the definition
    whole, its nested content and its terminating line included, and
    keeps the other lines as they are. So the output has no occurrence
    of the name exactly when the other lines have none, and its brace
    count is that of the body: it is balanced when the body is. *)
Theorem exclusion_completeness (ms rs pre inner post : list string)
    (name decl term : string) :
  name ∈ ms →
  FilterRun.declares_message name decl →
  FilterRun.closes_at (brace_balance (Py.strip decl)) (inner ++ [term]) →
  FilterRun.total_balance (decl :: inner ++ [term]) = 0%Z →
  Forall (λ l, FilterRun.starts_excluded ms rs l = false) (pre ++ post) →
  ∃ out,
    filter_excluded_definitions (pre ++ decl :: inner ++ term :: post) ms rs = Ok out
    ∧ out = pre ++ post
    ∧ (Forall (λ l, Py.contains name l = false) out
       ↔ Forall (λ l, Py.contains name l = false) (pre ++ post))
    ∧ FilterRun.total_balance out =
      FilterRun.total_balance (pre ++ decl :: inner ++ term :: post).
Proof.
  intros Hin Hd Hcl Hbal Hother.
  apply Forall_app in Hother as [Hpre Hpost].
  exists (pre ++ post).
  rewrite (FilterFacts.filter_run_of_member _ _ _ _ Hin).
  rewrite FilterFacts.run_kept_all by done.
  rewrite (FilterFacts.run_message_start _ _ _ _ _ _ Hin Hd).
  rewrite (cons_middle term), app_assoc.
  rewrite FilterFacts.run_skip_closes by done.
  rewrite <- (app_nil_r post) at 1.
  rewrite FilterFacts.run_kept_all by done. simpl. rewrite app_nil_r.
  split_and!; [done | done | done |].
  rewrite (app_comm_cons (inner ++ [term]) post decl).
  rewrite !FilterFacts.total_balance_app. lia.
Qed.

Lemma exclusion_completeness_witness :
  ∃ out,
    filter_excluded_definitions
      (["message Bar {"; "}"]
       ++ "message Foo {" :: ["  message Nested {"; "    int32 a = 1;"; "  }"]
       ++ "}" :: ["message Baz {}"]) ["Foo"] ["Gone"] = Ok out
    ∧ out = ["message Bar {"; "}"] ++ ["message Baz {}"]
    ∧ (Forall (λ l, Py.contains "Foo" l = false) out
       ↔ Forall (λ l, Py.contains "Foo" l = false)
           (["message Bar {"; "}"] ++ ["message Baz {}"]))
    ∧ FilterRun.total_balance out =
      FilterRun.total_balance
        (["message Bar {"; "}"]
         ++ "message Foo {" :: ["  message Nested {"; "    int32 a = 1;"; "  }"]
         ++ "}" :: ["message Baz {}"]).
Proof.
  apply (exclusion_completeness ["Foo"] ["Gone"] ["message Bar {"; "}"]
           ["  message Nested {"; "    int32 a = 1;"; "  }"] ["message Baz {}"]
           "Foo" "message Foo {" "}").
  - constructor.
  - split; reflexivity.
  - vm_compute. repeat split; discriminate.
  - reflexivity.
  - repeat constructor.
Defined.

(** C10. An excluded message whose declaration line is balanced on its
    own puts the filter in skipping mode with depth zero. The line that
    follows is then always discarded: alone when its balance is zero or
    negative, and with the whole block it opens when its balance is
    positive; if that block never closes, every line after the
    declaration is discarded. In every case the output is the output for
    the lines before the declaration and some of the lines after the
    following line. *)
Theorem balanced_declaration_discards_next (ms rs pre : list string)
    (name decl : string) :
  name ∈ ms →
  FilterRun.declares_message name decl →
  brace_balance (Py.strip decl) = 0%Z →
  Forall (λ l, FilterRun.starts_excluded ms rs l = false) pre →
  (∀ next rest,
     (brace_balance (Py.strip next) ≤ 0)%Z →
     filter_excluded_definitions (pre ++ decl :: next :: rest) ms rs =
     filter_excluded_definitions (pre ++ rest) ms rs)
  ∧ (∀ next blk rest,
       (0 < brace_balance (Py.strip next))%Z →
       FilterRun.closes_at 0 (next :: blk) →
       filter_excluded_definitions (pre ++ decl :: (next :: blk) ++ rest) ms rs =
       filter_excluded_definitions (pre ++ rest) ms rs)
  ∧ (∀ blk,
       FilterRun.stays_open 0 blk →
       filter_excluded_definitions (pre ++ decl :: blk) ms rs = Ok pre)
  ∧ (∀ next rest, ∃ k,
       filter_excluded_definitions (pre ++ decl :: next :: rest) ms rs =
       filter_excluded_definitions (pre ++ drop k rest) ms rs).
Proof.
  intros Hin Hd Hb Hpre.
  assert (∀ blk rest, FilterRun.closes_at 0 blk →
    filter_excluded_definitions (pre ++ decl :: blk ++ rest) ms rs =
    filter_excluded_definitions (pre ++ rest) ms rs) as Hskip.
  { intros blk rest Hcl.
    rewrite !(FilterFacts.filter_run_of_member _ _ _ _ Hin).
    rewrite !FilterFacts.run_kept_all by done.
    rewrite (FilterFacts.run_message_start _ _ _ _ _ _ Hin Hd), Hb.
    by rewrite FilterFacts.run_skip_closes. }
  assert (∀ blk, FilterRun.stays_open 0 blk →
    filter_excluded_definitions (pre ++ decl :: blk) ms rs = Ok pre) as Hopen.
  { intros blk Ho.
    rewrite (FilterFacts.filter_run_of_member _ _ _ _ Hin).
    rewrite FilterFacts.run_kept_all by done.
    rewrite (FilterFacts.run_message_start _ _ _ _ _ _ Hin Hd), Hb.
    rewrite FilterFacts.run_skip_open by done. by rewrite app_nil_r. }
  split_and!.
  - intros next rest Hn. apply (Hskip [next] rest). simpl. lia.
  - intros next blk rest _ Hcl. by apply Hskip.
  - done.
  - intros next rest.
    destruct (FilterFacts.closes_or_stays_open 0 (next :: rest))
      as [(blk & rest' & Heq & Hcl)|Ho].
    + destruct blk as [|b blk]; [done|]. injection Heq as <- ->.
      exists (length blk). rewrite drop_app_length.
      by apply (Hskip (next :: blk) rest').
    + exists (length rest). rewrite drop_all, Hopen by done.
      rewrite (FilterFacts.filter_run_of_member _ _ _ _ Hin).
      rewrite FilterFacts.run_kept_all by done. simpl. by rewrite app_nil_r.
Qed.

Lemma balanced_declaration_discards_next_witness :
  (∀ next rest,
     (brace_balance (Py.strip next) ≤ 0)%Z →
     filter_excluded_definitions (["message Bar {"; "}"] ++ "message Foo {}" :: next :: rest)
       ["Foo"] [] =
     filter_excluded_definitions (["message Bar {"; "}"] ++ rest) ["Foo"] [])
  ∧ (∀ next blk rest,
       (0 < brace_balance (Py.strip next))%Z →
       FilterRun.closes_at 0 (next :: blk) →
       filter_excluded_definitions
         (["message Bar {"; "}"] ++ "message Foo {}" :: (next :: blk) ++ rest) ["Foo"] [] =
       filter_excluded_definitions (["message Bar {"; "}"] ++ rest) ["Foo"] [])
  ∧ (∀ blk,
       FilterRun.stays_open 0 blk →
       filter_excluded_definitions (["message Bar {"; "}"] ++ "message Foo {}" :: blk)
         ["Foo"] [] = Ok ["message Bar {"; "}"])
  ∧ (∀ next rest, ∃ k,
       filter_excluded_definitions
         (["message Bar {"; "}"] ++ "message Foo {}" :: next :: rest) ["Foo"] [] =
       filter_excluded_definitions (["message Bar {"; "}"] ++ drop k rest) ["Foo"] []).
Proof.
  apply (balanced_declaration_discards_next ["Foo"] [] ["message Bar {"; "}"]
           "Foo" "message Foo {}").
  - constructor.
  - split; reflexivity.
  - reflexivity.
  - repeat constructor.
Defined.

Example balanced_declaration_example :
  filter_excluded_definitions
    ["message Foo {}"; "message Keep {"; "  int32 a = 1;"; "}"; "message After {}"]
    ["Foo"] [] = Ok ["message After {}"].
Proof. reflexivity. Qed.

(** ** Merge orchestrator *)

(** C7. The import block holds exactly the import lines of all the
    documents, stripped, rewritten and not self-references; each of them
    once, whatever the number of documents that hold it; sorted by tier
    (lines with [google/] first, then lines with [validate/], then the
    others) and by the text of the line inside a tier. The two example
    documents import [google/api/a.proto] twice and [validate/v.proto]
    once: the merged text has each line once, the former before the
    latter. *)
Theorem import_block_deduplicated_and_sorted (current_module : option string)
    (parsed_files : list Parse.dict) :
  (∀ x, x ∈ ImportRun.block current_module parsed_files ↔
        ∃ parsed, parsed ∈ parsed_files
                  ∧ ImportRun.reaches current_module (Parse.imports parsed) x)
  ∧ NoDup (ImportRun.block current_module parsed_files)
  ∧ (∀ i j x y,
       (i < j)%nat →
       ImportRun.block current_module parsed_files !! i = Some x →
       ImportRun.block current_module parsed_files !! j = Some y →
       (Merge.tier x < Merge.tier y)%nat
       ∨ (Merge.tier x = Merge.tier y ∧ Py.str_leb x y = true ∧ x ≠ y))
  ∧ (∀ x, Merge.tier x =
          if Py.contains "google/" x then 0%nat
          else if Py.contains "validate/" x then 1%nat else 2%nat)
  ∧ Merge.import_block current_module parsed_files =
      match ImportRun.block current_module parsed_files with
      | [] => []
      | block => block ++ [""]
      end
  ∧ merge_proto_files [Examples.first_doc; Examples.second_doc] None None None =
      Ok (Py.join_lines
            ["syntax = proto3;"; ""; "package a;"; "";
             Examples.import_line "google/api/a.proto";
             Examples.import_line "validate/v.proto"; "";
             "message A {"; "}"; ""; "message B {"; "}"] +:+ Py.nl).
Proof.
  unfold ImportRun.block. split_and!.
  - intros x. by rewrite ImportFacts.sorted_imports_elem, ImportFacts.collect_imports_elem.
  - apply ImportFacts.sorted_imports_NoDup.
  - intros i j x y Hij Hi Hj.
    pose proof (ImportFacts.sorted_lookup _ i j x y
                  (ImportFacts.sorted_imports_sorted _) Hij Hi Hj) as Hk.
    apply ImportFacts.key_le_iff in Hk as [Hk|[Hk Hl]]; [by left|]. right.
    repeat split; [done | done |]. intros ->.
    pose proof (ImportFacts.sorted_imports_NoDup
                  (Merge.collect_imports current_module parsed_files)) as Hnd.
    rewrite NoDup_alt in Hnd. specialize (Hnd i j y Hi Hj). lia.
  - done.
  - unfold Merge.import_block. case_bool_decide as He.
    + rewrite He. done.
    + destruct (Merge.sorted_imports _) as [|x l] eqn:E; [|done].
      exfalso. apply He. apply set_eq. intros x.
      rewrite <- ImportFacts.sorted_imports_elem, E. set_solver.
  - vm_compute. reflexivity.
Qed.

(** C8. For every list of document texts, every module identifier and
    every pair of exclusion lists, set or not, [merge_proto_files] returns
    a text: no index is out of range and every loop ends within its
    bound. *)
Theorem merge_never_raises (proto_contents : list string) (current_module : option string)
    (exclude_messages exclude_rpcs : option (list string)) :
  ∃ text,
    merge_proto_files proto_contents current_module exclude_messages exclude_rpcs = Ok text.
Proof.
  destruct proto_contents as [|c cs]; [by exists ""|].
  destruct (PipelineFacts.merge_lines (c :: cs) current_module exclude_messages exclude_rpcs)
    as (merged & H & _); [done|].
  by eexists.
Qed.

(** C9. For a list of documents that is not empty, the merged text is
    its lines joined and one line terminator after them; no line holds a
    terminator and the last line, if there is a line at all, is not
    blank. So the text ends with one terminator, and what stands between
    the terminator before it and the end is never a blank line. *)
Theorem output_termination (proto_contents : list string) (current_module : option string)
    (exclude_messages exclude_rpcs : option (list string)) :
  proto_contents ≠ [] →
  ∃ text merged,
    merge_proto_files proto_contents current_module exclude_messages exclude_rpcs = Ok text
    ∧ text = Py.join_lines merged +:+ Py.nl
    ∧ Forall nl_free merged
    ∧ ends_well merged
    ∧ (∀ pre ws, text = pre +:+ Py.nl +:+ ws +:+ Py.nl → ¬ blank ws).
Proof.
  intros Hne.
  destruct (PipelineFacts.merge_lines proto_contents current_module
              exclude_messages exclude_rpcs Hne) as (merged & H & Hnl & Hw).
  exists (Py.join_lines merged +:+ Py.nl), merged. repeat split; try done.
  intros pre ws Heq. by apply (TextFacts.no_trailing_blank merged pre ws).
Qed.

Lemma output_termination_witness :
  ∃ text merged,
    merge_proto_files [Examples.first_doc; Examples.second_doc] (Some "a") None None = Ok text
    ∧ text = Py.join_lines merged +:+ Py.nl
    ∧ Forall nl_free merged
    ∧ ends_well merged
    ∧ (∀ pre ws, text = pre +:+ Py.nl +:+ ws +:+ Py.nl → ¬ blank ws).
Proof.
  apply (output_termination [Examples.first_doc; Examples.second_doc] (Some "a") None None).
  discriminate.
Defined.

(** * Further properties of the engine *)

(** ** Section extractor *)

(** X1. [parse_proto_file] invents and reorders nothing: the license,
    the imports and the body that it returns are made of lines of the
    document, each list in the order of the document. *)
Theorem parse_keeps_line_order (content : string) :
  ∃ r, parse_proto_file content = Ok r
    ∧ Parse.license r `sublist_of` Py.split_lines content
    ∧ Parse.imports r `sublist_of` Py.split_lines content
    ∧ Parse.body r `sublist_of` Py.split_lines content.
Proof. apply ParseMore.parse_parts_in_order. Qed.

(** X2. The license that [parse_proto_file] returns is an initial
    segment of the document, and each of its lines begins, once
    stripped, with one of the comment markers. *)
Theorem license_is_leading_comment (content : string) :
  ∃ r, parse_proto_file content = Ok r
    ∧ Parse.license r `prefix_of` Py.split_lines content
    ∧ Forall (λ l, ParseRun.comment_like (Py.strip l) = true) (Parse.license r).
Proof. apply ParseMore.parse_license_head. Qed.

(** X3. Each field that [parse_proto_file] captures begins with its
    keyword: the syntax line with [syntax =], the Java package line with
    [option java_package], each import with [import ]; and no import
    that is kept holds a pattern of [import_contains]. *)
Theorem captured_lines_begin_with_keyword (content : string) :
  ∃ r, parse_proto_file content = Ok r
    ∧ (∀ l, Parse.syntax r = Some l → Py.startswith "syntax =" (Py.strip l) = true)
    ∧ (∀ l, Parse.java_package r = Some l →
            Py.startswith "option java_package" (Py.strip l) = true)
    ∧ Forall (λ l, Py.startswith "import " (Py.strip l) = true
                   ∧ existsb (λ pattern, Py.contains pattern l)
                       SKIP_PATTERNS.import_contains = false)
        (Parse.imports r).
Proof. apply ParseMore.parse_keyworded. Qed.

(** X4. A document contributes body lines only after its header: if the
    body that [parse_proto_file] returns is not empty, then both the
    syntax line and the package line were captured. *)
Theorem body_needs_syntax_and_package (content : string) :
  ∃ r, parse_proto_file content = Ok r
    ∧ (Parse.body r ≠ [] → is_Some (Parse.syntax r) ∧ is_Some (Parse.package r)).
Proof. apply ParseMore.parse_body_after_header. Qed.

(** X5. The body that [parse_proto_file] returns holds no import line,
    no [option java_package] line and no line that the skip patterns on
    lines name. So the secondary filter that [merge_proto_files] applies
    to a body removes nothing from it, nor from any part of it. *)
Theorem secondary_filter_removes_nothing (content : string) :
  ∃ r, parse_proto_file content = Ok r
    ∧ Forall (λ l, Py.startswith "import " (Py.strip l) = false
                   ∧ Py.startswith "option java_package" (Py.strip l) = false)
        (Parse.body r)
    ∧ ∀ part, part `sublist_of` Parse.body r →
              List.filter Merge.not_skipped part = part.
Proof.
  destruct (ParseMore.parse_body_line content) as (r & Hr & Hb).
  exists r. split; [done|]. split.
  - eapply Forall_impl; [exact Hb|]. intros l (? & ? & _). by split.
  - intros part Hp. apply ParseMore.filter_all.
    apply Forall_forall. intros l Hl.
    rewrite Forall_forall in Hb.
    by destruct (Hb l (elem_of_sublist _ _ _ Hl Hp)) as (_ & _ & ?).
Qed.

(** ** Exclusion filter *)

(** X6. [filter_excluded_definitions] changes nothing in a body none of
    whose lines starts an excluded definition: a name of the exclusion
    lists that the body does not declare is passed over in silence. *)
Theorem filter_keeps_body_without_excluded (body ms rs : list string) :
  Forall (λ l, FilterRun.starts_excluded ms rs l = false) body →
  filter_excluded_definitions body ms rs = Ok body.
Proof. apply FilterMore.filter_no_excluded. Qed.

Lemma filter_keeps_body_without_excluded_witness :
  filter_excluded_definitions
    ["message Bar {"; "  string rpc_name = 1;"; "}"; "rpc Keep(Bar) returns (Bar);"]
    ["Foo"] ["Gone"] =
  Ok ["message Bar {"; "  string rpc_name = 1;"; "}"; "rpc Keep(Bar) returns (Bar);"].
Proof.
  apply (filter_keeps_body_without_excluded
           ["message Bar {"; "  string rpc_name = 1;"; "}"; "rpc Keep(Bar) returns (Bar);"]
           ["Foo"] ["Gone"]).
  repeat constructor.
Defined.

(** X7. [filter_excluded_definitions] only removes lines: its output is
    made of lines of the body, in the order of the body. *)
Theorem filter_only_removes_lines (body ms rs : list string) :
  ∃ out, filter_excluded_definitions body ms rs = Ok out ∧ out `sublist_of` body.
Proof.
  rewrite FilterFacts.filter_excluded_definitions_run. eexists. split; [done|].
  case_match; [done | apply FilterMore.run_sublist].
Qed.

(** X8. A declaration of an excluded RPC that ends with a semicolon is
    removed alone: in a body whose other lines start no excluded
    definition, the output is the body without that line. *)
Theorem excluded_single_line_rpc_is_dropped (ms rs pre post : list string)
    (name line : string) :
  name ∈ rs →
  Py.startswith "rpc " (Py.strip line) = true →
  match_name "rpc" (Py.strip line) = Some name →
  Py.endswith ";" (Py.strip line) = true →
  Forall (λ l, FilterRun.starts_excluded ms rs l = false) (pre ++ post) →
  filter_excluded_definitions (pre ++ line :: post) ms rs = Ok (pre ++ post).
Proof.
  intros Hin Hs Hm He Hother. apply Forall_app in Hother as [Hpre Hpost].
  rewrite (FilterMore.filter_run_of_rpc _ _ _ _ Hin).
  rewrite FilterFacts.run_kept_all by done.
  rewrite (FilterMore.run_rpc_single _ _ _ _ _ _ Hin Hs Hm He).
  rewrite <- (app_nil_r post) at 1.
  rewrite FilterFacts.run_kept_all by done. simpl. by rewrite app_nil_r.
Qed.

Lemma excluded_single_line_rpc_is_dropped_witness :
  filter_excluded_definitions
    (["service S {"] ++ "  rpc Gone(A) returns (B);" :: ["  rpc Keep(A) returns (B);"; "}"])
    [] ["Gone"] =
  Ok (["service S {"] ++ ["  rpc Keep(A) returns (B);"; "}"]).
Proof.
  apply (excluded_single_line_rpc_is_dropped [] ["Gone"] ["service S {"]
           ["  rpc Keep(A) returns (B);"; "}"] "Gone" "  rpc Gone(A) returns (B);").
  - constructor.
  - reflexivity.
  - reflexivity.
  - reflexivity.
  - repeat constructor.
Defined.

(** X9. A declaration of an excluded RPC that opens a block is removed
    with its block: when the running brace balance, started at the
    balance of the declaration line, stays positive up to the closing
    line, and the other lines start no excluded definition, the output
    is the body without the declaration, the inner lines and the closing
    line. *)
Theorem excluded_rpc_block_is_dropped (ms rs pre inner post : list string)
    (name decl term : string) :
  name ∈ rs →
  Py.startswith "rpc " (Py.strip decl) = true →
  match_name "rpc" (Py.strip decl) = Some name →
  Py.endswith ";" (Py.strip decl) = false →
  Py.contains "{" (Py.strip decl) = true →
  FilterRun.closes_at (brace_balance (Py.strip decl)) (inner ++ [term]) →
  Forall (λ l, FilterRun.starts_excluded ms rs l = false) (pre ++ post) →
  filter_excluded_definitions (pre ++ decl :: inner ++ term :: post) ms rs =
  Ok (pre ++ post).
Proof.
  intros Hin Hs Hm He Hc Hcl Hother. apply Forall_app in Hother as [Hpre Hpost].
  rewrite (FilterMore.filter_run_of_rpc _ _ _ _ Hin).
  rewrite FilterFacts.run_kept_all by done.
  rewrite (FilterMore.run_rpc_start _ _ _ _ _ _ Hin Hs Hm He Hc).
  rewrite (cons_middle term), app_assoc.
  rewrite FilterFacts.run_skip_closes by done.
  rewrite <- (app_nil_r post) at 1.
  rewrite FilterFacts.run_kept_all by done. simpl. by rewrite app_nil_r.
Qed.

Lemma excluded_rpc_block_is_dropped_witness :
  filter_excluded_definitions
    (["service S {"] ++ "  rpc Gone(A) returns (B) {" ::
       ["    option (x) = {"; "      get: 1"; "    };"] ++ "  }" ::
       ["  rpc Keep(A) returns (B);"; "}"])
    ["Foo"] ["Gone"] =
  Ok (["service S {"] ++ ["  rpc Keep(A) returns (B);"; "}"]).
Proof.
  apply (excluded_rpc_block_is_dropped ["Foo"] ["Gone"] ["service S {"]
           ["    option (x) = {"; "      get: 1"; "    };"]
           ["  rpc Keep(A) returns (B);"; "}"] "Gone"
           "  rpc Gone(A) returns (B) {" "  }").
  - constructor.
  - reflexivity.
  - reflexivity.
  - reflexivity.
  - reflexivity.
  - vm_compute. repeat split; discriminate.
  - repeat constructor.
Defined.

(** X10. The exclusion of an RPC depends on the layout of its
    declaration: a declaration line of an excluded RPC that neither ends
    with a semicolon nor holds an opening brace (the block opens on a
    later line) is kept, and the scan goes on after it as if the name
    were not excluded. *)
Theorem excluded_rpc_without_brace_is_kept (ms rs pre post : list string)
    (name line : string) :
  name ∈ rs →
  Py.startswith "rpc " (Py.strip line) = true →
  match_name "rpc" (Py.strip line) = Some name →
  Py.endswith ";" (Py.strip line) = false →
  Py.contains "{" (Py.strip line) = false →
  Forall (λ l, FilterRun.starts_excluded ms rs l = false) (pre ++ post) →
  filter_excluded_definitions (pre ++ line :: post) ms rs = Ok (pre ++ line :: post).
Proof.
  intros Hin Hs Hm He Hc Hother. apply Forall_app in Hother as [Hpre Hpost].
  rewrite (FilterMore.filter_run_of_rpc _ _ _ _ Hin).
  assert (Forall (λ l, FilterRun.starts_excluded ms rs l = false) (pre ++ line :: post))
    as Hall.
  { apply Forall_app. split; [done|]. constructor; [|done].
    unfold FilterRun.starts_excluded.
    rewrite (FilterMore.rpc_not_message _ Hs), Hs, Hm, He, Hc.
    by destruct (Py.truthy_list ms), (Py.truthy_list rs), (bool_decide (name ∈ rs)). }
  rewrite <- (app_nil_r (pre ++ line :: post)) at 1.
  rewrite FilterFacts.run_kept_all by done. simpl. by rewrite app_nil_r.
Qed.

Lemma excluded_rpc_without_brace_is_kept_witness :
  filter_excluded_definitions
    (["service S {"] ++ "  rpc Gone(A) returns (B)" :: ["  {"; "  }"; "}"])
    [] ["Gone"] =
  Ok (["service S {"] ++ "  rpc Gone(A) returns (B)" :: ["  {"; "  }"; "}"]).
Proof.
  apply (excluded_rpc_without_brace_is_kept [] ["Gone"] ["service S {"]
           ["  {"; "  }"; "}"] "Gone" "  rpc Gone(A) returns (B)").
  - constructor.
  - reflexivity.
  - reflexivity.
  - reflexivity.
  - reflexivity.
  - repeat constructor.
Defined.

(** ** Annotation stripper *)

(** X11. [remove_options_from_rpc_blocks] changes nothing in a body that
    has no line read as the opener of an RPC block; option lines outside
    such blocks are kept. *)
Theorem stripper_keeps_body_without_opener (body : list string) :
  Forall (λ l, is_rpc_opener (Py.strip l) = false) body →
  remove_options_from_rpc_blocks body = Ok body.
Proof.
  intros H. rewrite StripFacts.remove_options_lines.
  by rewrite StripMore.strip_lines_no_opener.
Qed.

Lemma stripper_keeps_body_without_opener_witness :
  remove_options_from_rpc_blocks
    ["service S {"; "  option (google.api.http) = { get: 1 };";
     "  rpc A(B) returns (C);"; "}"] =
  Ok ["service S {"; "  option (google.api.http) = { get: 1 };";
      "  rpc A(B) returns (C);"; "}"].
Proof.
  apply (stripper_keeps_body_without_opener
           ["service S {"; "  option (google.api.http) = { get: 1 };";
            "  rpc A(B) returns (C);"; "}"]).
  repeat constructor.
Defined.

(** X12. An RPC block that holds content besides its annotations is
    kept as a block: the opener is emitted as it is, then the inner lines
    that hold no option-block marker, in their order and with their blank
    lines, then the closing line; the lines that hold a marker are
    removed, and the scan goes on after the closing line. *)
Theorem block_with_content_loses_annotations (opener closer : string)
    (inner rest : list string) :
  is_rpc_opener (Py.strip opener) = true →
  Forall (λ l, StripRun.is_inner l = true) inner →
  Py.strip closer = "}" →
  Strip.has_non_empty_content (StripKeep.kept inner) = true →
  ∃ out,
    remove_options_from_rpc_blocks rest = Ok out
    ∧ remove_options_from_rpc_blocks (opener :: inner ++ closer :: rest) =
      Ok (opener :: StripKeep.kept inner ++ closer :: out).
Proof.
  intros Ho Hi Hc Hk. exists (StripRun.lines rest).
  rewrite !StripFacts.remove_options_lines.
  by rewrite StripMore.strip_lines_with_content.
Qed.

Lemma block_with_content_loses_annotations_witness :
  ∃ out,
    remove_options_from_rpc_blocks ["}"] = Ok out
    ∧ remove_options_from_rpc_blocks
        ("  rpc A(B) returns (C) {" ::
           ["    option (google.api.http) = { get: 1 };"; "";
            "    option deprecated = true;"] ++ "  }" :: ["}"]) =
      Ok ("  rpc A(B) returns (C) {" ::
            StripKeep.kept
              ["    option (google.api.http) = { get: 1 };"; "";
               "    option deprecated = true;"] ++ "  }" :: out).
Proof.
  apply (block_with_content_loses_annotations "  rpc A(B) returns (C) {" "  }"
           ["    option (google.api.http) = { get: 1 };"; "";
            "    option deprecated = true;"] ["}"]).
  - reflexivity.
  - repeat constructor.
  - reflexivity.
  - reflexivity.
Defined.

(** X13. An RPC block that the body ends without closing is collapsed:
    the opener loses its brace and gets a semicolon, and the lines after
    it are not dropped but read again as ordinary lines of the body. *)
Theorem unclosed_block_collapses (opener : string) (inner : list string) :
  is_rpc_opener (Py.strip opener) = true →
  Forall (λ l, StripRun.is_inner l = true) inner →
  ∃ out,
    remove_options_from_rpc_blocks inner = Ok out
    ∧ remove_options_from_rpc_blocks (opener :: inner) =
      Ok (rpc_single_line opener :: out).
Proof.
  intros Ho Hi. exists (StripRun.lines inner).
  rewrite !StripFacts.remove_options_lines.
  by rewrite StripMore.strip_lines_unclosed.
Qed.

Lemma unclosed_block_collapses_witness :
  ∃ out,
    remove_options_from_rpc_blocks
      ["    option (google.api.http) = { get: 1 };"; "    option deprecated = true;"] =
    Ok out
    ∧ remove_options_from_rpc_blocks
        ("  rpc A(B) returns (C) {" ::
           ["    option (google.api.http) = { get: 1 };"; "    option deprecated = true;"]) =
      Ok (rpc_single_line "  rpc A(B) returns (C) {" :: out).
Proof.
  apply (unclosed_block_collapses "  rpc A(B) returns (C) {"
           ["    option (google.api.http) = { get: 1 };"; "    option deprecated = true;"]).
  - reflexivity.
  - repeat constructor.
Defined.

(** ** Empty-block collapser *)

(** X14. [cleanup_empty_rpc_blocks] collapses an empty block: an opener
    followed by blank lines only and then by a bare closing brace becomes
    the opener without its brace and with a semicolon; the blank lines and
    the closing line are used up. *)
Theorem empty_block_collapses (opener closer : string) (blanks rest : list string) :
  is_rpc_opener (Py.strip opener) = true →
  Forall blank blanks →
  Py.strip closer = "}" →
  ∃ out,
    cleanup_empty_rpc_blocks rest = Ok out
    ∧ cleanup_empty_rpc_blocks (opener :: blanks ++ closer :: rest) =
      Ok (rpc_single_line opener :: out).
Proof.
  intros Ho Hb Hc. exists (CleanupRun.lines rest).
  rewrite !CleanupFacts.cleanup_lines.
  by rewrite CleanupFacts.cleanup_lines_collapse.
Qed.

Lemma empty_block_collapses_witness :
  ∃ out,
    cleanup_empty_rpc_blocks ["}"] = Ok out
    ∧ cleanup_empty_rpc_blocks
        ("  rpc Query(QueryRequest) returns (QueryResponse) {" :: [""; "   "] ++
           "  }" :: ["}"]) =
      Ok (rpc_single_line "  rpc Query(QueryRequest) returns (QueryResponse) {" :: out).
Proof.
  apply (empty_block_collapses "  rpc Query(QueryRequest) returns (QueryResponse) {" "  }"
           [""; "   "] ["}"]).
  - reflexivity.
  - repeat constructor.
  - reflexivity.
Defined.

(** X15. [cleanup_empty_rpc_blocks] keeps a block that is not empty: an
    opener whose first following line that is not blank is not a bare
    closing brace is emitted as it is, and the scan goes on at the line
    after the opener. *)
Theorem block_with_lines_is_kept (opener c : string) (blanks rest : list string) :
  Forall blank blanks →
  ¬ blank c →
  Py.strip c ≠ "}" →
  ∃ out,
    cleanup_empty_rpc_blocks (blanks ++ c :: rest) = Ok out
    ∧ cleanup_empty_rpc_blocks (opener :: blanks ++ c :: rest) = Ok (opener :: out).
Proof.
  intros Hb Hnb Hc. exists (CleanupRun.lines (blanks ++ c :: rest)).
  rewrite !CleanupFacts.cleanup_lines.
  by rewrite CleanupFacts.cleanup_lines_open_block.
Qed.

Lemma block_with_lines_is_kept_witness :
  ∃ out,
    cleanup_empty_rpc_blocks ([""] ++ "    option deprecated = true;" :: ["  }"]) = Ok out
    ∧ cleanup_empty_rpc_blocks
        ("  rpc A(B) returns (C) {" :: [""] ++ "    option deprecated = true;" :: ["  }"]) =
      Ok ("  rpc A(B) returns (C) {" :: out).
Proof.
  apply (block_with_lines_is_kept "  rpc A(B) returns (C) {" "    option deprecated = true;"
           [""] ["  }"]).
  - repeat constructor.
  - vm_compute. discriminate.
  - vm_compute. discriminate.
Defined.

(** X16. [cleanup_empty_rpc_blocks] is idempotent: it returns on every
    body, and applied to its own output it changes nothing. *)
Theorem cleanup_is_idempotent (body : list string) :
  ∃ out, cleanup_empty_rpc_blocks body = Ok out
       ∧ cleanup_empty_rpc_blocks out = Ok out.
Proof.
  exists (CleanupRun.lines body). rewrite !CleanupFacts.cleanup_lines.
  by rewrite CleanupFacts.cleanup_lines_idem.
Qed.

(** ** Import rewriter *)

(** X17. [transform_import_path] changes nothing in a line that does not
    hold the text [banyandb/]: imports of other projects pass through
    as they are. *)
Theorem rewrite_leaves_foreign_imports (import_line : string) :
  Py.contains "banyandb/" import_line = false →
  transform_import_path import_line = import_line.
Proof. apply RewriteFacts.transform_no_path. Qed.

Lemma rewrite_leaves_foreign_imports_witness :
  transform_import_path (Examples.import_line "google/protobuf/timestamp.proto") =
  Examples.import_line "google/protobuf/timestamp.proto".
Proof.
  apply (rewrite_leaves_foreign_imports
           (Examples.import_line "google/protobuf/timestamp.proto")).
  reflexivity.
Defined.

(** X18. [transform_import_path] maps an import of the upstream layout,
    [import "banyandb/<module>/v1/<file>.proto"] followed by any text
    without [banyandb/], to [import "banyandb/v1/banyandb-<module>.proto"]
    followed by the same text, for every module name that is not empty and
    has no slash and every file name that is not empty and has no double
    quote; the file name is forgotten. The path written is the
    [output_path] of [sync_module] for that module, without its leading
    [proto/]. *)
Theorem rewrite_of_upstream_import (module file tail : string) :
  module ≠ "" → ImportPath.free_of "/" module = true →
  file ≠ "" → ImportPath.free_of Re.dquote file = true →
  Py.contains "banyandb/" tail = false →
  transform_import_path (ImportPath.upstream module file tail) =
    ImportPath.merged module tail
  ∧ ImportPath.merged module tail =
    "import " +:+ String Re.dquote
      (Py.str_drop 6 (ImportPath.output_path module) +:+ String Re.dquote tail).
Proof.
  intros Hm Hfm Hf Hff Ht. split.
  - by apply RewriteFacts.transform_upstream.
  - apply RewriteFacts.merged_names_output.
Qed.

Lemma rewrite_of_upstream_import_witness :
  transform_import_path (ImportPath.upstream "model" "query" ";") =
    ImportPath.merged "model" ";"
  ∧ ImportPath.merged "model" ";" =
    "import " +:+ String Re.dquote
      (Py.str_drop 6 (ImportPath.output_path "model") +:+ String Re.dquote ";").
Proof.
  apply (rewrite_of_upstream_import "model" "query" ";").
  - discriminate.
  - reflexivity.
  - discriminate.
  - reflexivity.
  - reflexivity.
Defined.

(** ** Orchestrator *)

(** X19. [merge_proto_files] drops the imports of the module's own
    files: with a current module whose name is not empty and has no
    slash, an import line of the upstream layout for that module adds
    nothing to the set of imports, and no line of the import block holds
    the path of the merged file of the module. *)
Theorem self_import_is_dropped (m file tail imp : string) (all_imports : gset string)
    (parsed_files : list Parse.dict) :
  m ≠ "" → ImportPath.free_of "/" m = true →
  file ≠ "" → ImportPath.free_of Re.dquote file = true →
  Py.contains "banyandb/" tail = false →
  Py.strip imp = ImportPath.upstream m file tail →
  Merge.add_import (Some m) all_imports imp = all_imports
  ∧ ∀ x, x ∈ ImportRun.block (Some m) parsed_files →
         Py.contains ("banyandb/v1/banyandb-" +:+ m +:+ ".proto") x = false.
Proof.
  intros Hm Hfm Hf Hff Ht Hs. split.
  - by apply (MergeMore.add_import_self m file tail).
  - intros x. by apply MergeMore.block_no_self.
Qed.

Lemma self_import_is_dropped_witness :
  Merge.add_import (Some "common") ∅
    ("  " +:+ ImportPath.upstream "common" "rpc" ";" +:+ "  ") = ∅
  ∧ ∀ x, x ∈ ImportRun.block (Some "common") [] →
         Py.contains ("banyandb/v1/banyandb-" +:+ "common" +:+ ".proto") x = false.
Proof.
  apply (self_import_is_dropped "common" "rpc" ";"
           ("  " +:+ ImportPath.upstream "common" "rpc" ";" +:+ "  ") ∅ []).
  - discriminate.
  - reflexivity.
  - discriminate.
  - reflexivity.
  - reflexivity.
  - reflexivity.
Defined.

(** X20. [merge_proto_files] returns the empty text for an empty list of
    documents and for no other input: with at least one document the
    text is never empty, whatever the documents hold. *)
Theorem merged_text_empty_only_without_documents (proto_contents : list string)
    (current_module : option string) (exclude_messages exclude_rpcs : option (list string)) :
  ∃ text,
    merge_proto_files proto_contents current_module exclude_messages exclude_rpcs = Ok text
    ∧ (text = "" ↔ proto_contents = []).
Proof.
  destruct proto_contents as [|c cs].
  - by exists "".
  - destruct (PipelineFacts.merge_lines (c :: cs) current_module exclude_messages
                exclude_rpcs) as (merged & Hm & _); [done|].
    assert (c :: cs ≠ []) as Hne by done.
    eexists. split; [exact Hm|]. split; [|done]. intros E.
    by destruct (MergeMore.merge_text_not_empty _ _ _ _ _ Hne Hm).
Qed.

(** X21. Only the first document gives [merge_proto_files] its header:
    the documents after the first count through their imports and their
    bodies alone. Replacing them by documents with the same imports and
    the same bodies, whatever their licenses, syntax lines and package
    lines, gives the same merged text. *)
Theorem later_documents_give_imports_and_body (c : string) (cs cs' : list string)
    (ps ps' : list Parse.dict) (current_module : option string)
    (exclude_messages exclude_rpcs : option (list string)) :
  Merge.parse_all cs = Ok ps →
  Merge.parse_all cs' = Ok ps' →
  map MergeRun.contribution ps = map MergeRun.contribution ps' →
  merge_proto_files (c :: cs) current_module exclude_messages exclude_rpcs =
  merge_proto_files (c :: cs') current_module exclude_messages exclude_rpcs.
Proof. apply MergeMore.merge_tail_ext. Qed.

Lemma later_documents_give_imports_and_body_witness :
  merge_proto_files
    (Examples.first_doc ::
       [Py.join_lines ["// License B"; ""; "syntax = proto2;"; "package b;";
                       "message B {"; "}"]])
    None None None =
  merge_proto_files
    (Examples.first_doc ::
       [Py.join_lines ["syntax = proto3;"; "option java_package = x;"; "package c;";
                       "message B {"; "}"]])
    None None None.
Proof.
  eapply (later_documents_give_imports_and_body Examples.first_doc
            [Py.join_lines ["// License B"; ""; "syntax = proto2;"; "package b;";
                            "message B {"; "}"]]
            [Py.join_lines ["syntax = proto3;"; "option java_package = x;"; "package c;";
                            "message B {"; "}"]]).
  - vm_compute. reflexivity.
  - vm_compute. reflexivity.
  - reflexivity.
Defined.

(** X22. Exclusion lists that name nothing the documents declare do not
    change the merged text: when no line of any document starts an
    excluded definition, [merge_proto_files] with the lists gives the text
    that it gives without them. *)
Theorem unused_exclusions_change_nothing (proto_contents : list string)
    (current_module : option string) (ms rs : list string) :
  Forall (λ content,
            Forall (λ l, FilterRun.starts_excluded ms rs l = false)
              (Py.split_lines content)) proto_contents →
  merge_proto_files proto_contents current_module (Some ms) (Some rs) =
  merge_proto_files proto_contents current_module None None.
Proof. apply MergeMore.merge_no_excluded. Qed.

Lemma unused_exclusions_change_nothing_witness :
  merge_proto_files [Examples.first_doc; Examples.second_doc] (Some "common")
    (Some ["InternalWriteRequest"]) (Some ["DeleteExpiredSegments"]) =
  merge_proto_files [Examples.first_doc; Examples.second_doc] (Some "common") None None.
Proof.
  apply (unused_exclusions_change_nothing [Examples.first_doc; Examples.second_doc]
           (Some "common") ["InternalWriteRequest"] ["DeleteExpiredSegments"]).
  repeat constructor.
Defined.
